(** * Linux container driver (lxc_driver.c): model and verified properties

    The driver is a sequential C program whose behaviour is decided by the
    answers of the operating system.  The development embeds every function
    of [lxc_driver.c] that takes part in the connection gate, the capability
    probe, the listing of running domains and the start / shutdown / destroy
    life cycle as a Rocq function in a small monad: a computation takes the
    process state ([world]) and gives back an outcome and the new process
    state.  The operating system is a parameter: a function from the history
    of calls and the current call to the reply. *)

From Stdlib Require Import ZArith String List Bool Lia.
From stdpp Require Import base list.
Import ListNotations.

Local Open Scope string_scope.
Local Open Scope list_scope.
Local Open Scope Z_scope.

(** ** Machine integers *)

(** [int] is a 32-bit two's complement integer; [int_wrap] brings the result
    of an arithmetic operation back into its range. *)
Definition INT_MIN : Z := - 2 ^ 31.
Definition INT_MAX : Z := 2 ^ 31 - 1.

Definition int_wrap (z : Z) : Z := (z + 2 ^ 31) mod 2 ^ 32 - 2 ^ 31.

(** [x++] and [x--] on an [int]. *)
Definition int_incr (x : Z) : Z := int_wrap (x + 1).
Definition int_decr (x : Z) : Z := int_wrap (x - 1).

(** ** Constants *)

(** The namespace flags the file defines itself (lines 54-65). *)
Definition CLONE_NEWPID : Z := 0x20000000.
Definition CLONE_NEWUTS : Z := 0x04000000.
Definition CLONE_NEWUSER : Z := 0x10000000.
Definition CLONE_NEWIPC : Z := 0x08000000.

(** Constants of the Linux system headers ([sched.h], [signal.h],
    [errno.h], [fcntl.h], [poll.h]). *)
Definition CLONE_NEWNS : Z := 0x00020000.
Definition SIGINT : Z := 2.
Definition SIGKILL : Z := 9.
Definition SIGCHLD : Z := 17.
Definition EPERM : Z := 1.
Definition ESRCH : Z := 3.
Definition EINTR : Z := 4.
Definition ECHILD : Z := 10.
Definition EAGAIN : Z := 11.
Definition EINVAL : Z := 22.
Definition O_RDWR : Z := 2.
Definition O_NOCTTY : Z := 256.
Definition O_NONBLOCK : Z := 2048.
Definition POLLIN : Z := 1.

(** [CLONE_NEWPID|CLONE_NEWNS|CLONE_NEWUTS|CLONE_NEWUSER|CLONE_NEWIPC|SIGCHLD],
    the flag word of both [clone] calls. *)
Definition container_flags : Z :=
  Z.lor CLONE_NEWPID
    (Z.lor CLONE_NEWNS
       (Z.lor CLONE_NEWUTS
          (Z.lor CLONE_NEWUSER (Z.lor CLONE_NEWIPC SIGCHLD)))).

(** ** Data model *)

(** Modelled from the spec: the [virDomainState] enumeration is declared in
    the public header, which is not part of this file; the driver uses
    [VIR_DOMAIN_RUNNING], [VIR_DOMAIN_SHUTDOWN] and [VIR_DOMAIN_SHUTOFF], and
    a record that was never started carries the zero value (the spec's OFF). *)
Inductive virDomainState : Type :=
| VIR_DOMAIN_NOSTATE
| VIR_DOMAIN_RUNNING
| VIR_DOMAIN_SHUTDOWN
| VIR_DOMAIN_SHUTOFF.

#[global] Instance virDomainState_eq_dec : EqDecision virDomainState.
Proof. solve_decision. Defined.

(** Modelled from the spec: [virDrvOpenStatus] is declared in [driver.h],
    which is not part of this file.  The spec gives the connection gate
    three outcomes: accepted, declined ("a distinct outcome from error") and
    error. *)
Inductive virDrvOpenStatus : Type :=
| VIR_DRV_OPEN_SUCCESS
| VIR_DRV_OPEN_DECLINED
| VIR_DRV_OPEN_ERROR.

#[global] Instance virDrvOpenStatus_eq_dec : EqDecision virDrvOpenStatus.
Proof. solve_decision. Defined.

(** Modelled from the spec: the error numbers are declared in the public
    error header, which is not part of this file; these are the four kinds
    the spec's error table lists, under the names this file passes to
    [lxcError]. *)
Inductive virErrorNumber : Type :=
| VIR_ERR_NO_DOMAIN
| VIR_ERR_INVALID_DOMAIN
| VIR_ERR_NO_MEMORY
| VIR_ERR_INTERNAL_ERROR.

#[global] Instance virErrorNumber_eq_dec : EqDecision virErrorNumber.
Proof. solve_decision. Defined.

(** Modelled from the spec: [lxc_vm_def_t] is declared in [lxc_conf.h],
    which is not part of this file.  The fields are those of the spec's
    DomainDefinition, under the names this file uses ([vm->def->id],
    [vmDef->tty], ...); the root and mounts, which only the container entry
    routine reads, are left out. *)
Record lxc_vm_def_t : Type := mk_def {
  uuid : list Z;
  name : string;
  id : Z;
  maxMemory : Z;
  tty : string
}.

(** Modelled from the spec: [lxc_vm_t] is declared in [lxc_conf.h].  The
    fields are those of the spec's DomainRecord, under the names this file
    uses: [pid] is the forwarder's pid, [parentTty] and [containerTtyFd] the
    two master descriptors, [containerTty] the slave's name (NULL until the
    first start).  The [next] pointer is the tail of the list the record
    sits in. *)
Record lxc_vm_t : Type := mk_vm {
  pid : Z;
  state : virDomainState;
  configFile : string;
  def : lxc_vm_def_t;
  parentTty : Z;
  containerTtyFd : Z;
  containerTty : option string
}.

(** Modelled from the spec: [lxc_driver_t] is declared in [lxc_conf.h].
    The spec's Driver and Registry: the linked list [vms], the two
    counters and the configuration directory. *)
Record lxc_driver_t : Type := mk_driver {
  vms : list lxc_vm_t;
  nactivevms : Z;
  ninactivevms : Z;
  configDir : option string
}.

(** What [calloc(1, sizeof(lxc_driver_t))] returns: every field zero. *)
Definition zeroed_driver : lxc_driver_t :=
  {| vms := []; nactivevms := 0; ninactivevms := 0; configDir := None |}.

(** The module-level pointer [lxc_driver] (line 69) points to at most one
    allocation; a connection's [privateData] is either NULL or that
    pointer. *)
Inductive lxc_driver_ref : Type := LxcDriverRef.

(** Modelled from the spec: [virConnect] is declared in [internal.h]; the
    gate "adopts the process-wide driver state", so the one field this file
    touches is [privateData]. *)
Record virConnect : Type := mk_conn {
  privateData : option lxc_driver_ref
}.

(** The parsed URI of libxml2; [uri->scheme] may be NULL. *)
Record xmlURI : Type := mk_uri {
  scheme : option string
}.

(** Modelled from the spec: [virDomain] is declared in [internal.h].  The
    handle the dispatch layer passes in carries the id, the name and the
    uuid the domain had when the handle was made ([dom->id], [dom->name],
    [dom->uuid]). *)
Record virDomain : Type := mk_dom {
  dom_id : Z;
  dom_name : string;
  dom_uuid : list Z
}.

(** Field updates ([vm->state = s] and the like). *)
Definition set_id (v : Z) (d : lxc_vm_def_t) : lxc_vm_def_t :=
  {| uuid := uuid d; name := name d; id := v; maxMemory := maxMemory d;
     tty := tty d |}.

Definition set_tty (s : string) (d : lxc_vm_def_t) : lxc_vm_def_t :=
  {| uuid := uuid d; name := name d; id := id d; maxMemory := maxMemory d;
     tty := s |}.

Definition set_def (d : lxc_vm_def_t) (vm : lxc_vm_t) : lxc_vm_t :=
  {| pid := pid vm; state := state vm; configFile := configFile vm; def := d;
     parentTty := parentTty vm; containerTtyFd := containerTtyFd vm;
     containerTty := containerTty vm |}.

Definition set_state (s : virDomainState) (vm : lxc_vm_t) : lxc_vm_t :=
  {| pid := pid vm; state := s; configFile := configFile vm; def := def vm;
     parentTty := parentTty vm; containerTtyFd := containerTtyFd vm;
     containerTty := containerTty vm |}.

Definition set_pid (p : Z) (vm : lxc_vm_t) : lxc_vm_t :=
  {| pid := p; state := state vm; configFile := configFile vm; def := def vm;
     parentTty := parentTty vm; containerTtyFd := containerTtyFd vm;
     containerTty := containerTty vm |}.

Definition set_parentTty (fd : Z) (vm : lxc_vm_t) : lxc_vm_t :=
  {| pid := pid vm; state := state vm; configFile := configFile vm;
     def := def vm; parentTty := fd; containerTtyFd := containerTtyFd vm;
     containerTty := containerTty vm |}.

Definition set_containerTtyFd (fd : Z) (vm : lxc_vm_t) : lxc_vm_t :=
  {| pid := pid vm; state := state vm; configFile := configFile vm;
     def := def vm; parentTty := parentTty vm; containerTtyFd := fd;
     containerTty := containerTty vm |}.

Definition set_containerTty (s : option string) (vm : lxc_vm_t) : lxc_vm_t :=
  {| pid := pid vm; state := state vm; configFile := configFile vm;
     def := def vm; parentTty := parentTty vm;
     containerTtyFd := containerTtyFd vm; containerTty := s |}.

Definition set_vms (l : list lxc_vm_t) (d : lxc_driver_t) : lxc_driver_t :=
  {| vms := l; nactivevms := nactivevms d; ninactivevms := ninactivevms d;
     configDir := configDir d |}.

Definition set_counters (a i : Z) (d : lxc_driver_t) : lxc_driver_t :=
  {| vms := vms d; nactivevms := a; ninactivevms := i;
     configDir := configDir d |}.

(** ** The operating system *)

(** The two routines handed to [clone] as the child's entry. *)
Inductive child_entry : Type := lxcDummyChild | lxcChild.

(** The calls the driver makes into libc, the kernel and its collaborators
    ([saferead], [safewrite] and [lxcSaveConfig] live in other files). *)
Inductive syscall : Type :=
| Malloc (size : Z)
| Calloc (nmemb size : Z)
| Free
| Clone (fn : child_entry) (flags : Z)
| Fork
| Waitpid (p : Z)
| Kill (p sig : Z)
| Open (path : string) (flags : Z)
| PosixOpenpt (flags : Z)
| Grantpt (fd : Z)
| Unlockpt (fd : Z)
| Ptsname (fd : Z)
| PtsnameR (fd : Z)
| Tcgetattr (fd : Z)
| Tcsetattr (fd : Z)
| Close (fd : Z)
| Poll (fds : list Z)
| Saferead (fd : Z)
| Safewrite (fd : Z) (byte : Z)
| SaveConfig (vm_name : string).

(** A reply: the return value ([0] is NULL for the calls that return a
    pointer), the [errno] the call leaves when it fails, and what the call
    writes through its pointer arguments: a string ([ptsname]) or integers
    (the child's status, the [revents] of [poll], the byte read). *)
Record reply : Type := mk_reply {
  ret : Z;
  err : Z;
  out_str : string;
  out_ints : list Z
}.

Definition ok (r : Z) : reply :=
  {| ret := r; err := 0; out_str := ""; out_ints := [] |}.
Definition failing (e : Z) : reply :=
  {| ret := -1; err := e; out_str := ""; out_ints := [] |}.

Definition event : Type := syscall * reply.

(** The kernel is a deterministic strategy: the reply to a call may depend
    on every call made before it. *)
Definition kernel : Type := list event -> syscall -> reply.

(** The state of the calling process. *)
Record world : Type := mk_world {
  uid : Z;                                   (* real user id: [getuid()] *)
  euid : Z;                                  (* effective user id *)
  pagesize : Z;                              (* [getpagesize()] *)
  errno : Z;
  open_fds : list Z;                         (* descriptors held open *)
  history : list event;                      (* calls made, oldest first *)
  errors : list (virErrorNumber * string)    (* raised through [lxcError] *)
}.

(** How a call changes the set of open descriptors. *)
Definition fds_after (c : syscall) (r : reply) (fds : list Z) : list Z :=
  match c with
  | Open _ _ | PosixOpenpt _ => if 0 <=? ret r then ret r :: fds else fds
  | Close fd => List.filter (fun x => negb (x =? fd)) fds
  | _ => fds
  end.

(** The calls that report failure through a negative return set [errno]. *)
Definition errno_after (r : reply) (e : Z) : Z :=
  if ret r <? 0 then err r else e.

(** ** The monad of driver computations *)

(** A computation ends with a value, with a memory fault (a write through
    NULL), or is still inside a loop when the fuel runs out. *)
Inductive outcome (A : Type) : Type :=
| Ret (a : A)
| Fault
| OutOfFuel.
Arguments Ret {A} a.
Arguments Fault {A}.
Arguments OutOfFuel {A}.

Definition M (A : Type) : Type := world -> outcome A * world.

Definition mret {A} (a : A) : M A := fun w => (Ret a, w).

Definition bind {A B} (m : M A) (f : A -> M B) : M B :=
  fun w =>
    match m w with
    | (Ret a, w') => f a w'
    | (Fault, w') => (Fault, w')
    | (OutOfFuel, w') => (OutOfFuel, w')
    end.

Definition fault {A} : M A := fun w => (Fault, w).
Definition out_of_fuel {A} : M A := fun w => (OutOfFuel, w).

Declare Scope lxc_scope.
Delimit Scope lxc_scope with lxc.
Notation "x <- c1 ;; c2" := (bind c1 (fun x => c2))
  (at level 100, c1 at next level, right associativity) : lxc_scope.
Notation "c1 ;; c2" := (bind c1 (fun _ => c2))
  (at level 100, right associativity) : lxc_scope.
Local Open Scope lxc_scope.

Definition getuid : M Z := fun w => (Ret (uid w), w).
Definition getpagesize : M Z := fun w => (Ret (pagesize w), w).
Definition get_errno : M Z := fun w => (Ret (errno w), w).

(** [lxcError(conn, dom, code, fmt, ...)]: record the error. *)
Definition lxcError (code : virErrorNumber) (msg : string) : M unit :=
  fun w =>
    (Ret tt,
     {| uid := uid w; euid := euid w; pagesize := pagesize w;
        errno := errno w; open_fds := open_fds w; history := history w;
        errors := errors w ++ [(code, msg)] |}).

(** [calls w]: the calls of the history, without the replies. *)
Definition calls (w : world) : list syscall := map fst (history w).

(** ** The platform the driver is built and run on *)

(** The kernel, the compile-time facts ([__linux__], the size of the driver
    structure) and the collaborators of [lxc_conf.c] that [lxcStartup] and
    [lxcShutdown] call; each collaborator returns its result code and the
    driver structure as it leaves it. *)
Record platform : Type := mk_platform {
  os : kernel;
  linux : bool;
  sizeof_lxc_driver_t : Z;
  lxcLoadDriverConfig : lxc_driver_t -> M (Z * lxc_driver_t);
  lxcLoadContainerInfo : lxc_driver_t -> M (Z * lxc_driver_t);
  lxcFreeVMs : list lxc_vm_t -> M unit
}.

(** [STRNEQ(a, b)] is [strcmp(a, b) != 0]. *)
Definition STRNEQ (a b : string) : bool := negb (String.eqb a b).

(** Modelled from the spec: [lxcIsActiveVM] is an inline helper of
    [lxc_conf.h], which is not part of this file.  The spec gives the
    runtime id of a domain as "equal to the host-visible process id of the
    namespaced init while running, otherwise -1" and says of the lookup by
    id "active records only (inactive have id = -1)": a record is active
    when its id is not -1. *)
Definition lxcIsActiveVM (vm : lxc_vm_t) : bool := negb (id (def vm) =? -1).

(** Modelled from the spec: [lxcFindVMByID] is a registry function of
    [lxc_conf.c], which is not part of this file.  "lookup by id: active
    records only": the first active record of the list whose id is the one
    asked for, with its position in the list (the C function returns the
    pointer to it). *)
Fixpoint find_by_id (l : list lxc_vm_t) (i : Z) (pos : nat)
  : option (nat * lxc_vm_t) :=
  match l with
  | [] => None
  | vm :: next =>
      if lxcIsActiveVM vm && (id (def vm) =? i) then Some (pos, vm)
      else find_by_id next i (S pos)
  end.

Definition lxcFindVMByID (driver : lxc_driver_t) (i : Z)
  : option (nat * lxc_vm_t) :=
  find_by_id (vms driver) i 0%nat.

(** Writing a record back through the pointer the lookup returned. *)
Definition store_vm (pos : nat) (vm : lxc_vm_t) (driver : lxc_driver_t)
  : lxc_driver_t :=
  set_vms (<[pos := vm]> (vms driver)) driver.

(** [WEXITSTATUS(status)]. *)
Definition WEXITSTATUS (status : Z) : Z :=
  Z.shiftr (Z.land status 0xff00) 8.

Section Driver.

Variable P : platform.

(** One call into the operating system: ask the kernel, append the call to
    the history, update [errno] and the open descriptors. *)
Definition sys (c : syscall) : M reply :=
  fun w =>
    let r := os P (history w) c in
    (Ret r,
     {| uid := uid w; euid := euid w; pagesize := pagesize w;
        errno := errno_after r (errno w);
        open_fds := fds_after c r (open_fds w);
        history := history w ++ [(c, r)];
        errors := errors w |}).

(** *** Capability probe and connection gate (lines 77-151) *)

Definition lxcCheckContainerSupport : M Z :=
  pg <- getpagesize ;;
  stack <- sys (Malloc (pg * 4)) ;;
  if ret stack =? 0 then mret (-1)
  else
    cpid <- sys (Clone lxcDummyChild container_flags) ;;
    e <- get_errno ;;
    rc <- (if (ret cpid <? 0) && (e =? EINVAL) then mret (-1)
           else sys (Waitpid (ret cpid)) ;; mret 0) ;;
    sys Free ;;
    mret rc.

Definition lxcProbe : M (option string) :=
  if linux P then
    rc <- lxcCheckContainerSupport ;;
    if rc =? 0 then mret (Some "lxc:///") else mret None
  else mret None.

(** [lxcOpen]: [lxc_driver] is the module-level pointer, [uri] may be
    NULL.  The result is the status and the connection as the call
    leaves it. *)
Definition lxcOpen (lxc_driver : option lxc_driver_t) (conn : virConnect)
    (uri : option xmlURI) : M (virDrvOpenStatus * virConnect) :=
  u <- getuid ;;
  if negb (u =? 0) then mret (VIR_DRV_OPEN_DECLINED, conn)
  else
    match lxc_driver with
    | None => mret (VIR_DRV_OPEN_DECLINED, conn)
    | Some _ =>
        match uri with
        | None => mret (VIR_DRV_OPEN_DECLINED, conn)
        | Some u =>
            match scheme u with
            | None => mret (VIR_DRV_OPEN_DECLINED, conn)
            | Some s =>
                if STRNEQ s "lxc" then mret (VIR_DRV_OPEN_DECLINED, conn)
                else
                  mret (VIR_DRV_OPEN_SUCCESS,
                        {| privateData := Some LxcDriverRef |})
            end
        end
    end.

(** *** Driver start and stop (lines 922-973) *)

Definition lxcFreeDriver : M unit :=
  sys Free ;; sys Free ;; mret tt.

(** The functions below take the module-level pointer [lxc_driver] and give
    it back as they leave it. *)
Definition lxcShutdown (lxc_driver : option lxc_driver_t)
  : M (Z * option lxc_driver_t) :=
  match lxc_driver with
  | None => mret (-1, None)
  | Some d =>
      lxcFreeVMs P (vms d) ;;
      lxcFreeDriver ;;
      mret (0, None)
  end.

Definition lxcStartup (lxc_driver : option lxc_driver_t)
  : M (Z * option lxc_driver_t) :=
  u <- getuid ;;
  if negb (u =? 0) then mret (-1, lxc_driver)
  else
    p <- sys (Calloc 1 (sizeof_lxc_driver_t P)) ;;
    if ret p =? 0 then mret (-1, None)
    else
      rc <- lxcCheckContainerSupport ;;
      if negb (rc =? 0) then mret (-1, Some zeroed_driver)
      else
        r1 <- lxcLoadDriverConfig P zeroed_driver ;;
        if fst r1 <? 0 then
          s <- lxcShutdown (Some (snd r1)) ;; mret (-1, snd s)
        else
          r2 <- lxcLoadContainerInfo P (snd r1) ;;
          if fst r2 <? 0 then
            s <- lxcShutdown (Some (snd r2)) ;; mret (-1, snd s)
          else mret (0, Some (snd r2)).

(** [lxcActive] *)
Definition lxcActive (lxc_driver : option lxc_driver_t) : Z :=
  match lxc_driver with
  | None => 0
  | Some d => if nactivevms d =? 0 then 0 else 1
  end.

(** *** Listing (lines 219-239) *)

(** The loop of [lxcListDomains]: [ids] is the caller's array, [numDoms]
    the number of slots filled so far.  The caller passes an array of at
    least [nids] slots, so [ids[numDoms]] with [numDoms < nids] is inside
    it; a write past the end of the model's list would be a write past the
    caller's array, and the model drops it. *)
Fixpoint lxcListDomains_loop (l : list lxc_vm_t) (ids : list Z)
    (nids numDoms : Z) : list Z * Z :=
  match l with
  | [] => (ids, numDoms)
  | vm :: next =>
      if numDoms <? nids then
        if lxcIsActiveVM vm then
          lxcListDomains_loop next
            (<[Z.to_nat numDoms := id (def vm)]> ids) nids (int_incr numDoms)
        else lxcListDomains_loop next ids nids numDoms
      else (ids, numDoms)
  end.

Definition lxcListDomains (driver : lxc_driver_t) (ids : list Z) (nids : Z)
  : list Z * Z :=
  lxcListDomains_loop (vms driver) ids nids 0.

Definition lxcNumDomains (driver : lxc_driver_t) : Z := nactivevms driver.
Definition lxcNumDefinedDomains (driver : lxc_driver_t) : Z :=
  ninactivevms driver.

(** *** Shutdown and destroy (lines 814-920) *)

Definition lxcDomainShutdown (driver : lxc_driver_t) (dom : virDomain)
  : M (Z * lxc_driver_t) :=
  match lxcFindVMByID driver (dom_id dom) with
  | None =>
      lxcError VIR_ERR_INVALID_DOMAIN "no domain with id %d" ;;
      mret (-1, driver)
  | Some (pos, vm) =>
      r <- sys (Kill (id (def vm)) SIGINT) ;;
      e <- get_errno ;;
      if (ret r <? 0) && negb (e =? ESRCH) then
        lxcError VIR_ERR_INTERNAL_ERROR "sending SIGTERM failed: %s" ;;
        mret (-1, driver)
      else
        mret (0, store_vm pos (set_state VIR_DOMAIN_SHUTDOWN vm) driver)
  end.

(** [while (((waitRc = waitpid(p, &childStatus, 0)) == -1) &&
    errno == EINTR);] gives [waitRc] and [childStatus]. *)
Fixpoint waitpid_retry (fuel : nat) (p : Z) : M (Z * Z) :=
  match fuel with
  | O => out_of_fuel
  | S fuel' =>
      r <- sys (Waitpid p) ;;
      e <- get_errno ;;
      if (ret r =? -1) && (e =? EINTR) then waitpid_retry fuel' p
      else mret (ret r, hd 0 (out_ints r))
  end.

(** The tail of [lxcDomainDestroy] from the label [tty_error_out]. *)
Definition destroy_reconcile (pos : nat) (vm : lxc_vm_t)
    (driver : lxc_driver_t) : lxc_driver_t :=
  let vm1 := set_state VIR_DOMAIN_SHUTOFF vm in
  let vm2 := set_pid (-1) vm1 in
  let vm3 := set_def (set_id (-1) (def vm2)) vm2 in
  set_counters (int_decr (nactivevms driver)) (int_incr (ninactivevms driver))
    (store_vm pos vm3 driver).

(** [lxcDomainDestroy] from the label [kill_tty] on; [vm] already carries
    the state [VIR_DOMAIN_SHUTDOWN]. *)
Definition destroy_kill_tty (fuel : nat) (pos : nat) (vm : lxc_vm_t)
    (driver : lxc_driver_t) : M (Z * lxc_driver_t) :=
  r <- sys (Kill (pid vm) SIGKILL) ;;
  e <- get_errno ;;
  (if (ret r <? 0) && negb (e =? ESRCH) then
     lxcError VIR_ERR_INTERNAL_ERROR
       "sending SIGKILL to tty process failed: %s"
   else
     wt <- waitpid_retry fuel (pid vm) ;;
     if negb (fst wt =? pid vm) then
       lxcError VIR_ERR_INTERNAL_ERROR
         "waitpid failed to wait for tty %d: %d %s"
     else mret tt) ;;
  mret (0, destroy_reconcile pos vm driver).

Definition lxcDomainDestroy (fuel : nat) (driver : lxc_driver_t)
    (dom : virDomain) : M (Z * lxc_driver_t) :=
  match lxcFindVMByID driver (dom_id dom) with
  | None =>
      lxcError VIR_ERR_INVALID_DOMAIN "no domain with id %d" ;;
      mret (-1, driver)
  | Some (pos, vm) =>
      r <- sys (Kill (id (def vm)) SIGKILL) ;;
      e <- get_errno ;;
      if (ret r <? 0) && negb (e =? ESRCH) then
        lxcError VIR_ERR_INTERNAL_ERROR "sending SIGKILL failed: %s" ;;
        mret (-1, driver)
      else
        let vm1 := set_state VIR_DOMAIN_SHUTDOWN vm in
        wc <- waitpid_retry fuel (id (def vm1)) ;;
        rc <- (if negb (fst wc =? id (def vm1)) then
                 lxcError VIR_ERR_INTERNAL_ERROR
                   "waitpid failed to wait for container %d: %d %s" ;;
                 mret (-1)
               else mret (WEXITSTATUS (snd wc))) ;;
        (* [rc] is overwritten with 0 after the label [tty_error_out] *)
        destroy_kill_tty fuel pos vm1 driver
  end.

(** *** The pty tunnel (lines 440-593) *)

Definition lxcPutTtyInRawMode (ttyDev : Z) : M Z :=
  g <- sys (Tcgetattr ttyDev) ;;
  if ret g <? 0 then
    lxcError VIR_ERR_INTERNAL_ERROR "tcgetattr() failed: %s" ;; mret (-1)
  else
    s <- sys (Tcsetattr ttyDev) ;;
    if ret s <? 0 then
      lxcError VIR_ERR_INTERNAL_ERROR "tcsetattr failed: %s" ;; mret (-1)
    else mret 0.

(** The label [setup_complete] of [lxcSetupTtyTunnel]. *)
Definition setup_complete (rc ttyDev : Z) : M Z :=
  (if negb (0 =? rc) && (0 <? ttyDev) then sys (Close ttyDev) ;; mret tt
   else mret tt) ;;
  mret rc.

(** [lxcSetupTtyTunnel]: gives [rc], the definition as the call leaves it
    and the value written to [*ttyDev]. *)
Definition lxcSetupTtyTunnel (vmDef : lxc_vm_def_t)
  : M (Z * lxc_vm_def_t * Z) :=
  if 0 <? Z.of_nat (String.length (tty vmDef)) then
    o <- sys (Open (tty vmDef) (Z.lor O_RDWR (Z.lor O_NOCTTY O_NONBLOCK))) ;;
    let ttyDev := ret o in
    if ttyDev <? 0 then
      lxcError VIR_ERR_INTERNAL_ERROR "open() tty failed: %s" ;;
      rc <- setup_complete (-1) ttyDev ;; mret (rc, vmDef, ttyDev)
    else
      g <- sys (Grantpt ttyDev) ;;
      if ret g <? 0 then
        lxcError VIR_ERR_INTERNAL_ERROR "grantpt() failed: %s" ;;
        rc <- setup_complete (ret g) ttyDev ;; mret (rc, vmDef, ttyDev)
      else
        u <- sys (Unlockpt ttyDev) ;;
        if ret u <? 0 then
          lxcError VIR_ERR_INTERNAL_ERROR "unlockpt() failed: %s" ;;
          rc <- setup_complete (ret u) ttyDev ;; mret (rc, vmDef, ttyDev)
        else
          p <- sys (Ptsname ttyDev) ;;
          if ret p =? 0 then
            lxcError VIR_ERR_INTERNAL_ERROR "ptsname() failed" ;;
            (* [rc] still holds what [unlockpt] returned *)
            rc <- setup_complete (ret u) ttyDev ;; mret (rc, vmDef, ttyDev)
          else
            let vmDef' :=
              if STRNEQ (out_str p) (tty vmDef)
              then set_tty (out_str p) vmDef else vmDef in
            raw <- lxcPutTtyInRawMode ttyDev ;;
            if raw <? 0 then
              rc <- setup_complete (ret u) ttyDev ;; mret (rc, vmDef', ttyDev)
            else
              rc <- setup_complete 0 ttyDev ;; mret (rc, vmDef', ttyDev)
  else
    rc <- setup_complete 0 (-1) ;; mret (rc, vmDef, -1).

(** The label [cleanup] of [lxcSetupContainerTty]. *)
Definition container_tty_cleanup (rc ttymaster : Z) : M Z :=
  (if negb (0 =? rc) then
     if negb (-1 =? ttymaster) then sys (Close ttymaster) ;; mret tt
     else mret tt
   else mret tt) ;;
  mret rc.

(** [lxcSetupContainerTty]: [ttyName] is the caller's string pointer as it
    is on entry; the result is [rc], [*ttymaster] and [*ttyName].  The test
    [NULL == ttyName] compares the address of the caller's variable, so it
    never holds, and after a failed [malloc] the [strcpy] writes through
    NULL. *)
Definition lxcSetupContainerTty (ttyName : option string)
  : M (Z * Z * option string) :=
  o <- sys (PosixOpenpt (Z.lor O_RDWR O_NOCTTY)) ;;
  let ttymaster := ret o in
  if ttymaster <? 0 then
    lxcError VIR_ERR_INTERNAL_ERROR "posix_openpt failed: %s" ;;
    rc <- container_tty_cleanup (-1) ttymaster ;; mret (rc, ttymaster, ttyName)
  else
    u <- sys (Unlockpt ttymaster) ;;
    if ret u <? 0 then
      lxcError VIR_ERR_INTERNAL_ERROR "unlockpt failed: %s" ;;
      rc <- container_tty_cleanup (-1) ttymaster ;;
      mret (rc, ttymaster, ttyName)
    else
      p <- sys (PtsnameR ttymaster) ;;
      if negb (0 =? ret p) then
        lxcError VIR_ERR_INTERNAL_ERROR "ptsname_r failed: %s" ;;
        rc <- container_tty_cleanup (-1) ttymaster ;;
        mret (rc, ttymaster, ttyName)
      else
        m <- sys (Malloc (Z.of_nat (String.length (out_str p)) + 1)) ;;
        if ret m =? 0 then fault
        else
          rc <- container_tty_cleanup 0 ttymaster ;;
          mret (rc, ttymaster, Some (out_str p)).

(** *** The forwarder (lines 605-675) *)

(** The [pollfd] array: the descriptors that are not negative, [fd1]
    first. *)
Definition pollfds (fd1 fd2 : Z) : list Z :=
  (if 0 <=? fd1 then [fd1] else []) ++ (if 0 <=? fd2 then [fd2] else []).

(** The [for] loop over the polled descriptors; [true] when the function
    leaves through [cleanup]. *)
Fixpoint forward_ready (fds revents : list Z) (idxs : list nat) : M bool :=
  match idxs with
  | [] => mret false
  | i :: rest =>
      let rev := nth i revents 0 in
      if rev =? 0 then forward_ready fds revents rest
      else if negb (Z.land rev POLLIN =? 0) then
        rd <- sys (Saferead (nth i fds 0)) ;;
        if negb (1 =? ret rd) then
          lxcError VIR_ERR_INTERNAL_ERROR "read of fd %d failed: %s" ;;
          mret true
        else if 1 <? Z.of_nat (length fds) then
          wr <- sys (Safewrite (nth (Nat.lxor i 1) fds 0)
                       (hd 0 (out_ints rd))) ;;
          if negb (1 =? ret wr) then
            lxcError VIR_ERR_INTERNAL_ERROR "write to fd %d failed: %s" ;;
            mret true
          else forward_ready fds revents rest
        else forward_ready fds revents rest
      else forward_ready fds revents rest
  end.

(** The [while (1)] loop; the value returned is [rc], which holds what the
    last [poll] returned. *)
Fixpoint forward_loop (fuel : nat) (fds : list Z) : M Z :=
  match fuel with
  | O => out_of_fuel
  | S fuel' =>
      r <- sys (Poll fds) ;;
      e <- get_errno ;;
      let rc := ret r in
      if rc <=? 0 then
        if (0 =? rc) || (e =? EINTR) || (e =? EAGAIN) then
          forward_loop fuel' fds
        else
          lxcError VIR_ERR_INTERNAL_ERROR "poll returned error: %s" ;;
          mret rc
      else
        stop <- forward_ready fds (out_ints r) (seq 0 (length fds)) ;;
        if stop then mret rc else forward_loop fuel' fds
  end.

Definition lxcTtyForward (fuel : nat) (fd1 fd2 : Z) : M Z :=
  let fds := pollfds fd1 fd2 in
  if (0 =? Z.of_nat (length fds)) then mret (-1)
  else forward_loop fuel fds.

(** *** Starting a domain (lines 393-429 and 687-730) *)

Definition lxcStartContainer (vm : lxc_vm_t) : M (Z * lxc_vm_t) :=
  pg <- getpagesize ;;
  stack <- sys (Malloc (pg * 4)) ;;
  if ret stack =? 0 then
    lxcError VIR_ERR_NO_MEMORY "unable to allocate container stack" ;;
    mret (-1, vm)
  else
    c <- sys (Clone lxcChild container_flags) ;;
    let vm' := set_def (set_id (ret c) (def vm)) vm in
    if id (def vm') <? 0 then
      lxcError VIR_ERR_INTERNAL_ERROR "clone() failed, %s" ;;
      mret (-1, vm')
    else
      sys (SaveConfig (name (def vm'))) ;;
      mret (0, vm').

(** [lxcVmStart]: [vm] is the record the pointer refers to; the result is
    [rc], the record and the driver as the call leaves them.  When [fork]
    returns [0] the computation follows the child, which runs the
    forwarder. *)
Definition lxcVmStart (fuel : nat) (driver : lxc_driver_t) (vm : lxc_vm_t)
  : M (Z * lxc_vm_t * lxc_driver_t) :=
  t <- lxcSetupTtyTunnel (def vm) ;;
  let vm1 := set_parentTty (snd t) (set_def (snd (fst t)) vm) in
  if fst (fst t) <? 0 then mret (-1, vm1, driver)
  else
    c <- lxcSetupContainerTty (containerTty vm1) ;;
    let vm2 :=
      set_containerTty (snd c) (set_containerTtyFd (snd (fst c)) vm1) in
    if fst (fst c) <? 0 then mret (-1, vm2, driver)
    else
      f <- sys Fork ;;
      let vm3 := set_pid (ret f) vm2 in
      if pid vm3 <? 0 then
        lxcError VIR_ERR_INTERNAL_ERROR
          "unable to fork tty forwarding process: %s" ;;
        mret (-1, vm3, driver)
      else
        (if pid vm3 =? 0 then
           lxcTtyForward fuel (parentTty vm3) (containerTtyFd vm3) ;; mret tt
         else mret tt) ;;
        sys (Close (parentTty vm3)) ;;
        sys (Close (containerTtyFd vm3)) ;;
        s <- lxcStartContainer vm3 ;;
        if fst s =? 0 then
          mret (fst s, set_state VIR_DOMAIN_RUNNING (snd s),
                set_counters (int_incr (nactivevms driver))
                  (int_decr (ninactivevms driver)) driver)
        else mret (fst s, snd s, driver).

End Driver.

(** ** Example platforms *)

(** A kernel with namespace support on which every call succeeds: pointers
    are not NULL, [clone] gives pid 200, [fork] gives pid 100 (the parent's
    side), [open] gives descriptor 4 and [posix_openpt] descriptor 5, the
    slave is "/dev/pts/3", [waitpid] reaps the pid asked for, and [poll]
    reports the first descriptor readable. *)
Definition friendly_kernel : kernel :=
  fun _ c =>
    match c with
    | Malloc _ | Calloc _ _ => ok 4096
    | Clone _ _ => ok 200
    | Fork => ok 100
    | Waitpid p => ok p
    | Open _ _ => ok 4
    | PosixOpenpt _ => ok 5
    | Ptsname _ =>
        {| ret := 4096; err := 0; out_str := "/dev/pts/3"; out_ints := [] |}
    | PtsnameR _ =>
        {| ret := 0; err := 0; out_str := "/dev/pts/3"; out_ints := [] |}
    | Poll _ => {| ret := 1; err := 0; out_str := ""; out_ints := [POLLIN] |}
    | Saferead _ => {| ret := 1; err := 0; out_str := ""; out_ints := [65] |}
    | Safewrite _ _ => ok 1
    | _ => ok 0
    end.

(** [answering sel r k]: the kernel [k], except that the calls [sel] picks
    get the reply [r]. *)
Definition answering (sel : syscall -> bool) (r : reply) (k : kernel)
  : kernel :=
  fun h c => if sel c then r else k h c.

Definition is_malloc (c : syscall) : bool :=
  match c with Malloc _ => true | _ => false end.
Definition is_clone (c : syscall) : bool :=
  match c with Clone _ _ => true | _ => false end.
Definition is_fork (c : syscall) : bool :=
  match c with Fork => true | _ => false end.
Definition is_kill (c : syscall) : bool :=
  match c with Kill _ _ => true | _ => false end.
Definition is_waitpid (c : syscall) : bool :=
  match c with Waitpid _ => true | _ => false end.

(** A platform around a kernel: built for Linux, with collaborators that
    load nothing and succeed. *)
Definition platform_of (k : kernel) : platform :=
  {| os := k;
     linux := true;
     sizeof_lxc_driver_t := 32;
     lxcLoadDriverConfig := fun d => mret (0, d);
     lxcLoadContainerInfo := fun d => mret (0, d);
     lxcFreeVMs := fun _ => mret tt |}.

(** A fresh process with the given real and effective user ids. *)
Definition process (ruid effuid : Z) : world :=
  {| uid := ruid; euid := effuid; pagesize := 4096; errno := 0;
     open_fds := []; history := []; errors := [] |}.

Definition root_process : world := process 0 0.

(** The URI [lxc:///]. *)
Definition lxc_uri : option xmlURI := Some {| scheme := Some "lxc" |}.

Definition closed_conn : virConnect := {| privateData := None |}.

(** [since w w']: the calls made, with their replies, on the way from the
    process state [w] to [w']. *)
Definition since (w w' : world) : list event :=
  drop (length (history w)) (history w').

(** [accepted r]: [lxcOpen] returned [VIR_DRV_OPEN_SUCCESS]. *)
Definition accepted (r : outcome (virDrvOpenStatus * virConnect)) : Prop :=
  exists conn, r = Ret (VIR_DRV_OPEN_SUCCESS, conn).

(** [declined r conn]: [lxcOpen] returned [VIR_DRV_OPEN_DECLINED] and left
    the connection as it was. *)
Definition declined (r : outcome (virDrvOpenStatus * virConnect))
    (conn : virConnect) : Prop :=
  r = Ret (VIR_DRV_OPEN_DECLINED, conn).

(** The URI names the driver: it is not NULL, it has a scheme, and the
    scheme is "lxc". *)
Definition lxc_scheme (uri : option xmlURI) : Prop :=
  exists u, uri = Some u /\ scheme u = Some "lxc".

(** The gate's condition as a boolean: real user id 0, the singleton is
    there, the URI has the scheme "lxc". *)
Definition gate_open (lxc_driver : option lxc_driver_t) (uri : option xmlURI)
    (w : world) : bool :=
  (uid w =? 0)
  && (match lxc_driver with Some _ => true | None => false end)
  && (match uri with
      | Some u =>
          match scheme u with Some s => String.eqb s "lxc" | None => false end
      | None => false
      end).

(** ** The registry's bookkeeping *)

(** The ids of the active records, in the order of the list. *)
Definition active_ids (l : list lxc_vm_t) : list Z :=
  map (fun vm => id (def vm)) (List.filter lxcIsActiveVM l).


(** The spec's registry invariant on one record: it is in state RUNNING
    exactly when it is active. *)
Definition running_iff_active (vm : lxc_vm_t) : Prop :=
  state vm = VIR_DOMAIN_RUNNING <-> lxcIsActiveVM vm = true.

(** The counters match the sizes of the two partitions. *)
Definition counters_reconciled (driver : lxc_driver_t) : Prop :=
  nactivevms driver
  = Z.of_nat (length (List.filter lxcIsActiveVM (vms driver))) /\
  ninactivevms driver
  = Z.of_nat (length (List.filter (fun vm => negb (lxcIsActiveVM vm))
                        (vms driver))).

(** The handle a lookup makes for a record: [virGetDomain] with the record's
    name and uuid, then [dom->id = vm->def->id]. *)
Definition handle_of (vm : lxc_vm_t) : virDomain :=
  {| dom_id := id (def vm); dom_name := name (def vm);
     dom_uuid := uuid (def vm) |}.

(** What [destroy] promises about a record: the terminal bookkeeping
    state. *)
Definition reconciled_record (vm : lxc_vm_t) : Prop :=
  pid vm = -1 /\ id (def vm) = -1 /\ state vm = VIR_DOMAIN_SHUTOFF /\
  lxcIsActiveVM vm = false.

(** The process state after [lxcError] has recorded an error. *)
Definition raised (code : virErrorNumber) (msg : string) (w : world) : world :=
  snd (lxcError code msg w).

(** ** Example records *)

(** A defined domain that was never started. *)
Definition defined_vm (n t : string) : lxc_vm_t :=
  {| pid := -1; state := VIR_DOMAIN_NOSTATE; configFile := "";
     def := {| uuid := []; name := n; id := -1; maxMemory := 65536;
               tty := t |};
     parentTty := -1; containerTtyFd := -1; containerTty := None |}.

(** A running domain: the container's init has pid [i], the forwarder
    pid [fwd]. *)
Definition running_vm (n : string) (i fwd : Z) : lxc_vm_t :=
  {| pid := fwd; state := VIR_DOMAIN_RUNNING; configFile := "";
     def := {| uuid := []; name := n; id := i; maxMemory := 65536;
               tty := "" |};
     parentTty := -1; containerTtyFd := 5;
     containerTty := Some "/dev/pts/3" |}.

(** A domain that was destroyed. *)
Definition destroyed_vm (n : string) : lxc_vm_t :=
  {| pid := -1; state := VIR_DOMAIN_SHUTOFF; configFile := "";
     def := {| uuid := []; name := n; id := -1; maxMemory := 65536;
               tty := "" |};
     parentTty := -1; containerTtyFd := 5;
     containerTty := Some "/dev/pts/3" |}.

(** A registry with two running domains and a destroyed one between
    them. *)
Definition example_driver : lxc_driver_t :=
  {| vms := [running_vm "c1" 41 40; destroyed_vm "c2"; running_vm "c3" 43 42];
     nactivevms := 2; ninactivevms := 1; configDir := None |}.

(** ** Signals that interrupt a wait *)

(** A [waitpid] that came back with -1 and EINTR. *)
Definition interrupted (e : event) : bool :=
  is_waitpid (fst e) && (ret (snd e) =? -1) && (err (snd e) =? EINTR).

Definition interruptions (h : list event) : nat :=
  length (List.filter interrupted h).

(** The kernel interrupts the waits of this process at most [n] times. *)
Definition interruptions_bounded (k : kernel) (n : nat) : Prop :=
  forall (h : list event) (p : Z),
    (n <= interruptions h)%nat ->
    interrupted (Waitpid p, k h (Waitpid p)) = false.

(** The kernel's signal was delivered, or there was no such process. *)
Definition delivered_or_gone (r : reply) : Prop :=
  0 <= ret r \/ err r = ESRCH.

(** A registry with one defined domain, never started. *)
Definition start_driver (n t : string) : lxc_driver_t :=
  {| vms := [defined_vm n t]; nactivevms := 0; ninactivevms := 1;
     configDir := None |}.

Definition is_close (c : syscall) : bool :=
  match c with Close _ => true | _ => false end.

(** [extends w w']: the history of [w'] continues the history of [w]. *)
Definition extends (w w' : world) : Prop :=
  exists delta, history w' = history w ++ delta.

(** A computation only ever adds to the history. *)
Definition hist_mono {A} (m : M A) : Prop :=
  forall w, extends w (snd (m w)).


(** ** Listing the defined domains (lines 241-269) *)

Section DefinedDomains.

Variable P : platform.

(** [strdup(s)]: the copy is allocated with [malloc(strlen(s) + 1)], and the
    result is NULL when that allocation fails. *)
Definition strdup (s : string) : M (option string) :=
  m <- sys P (Malloc (Z.of_nat (String.length s) + 1)) ;;
  if ret m =? 0 then mret None else mret (Some s).

(** The label [cleanup] of [lxcListDefinedDomains]:
    [for (i = 0 ; i < numDoms ; i++) free(names[i]);]. *)
Fixpoint free_names (n : nat) : M unit :=
  match n with
  | O => mret tt
  | S n' => sys P Free ;; free_names n'
  end.

(** The loop of [lxcListDefinedDomains]: [names] is the caller's array of
    string pointers ([None] is NULL), [numDoms] the number of slots filled
    so far.  The assignment [names[numDoms] = strdup(...)] is made before
    the test, so a failed copy leaves NULL in the slot.  After the label
    [cleanup] the slots below [numDoms] still hold the pointers that were
    freed.  The caller passes an array of at least [nnames] slots, so
    [names[numDoms]] with [numDoms < nnames] is inside it; as in
    [lxcListDomains_loop], a write past the end of the model's list would
    be a write past the caller's array, and the model drops it: the
    properties below are stated for arrays of at least [nnames] slots. *)
Fixpoint lxcListDefinedDomains_loop (l : list lxc_vm_t)
    (names : list (option string)) (nnames numDoms : Z)
  : M (Z * list (option string)) :=
  match l with
  | [] => mret (numDoms, names)
  | vm :: next =>
      if numDoms <? nnames then
        if negb (lxcIsActiveVM vm) then
          c <- strdup (name (def vm)) ;;
          let names' := <[Z.to_nat numDoms := c]> names in
          match c with
          | None =>
              lxcError VIR_ERR_NO_MEMORY "names" ;;
              free_names (Z.to_nat numDoms) ;;
              mret (-1, names')
          | Some _ =>
              lxcListDefinedDomains_loop next names' nnames
                (int_incr numDoms)
          end
        else lxcListDefinedDomains_loop next names nnames numDoms
      else mret (numDoms, names)
  end.

Definition lxcListDefinedDomains (driver : lxc_driver_t)
    (names : list (option string)) (nnames : Z)
  : M (Z * list (option string)) :=
  lxcListDefinedDomains_loop (vms driver) names nnames 0.

End DefinedDomains.

(** ** Reading a history *)

(** The names of the inactive records, in the order of the list. *)
Definition inactive_names (l : list lxc_vm_t) : list string :=
  map (fun vm => name (def vm))
    (List.filter (fun vm => negb (lxcIsActiveVM vm)) l).

Definition is_free (c : syscall) : bool :=
  match c with Free => true | _ => false end.

(** A [malloc] that gave memory. *)
Definition allocated (e : event) : bool :=
  is_malloc (fst e) && negb (ret (snd e) =? 0).

(** The number of blocks [malloc] handed out, and the number of calls of
    [free], in a stretch of history. *)
Definition allocations (h : list event) : nat :=
  length (List.filter allocated h).
Definition releases (h : list event) : nat :=
  length (List.filter (fun e => is_free (fst e)) h).

(** The byte a successful [saferead] from [fd] delivered. *)
Definition read_byte (fd : Z) (e : event) : list Z :=
  match fst e with
  | Saferead fd' =>
      if (fd' =? fd) && (ret (snd e) =? 1) then [hd 0 (out_ints (snd e))]
      else []
  | _ => []
  end.

(** The byte handed to a [safewrite] on [fd]. *)
Definition written_byte (fd : Z) (e : event) : list Z :=
  match fst e with
  | Safewrite fd' b => if fd' =? fd then [b] else []
  | _ => []
  end.

(** The bytes read from [fd], and the bytes handed to [safewrite] for [fd],
    in a stretch of history, oldest first. *)
Definition bytes_read (fd : Z) (h : list event) : list Z :=
  flat_map (read_byte fd) h.
Definition bytes_written (fd : Z) (h : list event) : list Z :=
  flat_map (written_byte fd) h.

(** Every descriptor open in [w'] was open in [w]. *)
Definition no_new_fds (w w' : world) : Prop :=
  forall fd, In fd (open_fds w') -> In fd (open_fds w).

(** The kernel's verdict on the namespace flags, as [lxcCheckContainerSupport]
    reads it: [clone] failed and left EINVAL. *)
Definition flags_rejected (r : reply) : Prop :=
  ret r < 0 /\ err r = EINVAL.

(** [relays fd1 fd2 h]: in the stretch of history [h], what was handed to
    [safewrite] for one descriptor is what was read from the other, byte
    for byte and in order. *)
Definition relays (fd1 fd2 : Z) (h : list event) : Prop :=
  bytes_written fd2 h = bytes_read fd1 h /\
  bytes_written fd1 h = bytes_read fd2 h.

(** A wait for the process [p]. *)
Definition is_wait_for (p : Z) (e : event) : Prop := fst e = Waitpid p.

(** ** More example platforms *)

Definition is_grantpt (c : syscall) : bool :=
  match c with Grantpt _ => true | _ => false end.
Definition is_ptsname (c : syscall) : bool :=
  match c with Ptsname _ => true | _ => false end.

(** The handle of the domain that [clone] on the friendly kernel starts. *)
Definition started_handle (n : string) : virDomain :=
  {| dom_id := 200; dom_name := n; dom_uuid := [] |}.

(** [completed_wait p d]: the stretch of history [d] is one run of the
    loop [while (waitpid(p, ...) == -1 && errno == EINTR);] to its end:
    waits for [p] that were interrupted, then one that was not. *)
Definition completed_wait (p : Z) (d : list event) : Prop :=
  exists ints last,
    d = ints ++ [last] /\
    Forall (fun e => is_wait_for p e /\ interrupted e = true) ints /\
    is_wait_for p last /\ interrupted last = false.

(** * Verified properties *)

(** ** Basic facts about the monad and the operating system *)

Lemma int_wrap_small (z : Z) : INT_MIN <= z <= INT_MAX -> int_wrap z = z.
Proof.
  unfold INT_MIN, INT_MAX, int_wrap. intros H.
  rewrite Z.mod_small by lia. lia.
Qed.

Lemma history_sys (P : platform) (c : syscall) (w : world) :
  history (snd (sys P c w)) = history w ++ [(c, os P (history w) c)].
Proof. reflexivity. Qed.

Lemma since_app (w w' : world) (delta : list event) :
  history w' = history w ++ delta -> since w w' = delta.
Proof.
  unfold since. intros ->. rewrite drop_app_length. reflexivity.
Qed.

(** Stepping through a computation. *)
Lemma bind_sys {A} (P : platform) (c : syscall) (f : reply -> M A) (w : world) :
  bind (sys P c) f w = f (os P (history w) c) (snd (sys P c w)).
Proof. reflexivity. Qed.

Lemma bind_get_errno {A} (f : Z -> M A) (w : world) :
  bind get_errno f w = f (errno w) w.
Proof. reflexivity. Qed.

Lemma bind_getuid {A} (f : Z -> M A) (w : world) :
  bind getuid f w = f (uid w) w.
Proof. reflexivity. Qed.

Lemma bind_getpagesize {A} (f : Z -> M A) (w : world) :
  bind getpagesize f w = f (pagesize w) w.
Proof. reflexivity. Qed.

Lemma bind_mret {A B} (a : A) (f : A -> M B) (w : world) :
  bind (mret a) f w = f a w.
Proof. reflexivity. Qed.

Lemma bind_lxcError {A} (code : virErrorNumber) (msg : string)
    (f : unit -> M A) (w : world) :
  bind (lxcError code msg) f w = f tt (raised code msg w).
Proof. reflexivity. Qed.

Lemma bind_bind {A B C} (m : M A) (f : A -> M B) (g : B -> M C) (w : world) :
  bind (bind m f) g w = bind m (fun a => bind (f a) g) w.
Proof. unfold bind. destruct (m w) as [[a| |] w1]; reflexivity. Qed.

Lemma bind_Ret {A B} (m : M A) (f : A -> M B) (w w1 : world) (a : A) :
  m w = (Ret a, w1) -> bind m f w = f a w1.
Proof. unfold bind. intros ->. reflexivity. Qed.

Lemma bind_OutOfFuel {A B} (m : M A) (f : A -> M B) (w w1 : world) :
  m w = (OutOfFuel, w1) -> bind m f w = (OutOfFuel, w1).
Proof. unfold bind. intros ->. reflexivity. Qed.

Lemma bind_Fault {A B} (m : M A) (f : A -> M B) (w w1 : world) :
  m w = (Fault, w1) -> bind m f w = (Fault, w1).
Proof. unfold bind. intros ->. reflexivity. Qed.

Lemma bind_inv_Ret {A B} (m : M A) (f : A -> M B) (w w' : world) (b : B) :
  bind m f w = (Ret b, w') ->
  exists a w1, m w = (Ret a, w1) /\ f a w1 = (Ret b, w').
Proof.
  unfold bind. destruct (m w) as [[a| |] w1]; intros H;
    [eauto | discriminate | discriminate].
Qed.

Lemma bind_if {A B} (b : bool) (m1 m2 : M A) (f : A -> M B) (w : world) :
  bind (if b then m1 else m2) f w
  = if b then bind m1 f w else bind m2 f w.
Proof. destruct b; reflexivity. Qed.

Lemma if_run {A} (b : bool) (m1 m2 : M A) (w : world) :
  (if b then m1 else m2) w = if b then m1 w else m2 w.
Proof. destruct b; reflexivity. Qed.

Lemma errno_sys (P : platform) (c : syscall) (w : world) :
  errno (snd (sys P c w)) = errno_after (os P (history w) c) (errno w).
Proof. reflexivity. Qed.

Ltac mstep :=
  first [ rewrite bind_bind | rewrite bind_sys | rewrite bind_get_errno
        | rewrite bind_getuid | rewrite bind_getpagesize | rewrite bind_mret
        | rewrite bind_lxcError | rewrite bind_if | rewrite if_run ];
  cbv beta.

Lemma STRNEQ_false (a b : string) : STRNEQ a b = false <-> a = b.
Proof.
  unfold STRNEQ. rewrite negb_false_iff. apply String.eqb_eq.
Qed.

Lemma since_same (w w' : world) : history w' = history w -> since w w' = [].
Proof.
  intros H. apply since_app. rewrite app_nil_r. exact H.
Qed.

Lemma raised_history (code : virErrorNumber) (msg : string) (w : world) :
  history (raised code msg w) = history w.
Proof. reflexivity. Qed.

(** Every computation of the driver only adds to the history. *)

Lemma extends_refl (w : world) : extends w w.
Proof. exists []. rewrite app_nil_r. reflexivity. Qed.

Lemma extends_trans (w1 w2 w3 : world) :
  extends w1 w2 -> extends w2 w3 -> extends w1 w3.
Proof.
  intros [d1 H1] [d2 H2]. exists (d1 ++ d2).
  rewrite H2, H1, app_assoc. reflexivity.
Qed.


Lemma hist_mono_sys (P : platform) (c : syscall) : hist_mono (sys P c).
Proof. intros w. eexists. apply history_sys. Qed.









(** The computations without a loop never run out of fuel. *)










(** ** The capability probe *)

Section Probe.

Variable P : platform.

Lemma lxcCheckContainerSupport_no_stack (w : world) :
  ret (os P (history w) (Malloc (pagesize w * 4))) = 0 ->
  lxcCheckContainerSupport P w
  = (Ret (-1), snd (sys P (Malloc (pagesize w * 4)) w)).
Proof.
  intros H. unfold lxcCheckContainerSupport, bind, getpagesize. simpl.
  rewrite H. reflexivity.
Qed.

(** C10. When the allocation of the child stack fails, the capability check
    reports failure (-1) after that one call: [clone] is never invoked,
    whatever the kernel would have answered to it, and [lxcProbe] returns no
    URI. *)
Theorem lxcCheckContainerSupport_stack_failure (w : world) :
  ret (os P (history w) (Malloc (pagesize w * 4))) = 0 ->
  exists w',
    lxcCheckContainerSupport P w = (Ret (-1), w') /\
    map fst (since w w') = [Malloc (pagesize w * 4)] /\
    Forall (fun c => is_clone c = false) (map fst (since w w')) /\
    fst (lxcProbe P w) = Ret None.
Proof.
  intros H. eexists. split; [apply lxcCheckContainerSupport_no_stack, H|].
  rewrite (since_app _ _ _ (history_sys P _ w)). simpl.
  split; [reflexivity|]. split; [repeat constructor|].
  unfold lxcProbe. destruct (linux P); [|reflexivity].
  unfold bind. rewrite lxcCheckContainerSupport_no_stack by exact H.
  reflexivity.
Qed.

End Probe.

(** A host whose kernel supports every namespace flag ([clone] would give
    pid 200) but has no memory for the stack: the probe returns no URI. *)
Lemma lxcCheckContainerSupport_stack_failure_witness :
  let P := platform_of (answering is_malloc (ok 0) friendly_kernel) in
  0 < ret (os P [] (Clone lxcDummyChild container_flags)) /\
  fst (lxcCheckContainerSupport P root_process) = Ret (-1) /\
  fst (lxcProbe P root_process) = Ret None.
Proof.
  intros P. split; [reflexivity|].
  destruct (lxcCheckContainerSupport_stack_failure P root_process)
    as (w' & Hc & _ & _ & Hp); [reflexivity|].
  split; [rewrite Hc; reflexivity | exact Hp].
Defined.

(** ** The connection gate *)

(** The condition under which [lxcOpen] reaches its last statement. *)
Lemma lxcOpen_run (lxc_driver : option lxc_driver_t) (conn : virConnect)
    (uri : option xmlURI) (w : world) :
  lxcOpen lxc_driver conn uri w
  = (Ret (if gate_open lxc_driver uri w
          then (VIR_DRV_OPEN_SUCCESS, {| privateData := Some LxcDriverRef |})
          else (VIR_DRV_OPEN_DECLINED, conn)), w).
Proof.
  unfold lxcOpen, gate_open, bind, getuid, mret. simpl.
  destruct (uid w =? 0); simpl; [|reflexivity].
  destruct lxc_driver; simpl; [|reflexivity].
  destruct uri as [u|]; simpl; [|reflexivity].
  destruct (scheme u); simpl; [|reflexivity].
  unfold STRNEQ. destruct (String.eqb _ _); reflexivity.
Qed.

Lemma gate_open_spec (lxc_driver : option lxc_driver_t)
    (uri : option xmlURI) (w : world) :
  gate_open lxc_driver uri w = true <->
  uid w = 0 /\ lxc_driver <> None /\ lxc_scheme uri.
Proof.
  unfold gate_open, lxc_scheme. split.
  - intros H. apply andb_prop in H as [H Hs]. apply andb_prop in H as [Hu Hd].
    apply Z.eqb_eq in Hu. split; [exact Hu|]. split.
    + destruct lxc_driver; [discriminate | discriminate].
    + destruct uri as [u|]; [|discriminate]. exists u. split; [reflexivity|].
      destruct (scheme u) as [s|]; [|discriminate].
      apply String.eqb_eq in Hs. congruence.
  - intros (Hu & Hd & u & -> & Hs). rewrite Hu, Hs. simpl.
    destruct lxc_driver; [reflexivity | contradiction].
Qed.

(** C7, as the code has it.  [lxcOpen] accepts exactly when the caller's
    real user id (what [getuid] returns) is 0, the driver singleton exists
    and the URI's scheme is "lxc"; in every other case it declines and
    leaves the connection alone.  It never reports an error, and it leaves
    the process state as it was. *)
Theorem lxcOpen_accepts_iff (lxc_driver : option lxc_driver_t)
    (conn : virConnect) (uri : option xmlURI) (w : world) :
  let res := lxcOpen lxc_driver conn uri w in
  (accepted (fst res) <->
     uid w = 0 /\ lxc_driver <> None /\ lxc_scheme uri) /\
  (~ accepted (fst res) -> declined (fst res) conn) /\
  (forall conn', fst res <> Ret (VIR_DRV_OPEN_ERROR, conn')) /\
  snd res = w.
Proof.
  rewrite lxcOpen_run. simpl. unfold accepted, declined.
  pose proof (gate_open_spec lxc_driver uri w) as Hspec.
  destruct (gate_open lxc_driver uri w); simpl.
  - split; [split|split; [|split]].
    + intros _. apply Hspec. reflexivity.
    + intros _. eexists. reflexivity.
    + intros Hn. exfalso. apply Hn. eexists. reflexivity.
    + intros c. discriminate.
    + reflexivity.
  - split; [split|split; [|split]].
    + intros [c Hc]. discriminate.
    + intros H. apply Hspec in H. discriminate.
    + reflexivity.
    + intros c. discriminate.
    + reflexivity.
Qed.

(** C7, as the spec words it, fails.  A process whose effective user id is
    0 but whose real user id is 1000 (a set-user-id program) is declined
    although the singleton exists and the scheme is "lxc"; and a process
    whose real user id is 0 is accepted although its effective user id is
    1000. *)
Lemma lxcOpen_effective_uid_counterexample :
  let claim w res :=
    accepted (fst res) <->
    euid w = 0 /\ Some zeroed_driver <> None /\ lxc_scheme lxc_uri in
  let run w := lxcOpen (Some zeroed_driver) closed_conn lxc_uri w in
  declined (fst (run (process 1000 0))) closed_conn /\
  ~ claim (process 1000 0) (run (process 1000 0)) /\
  accepted (fst (run (process 0 1000))) /\
  ~ claim (process 0 1000) (run (process 0 1000)).
Proof.
  intros claim run. unfold claim, run.
  split; [reflexivity|]. split; [|split].
  - intros [_ H]. destruct H as [c Hc].
    + repeat split; [discriminate|]. eexists. split; reflexivity.
    + discriminate.
  - eexists. reflexivity.
  - intros [H _]. destruct H as (He & _).
    + eexists. reflexivity.
    + discriminate.
Qed.

(** ** Driver start-up *)

Section Startup.

Variable P : platform.

(** On a kernel that rejects the namespace flags, [lxcStartup] returns -1
    after it has stored the freshly allocated driver in [lxc_driver]: the
    return at line 938 does not call [lxcShutdown] as the two failure paths
    below it do. *)
Lemma lxcStartup_unsupported_kernel (lxc_driver : option lxc_driver_t)
    (w : world) :
  uid w = 0 ->
  (forall h, ret (os P h (Calloc 1 (sizeof_lxc_driver_t P))) <> 0) ->
  (forall h n, ret (os P h (Malloc n)) <> 0) ->
  (forall h, os P h (Clone lxcDummyChild container_flags) = failing EINVAL) ->
  exists w',
    lxcStartup P lxc_driver w = (Ret (-1, Some zeroed_driver), w') /\
    uid w' = uid w.
Proof.
  intros Hu Hcalloc Hmalloc Hclone.
  unfold lxcStartup, bind, getuid. simpl. rewrite Hu. simpl.
  destruct (Z.eqb_spec
    (ret (os P (history w) (Calloc 1 (sizeof_lxc_driver_t P)))) 0) as [E|_];
    [exfalso; eapply Hcalloc, E|].
  unfold lxcCheckContainerSupport, bind, getpagesize, get_errno, mret. simpl.
  match goal with |- context [ret (os P ?h (Malloc ?n)) =? 0] =>
    destruct (Z.eqb_spec (ret (os P h (Malloc n))) 0) as [E|_];
      [exfalso; eapply Hmalloc, E|] end.
  simpl. rewrite !Hclone. simpl.
  eexists. split; [reflexivity | simpl; lia].
Qed.

(** The failure path below it does release the driver: when the kernel
    passes the check and [lxcLoadDriverConfig] fails, [lxcStartup] calls
    [lxcShutdown] and returns -1 with [lxc_driver] NULL. *)
Lemma lxcStartup_config_failure (lxc_driver : option lxc_driver_t) (w : world) :
  uid w = 0 ->
  (forall h, ret (os P h (Calloc 1 (sizeof_lxc_driver_t P))) <> 0) ->
  (forall h n, ret (os P h (Malloc n)) <> 0) ->
  (forall h, 0 <= ret (os P h (Clone lxcDummyChild container_flags))) ->
  (forall d w0, exists rc d' w1,
      lxcLoadDriverConfig P d w0 = (Ret (rc, d'), w1) /\ rc < 0) ->
  (forall l w0, exists w1, lxcFreeVMs P l w0 = (Ret tt, w1)) ->
  exists w', lxcStartup P lxc_driver w = (Ret (-1, None), w').
Proof.
  intros Hu Hcalloc Hmalloc Hclone Hload Hfree.
  unfold lxcStartup, lxcCheckContainerSupport. repeat mstep.
  rewrite Hu. cbn [Z.eqb negb].
  destruct (Z.eqb_spec
    (ret (os P (history w) (Calloc 1 (sizeof_lxc_driver_t P)))) 0) as [E|_];
    [exfalso; eapply Hcalloc, E|].
  match goal with |- context [ret (os P ?h (Malloc ?n)) =? 0] =>
    destruct (Z.eqb_spec (ret (os P h (Malloc n))) 0) as [E|_];
      [exfalso; eapply Hmalloc, E|] end.
  match goal with |- context [ret (os P ?h (Clone ?f ?fl)) <? 0] =>
    destruct (Z.ltb_spec (ret (os P h (Clone f fl))) 0) as [E|_];
      [specialize (Hclone h); lia|] end.
  cbn [andb Z.eqb negb].
  match goal with |- context [bind (lxcLoadDriverConfig P ?d) _ ?w0] =>
    destruct (Hload d w0) as (rc & d' & w1 & Hl & Hrc) end.
  rewrite (bind_Ret _ _ _ _ _ Hl). cbn [fst snd].
  destruct (Z.ltb_spec rc 0); [|lia].
  unfold lxcShutdown, lxcFreeDriver.
  destruct (Hfree (vms d') w1) as (w2 & Hf).
  repeat mstep. rewrite (bind_Ret _ _ _ _ _ Hf).
  repeat mstep. eexists. reflexivity.
Qed.

End Startup.

(** C1, evaluated on the code.  The process is root, the allocations
    succeed and [clone] fails with EINVAL: [lxcStartup] returns -1, yet the
    singleton exists afterwards, and a following [lxcOpen] of [lxc:///] is
    accepted, not declined. *)
Theorem lxcStartup_unsupported_kernel_open_accepted :
  let P := platform_of (answering is_clone (failing EINVAL) friendly_kernel) in
  exists w',
    lxcStartup P None root_process = (Ret (-1, Some zeroed_driver), w') /\
    fst (lxcOpen (Some zeroed_driver) closed_conn lxc_uri w')
    = Ret (VIR_DRV_OPEN_SUCCESS, {| privateData := Some LxcDriverRef |}).
Proof.
  intros P.
  destruct (lxcStartup_unsupported_kernel P None root_process)
    as (w' & Hs & Hu); try done.
  exists w'. split; [exact Hs|].
  unfold lxcOpen, bind, getuid. simpl. rewrite Hu. reflexivity.
Qed.

(** ** Listing the running domains *)

Lemma take_S_insert (ids : list Z) (k : nat) (x : Z) :
  (k < length ids)%nat ->
  take (S k) (<[k := x]> ids) = take k ids ++ [x].
Proof.
  intros Hk.
  rewrite (take_S_r _ _ x) by (apply list_lookup_insert_eq; exact Hk).
  rewrite take_insert_ge by lia. reflexivity.
Qed.

(** The loop, started with [k] slots filled, keeps those slots, writes the
    ids of the active records of [l] until [nids] slots are filled, and
    leaves the rest of the array alone. *)
Lemma lxcListDomains_loop_spec (l : list lxc_vm_t) :
  forall (ids : list Z) (nids k : Z),
    0 <= k <= nids -> nids <= INT_MAX -> nids <= Z.of_nat (length ids) ->
    let written := take (Z.to_nat (nids - k)) (active_ids l) in
    lxcListDomains_loop l ids nids k
    = (take (Z.to_nat k) ids ++ written
         ++ drop (Z.to_nat k + length written) ids,
       k + Z.of_nat (length written)).
Proof.
  induction l as [|vm next IH]; intros ids nids k Hk Hmax Hlen; simpl.
  - unfold active_ids. simpl. rewrite take_nil. simpl.
    rewrite Nat.add_0_r, take_drop, Z.add_0_r. reflexivity.
  - destruct (Z.ltb_spec k nids) as [Hlt|Hge].
    + unfold active_ids. simpl.
      destruct (lxcIsActiveVM vm) eqn:Hact; simpl.
      * unfold int_incr. rewrite int_wrap_small
          by (unfold INT_MIN, INT_MAX in *; lia).
        rewrite IH; [|lia|lia|rewrite length_insert; lia].
        fold (active_ids next).
        replace (Z.to_nat (nids - k)) with (S (Z.to_nat (nids - (k + 1))))
          by lia.
        simpl.
        replace (Z.to_nat (k + 1)) with (S (Z.to_nat k)) by lia.
        rewrite take_S_insert by lia.
        rewrite drop_insert_lt by lia.
        rewrite <- app_assoc. simpl.
        rewrite Nat.add_succ_r. f_equal. lia.
      * fold (active_ids next). apply IH; assumption.
    + replace (nids - k) with 0 by lia. simpl.
      rewrite Nat.add_0_r, take_drop, Z.add_0_r. reflexivity.
Qed.





(** ** Looking a domain up by its runtime id *)

(** No record is found under the id -1: an active record has another id. *)
Lemma find_by_id_inactive (l : list lxc_vm_t) (pos : nat) :
  find_by_id l (-1) pos = None.
Proof.
  revert pos. induction l as [|vm next IH]; intros pos; simpl.
  - reflexivity.
  - unfold lxcIsActiveVM. destruct (id (def vm) =? -1); simpl; apply IH.
Qed.

(** What is found is an active record of the list that carries the id asked
    for. *)
Lemma find_by_id_Some (l : list lxc_vm_t) (i : Z) :
  forall (pos p : nat) (vm : lxc_vm_t),
    find_by_id l i pos = Some (p, vm) ->
    (pos <= p)%nat /\ l !! (p - pos)%nat = Some vm /\
    id (def vm) = i /\ lxcIsActiveVM vm = true.
Proof.
  induction l as [|v next IH]; intros pos p vm; simpl.
  - discriminate.
  - destruct (lxcIsActiveVM v && (id (def v) =? i)) eqn:E.
    + intros [= <- <-]. apply andb_prop in E as [Ha Hi].
      apply Z.eqb_eq in Hi. rewrite Nat.sub_diag. simpl. auto.
    + intros H. apply IH in H as (Hle & Hl & Hi & Ha).
      split; [lia|]. split; [|auto].
      replace (p - pos)%nat with (S (p - S pos)) by lia. exact Hl.
Qed.

Lemma lxcFindVMByID_Some (driver : lxc_driver_t) (i : Z) (pos : nat)
    (vm : lxc_vm_t) :
  lxcFindVMByID driver i = Some (pos, vm) ->
  vms driver !! pos = Some vm /\ id (def vm) = i /\ lxcIsActiveVM vm = true.
Proof.
  unfold lxcFindVMByID. intros H. apply find_by_id_Some in H as (_ & Hl & H).
  rewrite Nat.sub_0_r in Hl. auto.
Qed.

(** The lookup finds nothing exactly when no active record carries the
    id. *)
Lemma find_by_id_None (l : list lxc_vm_t) (i : Z) :
  forall pos,
    find_by_id l i pos = None <->
    Forall (fun v => ~ (lxcIsActiveVM v = true /\ id (def v) = i)) l.
Proof.
  induction l as [|v l IH]; intros pos; simpl.
  - split; [intros _; apply Forall_nil_2 | reflexivity].
  - destruct (lxcIsActiveVM v && (id (def v) =? i)) eqn:E.
    + split; [discriminate|]. intros H. apply Forall_cons_1 in H as [H _].
      exfalso. apply H. apply andb_prop in E as [Ha Hi].
      apply Z.eqb_eq in Hi. auto.
    + rewrite IH. split.
      * intros H. apply Forall_cons_2; [|exact H].
        intros [Ha Hi]. rewrite Ha in E. apply Z.eqb_eq in Hi.
        rewrite Hi in E. discriminate.
      * intros H. apply Forall_cons_1 in H as [_ H]. exact H.
Qed.

Lemma elem_of_active_ids (l : list lxc_vm_t) :
  forall (q : nat) (b : lxc_vm_t),
    l !! q = Some b -> lxcIsActiveVM b = true ->
    In (id (def b)) (active_ids l).
Proof.
  unfold active_ids. induction l as [|v l IH]; intros q b Hq Hb.
  - discriminate.
  - destruct q as [|q]; simpl in *.
    + injection Hq as ->. rewrite Hb. left. reflexivity.
    + destruct (lxcIsActiveVM v); [right|]; eapply IH; eassumption.
Qed.

(** When the ids of the active records are pairwise different, two active
    records with the same id sit at the same place. *)
Lemma active_ids_unique (l : list lxc_vm_t) :
  List.NoDup (active_ids l) ->
  forall (p q : nat) (a b : lxc_vm_t),
    l !! p = Some a -> l !! q = Some b ->
    lxcIsActiveVM a = true -> lxcIsActiveVM b = true ->
    id (def a) = id (def b) -> p = q.
Proof.
  unfold active_ids. induction l as [|v l IH]; intros Hnd p q a b Hp Hq Ha Hb E.
  - discriminate.
  - assert (Htail : List.NoDup
              (map (fun vm => id (def vm)) (List.filter lxcIsActiveVM l))).
    { simpl in Hnd. destruct (lxcIsActiveVM v); [|exact Hnd].
      inversion Hnd; assumption. }
    destruct p as [|p], q as [|q]; simpl in *.
    + reflexivity.
    + injection Hp as ->. rewrite Ha in Hnd. inversion Hnd as [|? ? Hnin _].
      exfalso. apply Hnin. rewrite E.
      apply (elem_of_active_ids l q b Hq Hb).
    + injection Hq as ->. rewrite Hb in Hnd. inversion Hnd as [|? ? Hnin _].
      exfalso. apply Hnin. rewrite <- E.
      apply (elem_of_active_ids l p a Hp Ha).
    + f_equal. eapply IH; eassumption.
Qed.

Section Lookup.

Variable P : platform.

(** With no target, [lxcDomainShutdown] raises the invalid-domain error and
    returns -1 with the driver as it was, without a call. *)
Lemma lxcDomainShutdown_no_target (driver : lxc_driver_t)
    (dom : virDomain) (w : world) :
  lxcFindVMByID driver (dom_id dom) = None ->
  lxcDomainShutdown P driver dom w
  = (Ret (-1, driver),
     raised VIR_ERR_INVALID_DOMAIN "no domain with id %d" w).
Proof.
  intros H. unfold lxcDomainShutdown. rewrite H. reflexivity.
Qed.

(** The same for [lxcDomainDestroy]. *)
Lemma lxcDomainDestroy_no_target (fuel : nat)
    (driver : lxc_driver_t) (dom : virDomain) (w : world) :
  lxcFindVMByID driver (dom_id dom) = None ->
  lxcDomainDestroy P fuel driver dom w
  = (Ret (-1, driver),
     raised VIR_ERR_INVALID_DOMAIN "no domain with id %d" w).
Proof.
  intros H. unfold lxcDomainDestroy. rewrite H. reflexivity.
Qed.

(** C9. [lxcDomainShutdown] and [lxcDomainDestroy] look their target up by
    the id of the handle.  For a handle whose runtime id is -1 (a domain
    that is not running) both return -1, raise the invalid-domain error,
    make no call, and leave the driver - every record and both counters -
    as it was. *)
Theorem shutdown_destroy_not_running (fuel : nat)
    (driver : lxc_driver_t) (dom : virDomain) (w : world) :
  dom_id dom = -1 ->
  exists w',
    lxcDomainShutdown P driver dom w = (Ret (-1, driver), w') /\
    lxcDomainDestroy P fuel driver dom w = (Ret (-1, driver), w') /\
    errors w'
    = errors w ++ [(VIR_ERR_INVALID_DOMAIN, "no domain with id %d")] /\
    since w w' = [].
Proof.
  intros Hid.
  assert (Hnone : lxcFindVMByID driver (dom_id dom) = None).
  { unfold lxcFindVMByID. rewrite Hid. apply find_by_id_inactive. }
  exists (raised VIR_ERR_INVALID_DOMAIN "no domain with id %d" w).
  split; [apply lxcDomainShutdown_no_target, Hnone|].
  split; [apply lxcDomainDestroy_no_target, Hnone|].
  split; [reflexivity|]. apply since_same, raised_history.
Qed.

(** C2. A second destroy is a no-op on the bookkeeping.  Take a record of
    the registry in state SHUTOFF that satisfies the registry invariant
    "RUNNING iff active" (so its runtime id is the -1 that destroy left).
    [lxcDomainDestroy] through the record's handle returns -1 without a
    call; the record, the two counters and their agreement with the
    partition sizes are as before. *)
Theorem lxcDomainDestroy_shutoff_noop (fuel : nat)
    (driver : lxc_driver_t) (pos : nat) (vm : lxc_vm_t) (w : world) :
  vms driver !! pos = Some vm ->
  state vm = VIR_DOMAIN_SHUTOFF ->
  running_iff_active vm ->
  counters_reconciled driver ->
  exists driver' w',
    lxcDomainDestroy P fuel driver (handle_of vm) w = (Ret (-1, driver'), w') /\
    driver' = driver /\
    vms driver' !! pos = Some vm /\
    nactivevms driver' = nactivevms driver /\
    ninactivevms driver' = ninactivevms driver /\
    counters_reconciled driver' /\
    since w w' = [].
Proof.
  intros Hvm Hstate Hinv Hrec.
  assert (Hid : id (def vm) = -1).
  { unfold running_iff_active, lxcIsActiveVM in Hinv.
    destruct (Z.eqb_spec (id (def vm)) (-1)) as [E|E]; [exact E|].
    assert (Hr : state vm = VIR_DOMAIN_RUNNING) by (apply Hinv; reflexivity).
    rewrite Hstate in Hr. discriminate. }
  exists driver, (raised VIR_ERR_INVALID_DOMAIN "no domain with id %d" w).
  split.
  - apply lxcDomainDestroy_no_target. unfold lxcFindVMByID, handle_of. simpl.
    rewrite Hid. apply find_by_id_inactive.
  - repeat split; try assumption; try apply Hrec.
    apply since_same, raised_history.
Qed.

End Lookup.

(** The handle of the destroyed domain of the example registry. *)
Lemma shutdown_destroy_not_running_witness :
  let P := platform_of friendly_kernel in
  let dom := handle_of (destroyed_vm "c2") in
  fst (lxcDomainShutdown P example_driver dom root_process)
  = Ret (-1, example_driver) /\
  fst (lxcDomainDestroy P 1 example_driver dom root_process)
  = Ret (-1, example_driver).
Proof.
  intros P dom.
  destruct (shutdown_destroy_not_running P 1 example_driver dom root_process)
    as (w' & Hs & Hd & _); [reflexivity|].
  rewrite Hs, Hd. split; reflexivity.
Defined.

(** The destroyed domain of the example registry. *)
Lemma lxcDomainDestroy_shutoff_noop_witness :
  let P := platform_of friendly_kernel in
  exists w',
    lxcDomainDestroy P 1 example_driver (handle_of (destroyed_vm "c2"))
      root_process
    = (Ret (-1, example_driver), w').
Proof.
  intros P.
  destruct (lxcDomainDestroy_shutoff_noop P 1 example_driver 1
              (destroyed_vm "c2") root_process)
    as (d' & w' & Hd & -> & _); try reflexivity.
  - split; intros; (reflexivity || discriminate).
  - split; reflexivity.
  - exists w'. exact Hd.
Defined.

(** ** Shutdown *)

Lemma kill_guard_false (r : reply) (e : Z) :
  delivered_or_gone r ->
  (ret r <? 0) && negb (errno_after r e =? ESRCH) = false.
Proof.
  unfold delivered_or_gone, errno_after. intros [H|H].
  - destruct (Z.ltb_spec (ret r) 0); [lia | reflexivity].
  - destruct (ret r <? 0); [|reflexivity]. rewrite H. reflexivity.
Qed.

Lemma kill_guard_true (r : reply) (e : Z) :
  ret r < 0 -> err r <> ESRCH ->
  (ret r <? 0) && negb (errno_after r e =? ESRCH) = true.
Proof.
  unfold errno_after. intros Hr He.
  destruct (Z.ltb_spec (ret r) 0); [|lia]. simpl.
  destruct (Z.eqb_spec (err r) ESRCH); [contradiction | reflexivity].
Qed.

Lemma store_vm_lookup (driver : lxc_driver_t) (pos : nat) (vm vm' : lxc_vm_t) :
  vms driver !! pos = Some vm ->
  vms (store_vm pos vm' driver) !! pos = Some vm'.
Proof.
  intros H. unfold store_vm. simpl.
  apply list_lookup_insert_eq. eapply lookup_lt_Some, H.
Qed.

Lemma store_vm_lookup_ne (driver : lxc_driver_t) (pos p : nat)
    (vm' : lxc_vm_t) :
  p <> pos -> vms (store_vm pos vm' driver) !! p = vms driver !! p.
Proof.
  intros H. unfold store_vm. simpl. apply list_lookup_insert_ne. auto.
Qed.

Lemma delivered_or_gone_dec (r : reply) (e : Z) :
  (ret r <? 0) && negb (errno_after r e =? ESRCH) = true <->
  ~ delivered_or_gone r.
Proof.
  unfold delivered_or_gone, errno_after.
  destruct (Z.ltb_spec (ret r) 0) as [Hlt|Hge]; simpl.
  - destruct (Z.eqb_spec (err r) ESRCH) as [He|He]; simpl.
    + split; [discriminate | intros H; exfalso; apply H; right; exact He].
    + split; [intros _ [H|H]; [lia | contradiction] | reflexivity].
  - split; [discriminate | intros H; exfalso; apply H; left; exact Hge].
Qed.

Section Shutdown.

Variable P : platform.

(** C6, as the code has it.  [lxcDomainShutdown] on a running domain - one
    the lookup by the handle's id finds - sends SIGINT to the record's
    [def->id], and that signal is the only call it makes: it does not wait
    for the process.  When the signal is delivered, and also when the
    kernel answers "no such process", it returns 0 with the record's state
    set to SHUTDOWN, every other record and both counters untouched, and no
    error raised.  Any other failure of the kill is returned as -1 with the
    driver as it was. *)
Theorem lxcDomainShutdown_running (driver : lxc_driver_t)
    (dom : virDomain) (pos : nat) (vm : lxc_vm_t) (w : world) :
  lxcFindVMByID driver (dom_id dom) = Some (pos, vm) ->
  let r := os P (history w) (Kill (id (def vm)) SIGINT) in
  exists rc driver' w',
    lxcDomainShutdown P driver dom w = (Ret (rc, driver'), w') /\
    id (def vm) = dom_id dom /\
    since w w' = [(Kill (id (def vm)) SIGINT, r)] /\
    (delivered_or_gone r ->
     rc = 0 /\
     vms driver' !! pos = Some (set_state VIR_DOMAIN_SHUTDOWN vm) /\
     (forall p, p <> pos -> vms driver' !! p = vms driver !! p) /\
     nactivevms driver' = nactivevms driver /\
     ninactivevms driver' = ninactivevms driver /\
     errors w' = errors w) /\
    (~ delivered_or_gone r -> rc = -1 /\ driver' = driver).
Proof.
  intros Hfind r.
  pose proof (lxcFindVMByID_Some _ _ _ _ Hfind) as (Hl & Hid & _).
  unfold lxcDomainShutdown. rewrite Hfind.
  do 2 mstep. rewrite errno_sys. fold r.
  pose proof (delivered_or_gone_dec r (errno w)) as Hdec.
  destruct ((ret r <? 0) && negb (errno_after r (errno w) =? ESRCH)).
  - mstep. eexists _, _, _. split; [reflexivity|].
    split; [exact Hid|].
    split; [apply since_app; reflexivity|].
    split; [intros Hd; exfalso; apply Hdec; [reflexivity | exact Hd]|].
    intros _. split; reflexivity.
  - eexists _, _, _. split; [reflexivity|].
    split; [exact Hid|].
    split; [apply since_app; reflexivity|].
    split.
    + intros _. split; [reflexivity|].
      split; [eapply store_vm_lookup, Hl|].
      split; [intros p Hp; apply store_vm_lookup_ne, Hp|].
      repeat split.
    + intros Hn. apply Hdec in Hn. discriminate.
Qed.

End Shutdown.

(** The first running domain of the example registry, once with a live
    container and once with a container that is already gone: both times
    shutdown returns 0 and the record is in state SHUTDOWN. *)
Lemma lxcDomainShutdown_running_witness :
  let dom := handle_of (running_vm "c1" 41 40) in
  let gone := platform_of (answering is_kill (failing ESRCH) friendly_kernel) in
  (exists d w,
     lxcDomainShutdown (platform_of friendly_kernel) example_driver dom
       root_process = (Ret (0, d), w) /\
     vms d !! 0%nat
     = Some (set_state VIR_DOMAIN_SHUTDOWN (running_vm "c1" 41 40))) /\
  (exists d w,
     lxcDomainShutdown gone example_driver dom root_process
     = (Ret (0, d), w) /\
     vms d !! 0%nat
     = Some (set_state VIR_DOMAIN_SHUTDOWN (running_vm "c1" 41 40))).
Proof.
  intros dom gone. split.
  - destruct (lxcDomainShutdown_running (platform_of friendly_kernel)
                example_driver dom 0 (running_vm "c1" 41 40) root_process)
      as (rc & d & w & H & _ & _ & Hok & _); [reflexivity|].
    destruct Hok as (-> & Hvm & _); [left; simpl; lia|].
    exists d, w. split; [exact H | exact Hvm].
  - destruct (lxcDomainShutdown_running gone
                example_driver dom 0 (running_vm "c1" 41 40) root_process)
      as (rc & d & w & H & _ & _ & Hok & _); [reflexivity|].
    destruct Hok as (-> & Hvm & _); [right; reflexivity|].
    exists d, w. split; [exact H | exact Hvm].
Defined.

(** C6, as the spec words it, fails.  When the kill fails with EPERM,
    shutdown returns -1 and the record is still RUNNING, not SHUTDOWN. *)
Lemma lxcDomainShutdown_kill_error_counterexample :
  let P := platform_of (answering is_kill (failing EPERM) friendly_kernel) in
  let run :=
    lxcDomainShutdown P example_driver (handle_of (running_vm "c1" 41 40))
      root_process in
  lxcFindVMByID example_driver 41 = Some (0%nat, running_vm "c1" 41 40) /\
  fst run = Ret (-1, example_driver) /\
  calls (snd run) = [Kill 41 SIGINT] /\
  vms example_driver !! 0%nat = Some (running_vm "c1" 41 40) /\
  state (running_vm "c1" 41 40) <> VIR_DOMAIN_SHUTDOWN.
Proof.
  repeat split; try reflexivity. discriminate.
Qed.

(** ** Destroy *)

Lemma interruptions_app (h : list event) (e : event) :
  interruptions (h ++ [e])
  = (interruptions h + (if interrupted e then 1 else 0))%nat.
Proof.
  unfold interruptions. rewrite List.filter_app, length_app. simpl.
  destruct (interrupted e); reflexivity.
Qed.

(** The test of the wait loop is the test [interrupted]. *)
Lemma wait_guard (p : Z) (r : reply) (e : Z) :
  (ret r =? -1) && (errno_after r e =? EINTR) = interrupted (Waitpid p, r).
Proof.
  unfold interrupted, errno_after. simpl.
  destruct (Z.eqb_spec (ret r) (-1)) as [E|E]; [|reflexivity].
  rewrite E. reflexivity.
Qed.

(** What [destroy] leaves at the record's place is the terminal
    bookkeeping state. *)
Lemma destroy_reconcile_record (driver : lxc_driver_t) (pos : nat)
    (vm0 vm : lxc_vm_t) :
  vms driver !! pos = Some vm0 ->
  exists vm',
    vms (destroy_reconcile pos vm driver) !! pos = Some vm' /\
    reconciled_record vm' /\
    def vm' = set_id (-1) (def vm) /\
    configFile vm' = configFile vm.
Proof.
  intros H. eexists. split.
  - unfold destroy_reconcile. simpl. apply list_lookup_insert_eq.
    eapply lookup_lt_Some, H.
  - repeat split.
Qed.

(** Replacing one record changes the size of a partition by that record's
    membership. *)
Lemma filter_length_insert (f : lxc_vm_t -> bool) (l : list lxc_vm_t) :
  forall (pos : nat) (x y : lxc_vm_t),
    l !! pos = Some x ->
    (length (List.filter f (<[pos := y]> l)) + (if f x then 1 else 0)
     = length (List.filter f l) + (if f y then 1 else 0))%nat.
Proof.
  induction l as [|v l IH]; intros pos x y H.
  - discriminate.
  - destruct pos as [|pos]; simpl in *.
    + injection H as ->. destruct (f x), (f y); simpl; lia.
    + specialize (IH pos x y H). destruct (f v); simpl; lia.
Qed.

(** [destroy] moves the record from the active to the inactive partition:
    counters that matched the partition sizes before match them after. *)
Lemma destroy_reconcile_counters (driver : lxc_driver_t) (pos : nat)
    (vm0 vm : lxc_vm_t) :
  vms driver !! pos = Some vm0 ->
  lxcIsActiveVM vm0 = true ->
  Z.of_nat (length (vms driver)) <= INT_MAX ->
  counters_reconciled driver ->
  counters_reconciled (destroy_reconcile pos vm driver).
Proof.
  intros Hl Hact Hlen [Ha Hi].
  set (vm3 := set_def (set_id (-1) (def vm))
                (set_pid (-1) (set_state VIR_DOMAIN_SHUTOFF vm))).
  pose proof (filter_length_insert lxcIsActiveVM _ _ _ vm3 Hl) as Hfa.
  pose proof (filter_length_insert (fun v => negb (lxcIsActiveVM v))
                _ _ _ vm3 Hl) as Hfi.
  cbv beta in Hfi. rewrite Hact in Hfa, Hfi.
  change (lxcIsActiveVM vm3) with false in Hfa, Hfi. simpl in Hfa, Hfi.
  pose proof (List.filter_length lxcIsActiveVM (vms driver)) as Hsum.
  unfold counters_reconciled, destroy_reconcile. simpl.
  fold vm3. rewrite Ha, Hi. unfold int_decr, int_incr.
  rewrite !int_wrap_small by (unfold INT_MIN, INT_MAX in *; lia).
  split; lia.
Qed.

Section Destroy.

Variable P : platform.

(** The wait loop ends with a value or is still waiting: it never
    faults. *)
Lemma waitpid_retry_no_fault (p : Z) (fuel : nat) :
  forall w, fst (waitpid_retry P fuel p w) <> Fault.
Proof.
  induction fuel as [|fuel IH]; intros w; simpl.
  - discriminate.
  - do 2 mstep. destruct ((ret _ =? -1) && (_ =? EINTR)).
    + apply IH.
    + discriminate.
Qed.

Lemma waitpid_retry_S (p : Z) (fuel : nat) (w : world) :
  waitpid_retry P (S fuel) p w
  = if interrupted (Waitpid p, os P (history w) (Waitpid p))
    then waitpid_retry P fuel p (snd (sys P (Waitpid p) w))
    else (Ret (ret (os P (history w) (Waitpid p)),
               hd 0 (out_ints (os P (history w) (Waitpid p)))),
          snd (sys P (Waitpid p) w)).
Proof.
  simpl. do 2 mstep. rewrite errno_sys, (wait_guard p).
  destruct (interrupted _); reflexivity.
Qed.

(** On a kernel that interrupts at most [n] waits, the loop returns once it
    may go round often enough. *)
Lemma waitpid_retry_returns (n : nat) (p : Z) (fuel : nat) :
  interruptions_bounded (os P) n ->
  forall w,
    (n <= fuel + interruptions (history w))%nat ->
    exists v w', waitpid_retry P (S fuel) p w = (Ret v, w').
Proof.
  intros Hb. induction fuel as [|fuel IH]; intros w Hn;
    rewrite waitpid_retry_S.
  - rewrite Hb by (simpl in Hn; exact Hn). eexists _, _. reflexivity.
  - destruct (interrupted _) eqn:Hi.
    + apply IH. rewrite history_sys, interruptions_app, Hi. lia.
    + eexists _, _. reflexivity.
Qed.

Lemma waitpid_retry_enough_fuel (n : nat) (p : Z) (fuel : nat)
    (w : world) :
  interruptions_bounded (os P) n -> (n < fuel)%nat ->
  exists v w', waitpid_retry P fuel p w = (Ret v, w').
Proof.
  intros Hb Hn. destruct fuel as [|fuel]; [lia|].
  eapply waitpid_retry_returns; [exact Hb | lia].
Qed.

(** From the label [kill_tty] on, [destroy] either is still waiting for the
    forwarder or returns 0 with the record reconciled, whatever the kill
    and the wait report. *)
Lemma destroy_kill_tty_outcome (fuel pos : nat) (vm : lxc_vm_t)
    (driver : lxc_driver_t) (w : world) :
  fst (destroy_kill_tty P fuel pos vm driver w) = OutOfFuel \/
  fst (destroy_kill_tty P fuel pos vm driver w)
  = Ret (0, destroy_reconcile pos vm driver).
Proof.
  unfold destroy_kill_tty. do 4 mstep.
  destruct ((ret _ <? 0) && negb (_ =? ESRCH)).
  - right. reflexivity.
  - match goal with |- context [bind (waitpid_retry P fuel ?p) _ ?w1] =>
      pose proof (waitpid_retry_no_fault p fuel w1) as Hnf;
      destruct (waitpid_retry P fuel p w1) as [[v| |] w2] eqn:E end.
    + rewrite (bind_Ret _ _ _ _ _ E). right. mstep.
      destruct (negb (fst v =? pid vm)); reflexivity.
    + exfalso. apply Hnf. reflexivity.
    + rewrite (bind_OutOfFuel _ _ _ _ E). left. reflexivity.
Qed.

Lemma destroy_kill_tty_enough_fuel (n fuel pos : nat)
    (vm : lxc_vm_t) (driver : lxc_driver_t) (w : world) :
  interruptions_bounded (os P) n -> (n < fuel)%nat ->
  fst (destroy_kill_tty P fuel pos vm driver w) <> OutOfFuel.
Proof.
  intros Hb Hn.
  unfold destroy_kill_tty. do 4 mstep.
  destruct ((ret _ <? 0) && negb (_ =? ESRCH)).
  - discriminate.
  - match goal with |- context [bind (waitpid_retry P fuel ?p) _ ?w1] =>
      destruct (waitpid_retry_enough_fuel n p fuel w1 Hb Hn)
        as (v & w2 & E) end.
    rewrite (bind_Ret _ _ _ _ _ E). mstep.
    destruct (negb (fst v =? pid vm)); discriminate.
Qed.

(** When the first kill fails for a reason other than "no such process",
    [destroy] returns -1 and leaves the driver as it was. *)
Lemma lxcDomainDestroy_kill_error (fuel : nat)
    (driver : lxc_driver_t) (dom : virDomain) (pos : nat) (vm : lxc_vm_t)
    (w : world) :
  lxcFindVMByID driver (dom_id dom) = Some (pos, vm) ->
  ret (os P (history w) (Kill (id (def vm)) SIGKILL)) < 0 ->
  err (os P (history w) (Kill (id (def vm)) SIGKILL)) <> ESRCH ->
  fst (lxcDomainDestroy P fuel driver dom w) = Ret (-1, driver).
Proof.
  intros Hfind Hr He. unfold lxcDomainDestroy. rewrite Hfind.
  do 2 mstep. rewrite errno_sys.
  rewrite kill_guard_true by assumption. reflexivity.
Qed.

(** C5, as the code has it.  [lxcDomainDestroy] is called on a running
    domain.  When the kill signal to [def->id] is delivered or the process
    is already gone, every return of the call is a return of 0 with the
    record in the terminal bookkeeping state - [pid] -1, [def->id] -1,
    state SHUTOFF, inactive - and the counters moved by one from active to
    inactive (counters that matched the partition sizes still match them),
    whatever the two waits and the kill of the forwarder report; and on a
    kernel that interrupts at most [n] waits the call does return when the
    loops may go round more than [n] times.  When that kill fails for
    another reason the call returns -1 and the driver is as it was. *)
Theorem lxcDomainDestroy_converges (fuel : nat)
    (driver : lxc_driver_t) (dom : virDomain) (pos : nat) (vm : lxc_vm_t)
    (w : world) :
  lxcFindVMByID driver (dom_id dom) = Some (pos, vm) ->
  let r := os P (history w) (Kill (id (def vm)) SIGKILL) in
  let run := lxcDomainDestroy P fuel driver dom w in
  (delivered_or_gone r ->
   (fst run = OutOfFuel \/
    exists driver',
      fst run = Ret (0, driver') /\
      (exists vm', vms driver' !! pos = Some vm' /\ reconciled_record vm') /\
      nactivevms driver' = int_decr (nactivevms driver) /\
      ninactivevms driver' = int_incr (ninactivevms driver) /\
      (counters_reconciled driver ->
       Z.of_nat (length (vms driver)) <= INT_MAX ->
       counters_reconciled driver')) /\
   (forall n, interruptions_bounded (os P) n -> (n < fuel)%nat ->
              fst run <> OutOfFuel)) /\
  (~ delivered_or_gone r -> fst run = Ret (-1, driver)).
Proof.
  intros Hfind r run. split.
  2:{ intros Hn. eapply lxcDomainDestroy_kill_error; [exact Hfind| |].
      - destruct (Z.lt_ge_cases
                    (ret (os P (history w) (Kill (id (def vm)) SIGKILL))) 0)
          as [Hlt|Hge]; [exact Hlt|].
        exfalso. apply Hn. left. exact Hge.
      - intros He. apply Hn. right. exact He. }
  intros Hkill. subst r run.
  pose proof (lxcFindVMByID_Some _ _ _ _ Hfind) as (Hl & Hid & Hact).
  unfold lxcDomainDestroy. rewrite Hfind.
  do 2 mstep. rewrite errno_sys.
  rewrite kill_guard_false by exact Hkill.
  cbv zeta.
  match goal with |- context [bind (waitpid_retry P fuel ?p) _ ?w1] =>
    pose proof (waitpid_retry_no_fault p fuel w1) as Hnf;
    pose proof (fun n => waitpid_retry_enough_fuel n p fuel w1) as Hen;
    destruct (waitpid_retry P fuel p w1) as [[v| |] w2] eqn:E end.
  - rewrite (bind_Ret _ _ _ _ _ E).
    assert (Hstep : exists w3,
      bind (if negb (fst v =? id (def (set_state VIR_DOMAIN_SHUTDOWN vm)))
            then
              bind (lxcError VIR_ERR_INTERNAL_ERROR
                      "waitpid failed to wait for container %d: %d %s")
                (fun _ => mret (-1))
            else mret (WEXITSTATUS (snd v)))
        (fun _ => destroy_kill_tty P fuel pos
                    (set_state VIR_DOMAIN_SHUTDOWN vm) driver) w2
      = destroy_kill_tty P fuel pos (set_state VIR_DOMAIN_SHUTDOWN vm)
          driver w3).
    { destruct (negb (fst v =? _)); eexists; reflexivity. }
    destruct Hstep as (w3 & ->). split.
    + destruct (destroy_kill_tty_outcome fuel pos
                  (set_state VIR_DOMAIN_SHUTDOWN vm) driver w3) as [Ho|Hr].
      * left. exact Ho.
      * right. eexists. split; [exact Hr|].
        split; [|split; [reflexivity|split; [reflexivity|]]].
        -- destruct (destroy_reconcile_record driver pos vm
                       (set_state VIR_DOMAIN_SHUTDOWN vm) Hl)
             as (vm' & ? & ? & _).
           exists vm'. auto.
        -- intros Hrec Hlen.
           eapply destroy_reconcile_counters; eassumption.
    + intros n Hb Hn. apply (destroy_kill_tty_enough_fuel n); assumption.
  - exfalso. apply Hnf. reflexivity.
  - rewrite (bind_OutOfFuel _ _ _ _ E). split; [left; reflexivity|].
    intros n Hb Hn. destruct (Hen n Hb Hn) as (v & w3 & E'). discriminate.
Qed.

(** A successful [destroy] found its target and left the driver as the
    label [tty_error_out] writes it. *)
Lemma lxcDomainDestroy_success (fuel : nat)
    (driver driver1 : lxc_driver_t) (dom : virDomain) (w w1 : world) :
  lxcDomainDestroy P fuel driver dom w = (Ret (0, driver1), w1) ->
  exists pos vm,
    lxcFindVMByID driver (dom_id dom) = Some (pos, vm) /\
    driver1 = destroy_reconcile pos (set_state VIR_DOMAIN_SHUTDOWN vm) driver.
Proof.
  unfold lxcDomainDestroy.
  destruct (lxcFindVMByID driver (dom_id dom)) as [[pos vm]|].
  2:{ mstep. intros [=]. }
  do 2 mstep. destruct (_ && _).
  { mstep. intros [=]. }
  cbv zeta. intros H.
  apply bind_inv_Ret in H as (wc & w2 & _ & H).
  apply bind_inv_Ret in H as (rc & w3 & _ & H).
  exists pos, vm. split; [reflexivity|].
  destruct (destroy_kill_tty_outcome fuel pos
              (set_state VIR_DOMAIN_SHUTDOWN vm) driver w3) as [Ho|Hr];
    rewrite H in *; simpl in *; congruence.
Qed.

(** After the record the lookup finds has been made inactive, the lookup
    of the same id finds nothing. *)
Lemma lxcFindVMByID_after_destroy (driver : lxc_driver_t) (i : Z) (pos : nat)
    (vm vm1 : lxc_vm_t) :
  List.NoDup (active_ids (vms driver)) ->
  lxcFindVMByID driver i = Some (pos, vm) ->
  lxcFindVMByID (destroy_reconcile pos vm1 driver) i = None.
Proof.
  intros Hnd Hfind.
  pose proof (lxcFindVMByID_Some _ _ _ _ Hfind) as (Hl & Hid & Hact).
  unfold lxcFindVMByID. apply find_by_id_None.
  unfold destroy_reconcile. simpl.
  apply Forall_lookup_2. intros q b Hq [Hb Hi].
  destruct (Nat.eq_dec q pos) as [->|Hne].
  - rewrite list_lookup_insert_eq in Hq by (eapply lookup_lt_Some, Hl).
    injection Hq as <-. discriminate.
  - rewrite list_lookup_insert_ne in Hq by auto.
    apply Hne. eapply (active_ids_unique _ Hnd q pos b vm); try eassumption.
    congruence.
Qed.

(** Destroy is idempotent in effect.  On a registry whose active records
    have pairwise different ids, a destroy that succeeded followed by a
    second destroy through the same handle: the second returns -1, makes no
    call and leaves the driver exactly as the first left it. *)
Lemma lxcDomainDestroy_twice (fuel fuel' : nat)
    (driver driver1 : lxc_driver_t) (dom : virDomain) (w w1 : world) :
  List.NoDup (active_ids (vms driver)) ->
  lxcDomainDestroy P fuel driver dom w = (Ret (0, driver1), w1) ->
  lxcDomainDestroy P fuel' driver1 dom w1
  = (Ret (-1, driver1),
     raised VIR_ERR_INVALID_DOMAIN "no domain with id %d" w1).
Proof.
  intros Hnd H.
  apply lxcDomainDestroy_success in H as (pos & vm & Hfind & ->).
  apply lxcDomainDestroy_no_target.
  eapply lxcFindVMByID_after_destroy; eassumption.
Qed.

End Destroy.

(** The first running domain of the example registry on a kernel whose
    every [waitpid] fails with ECHILD: destroy returns 0 and the record is
    reconciled. *)
Lemma lxcDomainDestroy_converges_witness :
  let P :=
    platform_of (answering is_waitpid (failing ECHILD) friendly_kernel) in
  let run :=
    lxcDomainDestroy P 1 example_driver (handle_of (running_vm "c1" 41 40))
      root_process in
  exists driver',
    fst run = Ret (0, driver') /\
    (exists vm', vms driver' !! 0%nat = Some vm' /\ reconciled_record vm') /\
    nactivevms driver' = 1 /\ ninactivevms driver' = 2.
Proof.
  intros P run.
  destruct (lxcDomainDestroy_converges P 1 example_driver
              (handle_of (running_vm "c1" 41 40)) 0 (running_vm "c1" 41 40)
              root_process) as [Hok _]; [reflexivity|].
  destruct Hok as [[Hout|(d' & Hd & Hvm & Ha & Hi & _)] Hfuel].
  - left. simpl. lia.
  - exfalso. apply (Hfuel 0%nat); [|lia|exact Hout].
    intros h p _. reflexivity.
  - exists d'. split; [exact Hd|]. split; [exact Hvm|].
    split; [rewrite Ha | rewrite Hi]; reflexivity.
Defined.

(** C5, as the spec words it, fails.  When the kill of the container fails
    with EPERM, destroy returns (-1) and the record it was called on is
    still RUNNING, with its id and its forwarder pid, and still counted as
    active. *)
Lemma lxcDomainDestroy_kill_error_counterexample :
  let P := platform_of (answering is_kill (failing EPERM) friendly_kernel) in
  let run :=
    lxcDomainDestroy P 1 example_driver (handle_of (running_vm "c1" 41 40))
      root_process in
  lxcFindVMByID example_driver 41 = Some (0%nat, running_vm "c1" 41 40) /\
  fst run = Ret (-1, example_driver) /\
  vms example_driver !! 0%nat = Some (running_vm "c1" 41 40) /\
  ~ reconciled_record (running_vm "c1" 41 40) /\
  nactivevms example_driver = 2.
Proof.
  repeat split; try reflexivity.
  intros (Hp & _). discriminate.
Qed.

(** ** Starting a domain *)

Section Start.

Variable P : platform.






(** [lxcStartContainer] writes [def->id] and nothing else of the record. *)
Lemma lxcStartContainer_record (vm vm' : lxc_vm_t) (rc : Z)
    (w w' : world) :
  lxcStartContainer P vm w = (Ret (rc, vm'), w') ->
  state vm' = state vm /\ pid vm' = pid vm /\
  parentTty vm' = parentTty vm /\ containerTtyFd vm' = containerTtyFd vm /\
  (rc = 0 \/ rc = -1) /\ (rc = 0 -> 0 <= id (def vm')).
Proof.
  unfold lxcStartContainer. do 2 mstep.
  destruct (ret _ =? 0).
  - mstep. intros [= <- <- _]. repeat split; auto. intros; lia.
  - mstep. cbv zeta.
    match goal with |- context [id (def ?v) <? 0] =>
      destruct (Z.ltb_spec (id (def v)) 0) end.
    + mstep. intros [= <- <- _]. repeat split; auto. intros; lia.
    + mstep. intros [= <- <- _]. repeat split; auto.
Qed.

(** C3, the part the code keeps: however [lxcVmStart] fails, the record's
    state and the driver's counters are what they were. *)
Lemma lxcVmStart_failure_keeps_state (fuel : nat)
    (driver driver' : lxc_driver_t) (vm vm' : lxc_vm_t) (rc : Z)
    (w w' : world) :
  lxcVmStart P fuel driver vm w = (Ret (rc, vm', driver'), w') ->
  rc <> 0 ->
  state vm' = state vm /\ driver' = driver.
Proof.
  unfold lxcVmStart. intros H Hrc.
  apply bind_inv_Ret in H as (t & w1 & _ & H).
  destruct (fst (fst t) <? 0).
  { injection H as <- <- <- _. auto. }
  apply bind_inv_Ret in H as (c & w2 & _ & H).
  destruct (fst (fst c) <? 0).
  { injection H as <- <- <- _. auto. }
  rewrite bind_sys in H. cbv beta zeta in H.
  destruct (pid (set_pid _ _) <? 0).
  { rewrite bind_lxcError in H. injection H as <- <- <- _. auto. }
  apply bind_inv_Ret in H as (? & w3 & _ & H).
  do 2 rewrite bind_sys in H. cbv beta in H.
  apply bind_inv_Ret in H as ([rc' vm4] & w4 & Hs & H).
  apply lxcStartContainer_record in Hs as (Hst & _).
  cbn [fst snd] in H. unfold mret in H.
  destruct (Z.eqb_spec rc' 0).
  - injection H as <- <- <- _. contradiction.
  - injection H as <- <- <- _. rewrite Hst. auto.
Qed.

Lemma open_fds_sys (c : syscall) (w : world) :
  open_fds (snd (sys P c w)) = fds_after c (os P (history w) c) (open_fds w).
Proof. reflexivity. Qed.

(** When the container-side setup succeeds, the master it opened is open
    on return, and every descriptor that was open before still is. *)
Lemma lxcSetupContainerTty_ok (n : option string)
    (w w' : world) (c : Z * Z * option string) :
  lxcSetupContainerTty P n w = (Ret c, w') ->
  ~ fst (fst c) < 0 ->
  0 <= snd (fst c) /\ open_fds w' = snd (fst c) :: open_fds w.
Proof.
  unfold lxcSetupContainerTty. mstep. cbv zeta.
  destruct (Z.ltb_spec
    (ret (os P (history w) (PosixOpenpt (Z.lor O_RDWR O_NOCTTY)))) 0)
    as [Hlt|Hge].
  { mstep. unfold container_tty_cleanup. do 2 mstep.
    change (negb (0 =? -1)) with true. cbv iota.
    destruct (negb _); repeat mstep; intros [= <- _]; simpl; lia. }
  mstep. destruct (ret _ <? 0).
  { mstep. unfold container_tty_cleanup. do 2 mstep.
    change (negb (0 =? -1)) with true. cbv iota.
    destruct (negb _); repeat mstep; intros [= <- _]; simpl; lia. }
  mstep. destruct (negb (0 =? ret _)).
  { mstep. unfold container_tty_cleanup. do 2 mstep.
    change (negb (0 =? -1)) with true. cbv iota.
    destruct (negb _); repeat mstep; intros [= <- _]; simpl; lia. }
  mstep. destruct (ret _ =? 0); [discriminate|].
  unfold container_tty_cleanup. do 2 mstep.
  intros [= <- <-] _. split; [exact Hge|].
  cbn [open_fds fds_after fst snd].
  match goal with |- context [0 <=? ?x] =>
    destruct (Z.leb_spec 0 x); [reflexivity | lia] end.
Qed.

(** C3 in general: when both pty setups succeed and [fork] fails,
    [lxcVmStart] returns -1 and closes nothing - the open descriptors are
    those the setups left, the container-side master among them. *)
Lemma lxcVmStart_fork_failure (fuel : nat)
    (driver : lxc_driver_t) (vm : lxc_vm_t) (w w1 w2 : world)
    (t : Z * lxc_vm_def_t * Z) (c : Z * Z * option string) :
  lxcSetupTtyTunnel P (def vm) w = (Ret t, w1) ->
  ~ fst (fst t) < 0 ->
  lxcSetupContainerTty P (containerTty vm) w1 = (Ret c, w2) ->
  ~ fst (fst c) < 0 ->
  ret (os P (history w2) Fork) < 0 ->
  exists vm' w',
    lxcVmStart P fuel driver vm w = (Ret (-1, vm', driver), w') /\
    state vm' = state vm /\
    parentTty vm' = snd t /\ containerTtyFd vm' = snd (fst c) /\
    open_fds w' = open_fds w2 /\
    In (containerTtyFd vm') (open_fds w') /\
    since w2 w' = [(Fork, os P (history w2) Fork)].
Proof.
  intros Ht Hrc1 Hc Hrc2 Hfork. unfold lxcVmStart.
  rewrite (bind_Ret _ _ _ _ _ Ht). cbv zeta.
  destruct (Z.ltb_spec (fst (fst t)) 0); [contradiction|].
  change (containerTty (set_parentTty (snd t) (set_def (snd (fst t)) vm)))
    with (containerTty vm).
  rewrite (bind_Ret _ _ _ _ _ Hc).
  destruct (Z.ltb_spec (fst (fst c)) 0); [contradiction|].
  mstep. cbn [pid set_pid].
  destruct (Z.ltb_spec (ret (os P (history w2) Fork)) 0); [|lia].
  mstep. eexists _, _. split; [reflexivity|].
  destruct (lxcSetupContainerTty_ok _ _ _ _ Hc Hrc2) as (_ & Hfds).
  repeat split.
  - simpl. rewrite Hfds. left. reflexivity.
  - apply since_app. reflexivity.
Qed.











End Start.

(** C3, evaluated on the code.  The definition names a tty, both pty
    setups succeed (descriptors 4 and 5) and [fork] fails with EAGAIN:
    [lxcVmStart] returns -1 with the record's state unchanged, but it has
    closed neither descriptor - both are still open in the process and no
    [close] was called. *)
Theorem lxcVmStart_fork_failure_leaks_ptys :
  let P := platform_of (answering is_fork (failing EAGAIN) friendly_kernel) in
  let vm := defined_vm "c1" "/dev/ptmx" in
  let driver := start_driver "c1" "/dev/ptmx" in
  exists vm' w',
    lxcVmStart P 0 driver vm root_process = (Ret (-1, vm', driver), w') /\
    state vm' = state vm /\
    parentTty vm' = 4 /\ containerTtyFd vm' = 5 /\
    In 4 (open_fds w') /\ In 5 (open_fds w') /\
    Forall (fun c => is_close c = false) (calls w').
Proof.
  intros P vm driver. eexists _, _.
  split; [vm_compute; reflexivity|].
  repeat split; simpl; auto.
  repeat (apply Forall_cons_2; [reflexivity|]). apply Forall_nil_2.
Qed.


(** * Further properties of the driver *)

(** ** The capability probe in full *)

Lemma releases_app (h1 h2 : list event) :
  releases (h1 ++ h2) = (releases h1 + releases h2)%nat.
Proof. unfold releases. rewrite List.filter_app, length_app. reflexivity. Qed.

Lemma allocations_app (h1 h2 : list event) :
  allocations (h1 ++ h2) = (allocations h1 + allocations h2)%nat.
Proof.
  unfold allocations. rewrite List.filter_app, length_app. reflexivity.
Qed.

Lemma flags_rejected_dec (r : reply) (e : Z) :
  (ret r <? 0) && (errno_after r e =? EINVAL) = true <-> flags_rejected r.
Proof.
  unfold flags_rejected, errno_after.
  destruct (Z.ltb_spec (ret r) 0) as [Hlt|Hge]; simpl.
  - rewrite Z.eqb_eq. split; [auto | intros [_ H]; exact H].
  - split; [discriminate | intros [H _]; lia].
Qed.

Section ProbeVerdict.

Variable P : platform.

(** The check never faults and never loops; what it returns and what it
    calls is decided by the replies to [malloc] and [clone]. *)
Lemma lxcCheckContainerSupport_run (w : world) :
  let m := os P (history w) (Malloc (pagesize w * 4)) in
  let w1 := snd (sys P (Malloc (pagesize w * 4)) w) in
  let c := os P (history w1) (Clone lxcDummyChild container_flags) in
  exists rc w',
    lxcCheckContainerSupport P w = (Ret rc, w') /\
    (rc = 0 \/ rc = -1) /\
    (rc = -1 <-> ret m = 0 \/ flags_rejected c) /\
    (exists delta,
       history w' = history w ++ (Malloc (pagesize w * 4), m) :: delta /\
       releases delta = allocations [(Malloc (pagesize w * 4), m)] /\
       allocations delta = 0%nat /\
       (rc = 0 -> In (Waitpid (ret c)) (map fst delta))) /\
    errors w' = errors w.
Proof.
  intros m w1 c. unfold lxcCheckContainerSupport. do 2 mstep. fold m w1.
  unfold allocations. cbn [List.filter allocated fst snd is_malloc andb].
  destruct (Z.eqb_spec (ret m) 0) as [Hm|Hm].
  { eexists _, _. split; [reflexivity|]. split; [right; reflexivity|].
    split; [split; auto|]. split; [|reflexivity].
    exists []. repeat split. intros; discriminate. }
  do 3 mstep. rewrite errno_sys. fold c.
  pose proof (flags_rejected_dec c (errno w1)) as Hdec.
  destruct ((ret c <? 0) && (errno_after c (errno w1) =? EINVAL)).
  - repeat mstep. eexists _, _. split; [reflexivity|].
    split; [right; reflexivity|].
    split; [split; [intros _; right; apply Hdec; reflexivity | reflexivity]|].
    split; [|reflexivity].
    eexists. split.
    + unfold w1. cbn [history snd sys]. rewrite <- !app_assoc. reflexivity.
    + repeat split. intros; discriminate.
  - repeat mstep. eexists _, _. split; [reflexivity|].
    split; [left; reflexivity|].
    split.
    { split; [discriminate|]. intros [H|H]; [contradiction|].
      apply Hdec in H. discriminate. }
    split; [|reflexivity].
    eexists. split.
    + unfold w1. cbn [history snd sys]. rewrite <- !app_assoc. reflexivity.
    + repeat split. intros _. simpl. auto.
Qed.

(** X1.  [lxcCheckContainerSupport] always returns, with 0 or -1.  It
    returns -1 exactly when the stack cannot be allocated or [clone] fails
    with EINVAL; a [clone] that fails for any other reason counts as
    support, and the check then waits for the pid [clone] returned.  The
    stack is freed exactly when it was allocated, and no error is raised. *)
Theorem lxcCheckContainerSupport_verdict (w : world) :
  let m := os P (history w) (Malloc (pagesize w * 4)) in
  let w1 := snd (sys P (Malloc (pagesize w * 4)) w) in
  let c := os P (history w1) (Clone lxcDummyChild container_flags) in
  exists rc w',
    lxcCheckContainerSupport P w = (Ret rc, w') /\
    (rc = 0 \/ rc = -1) /\
    (rc = -1 <-> ret m = 0 \/ flags_rejected c) /\
    releases (since w w') = allocations (since w w') /\
    (rc = 0 -> In (Waitpid (ret c)) (map fst (since w w'))) /\
    errors w' = errors w.
Proof.
  intros m w1 c.
  destruct (lxcCheckContainerSupport_run w)
    as (rc & w' & Hrun & Hrc & Hiff & (delta & Hh & Hrel & Hal & Hw) & He).
  exists rc, w'. rewrite (since_app _ _ _ Hh).
  split; [exact Hrun|]. split; [exact Hrc|]. split; [exact Hiff|].
  split; [|split; [|exact He]].
  - change (?x :: delta) with ([x] ++ delta).
    rewrite releases_app, allocations_app, Hrel, Hal.
    unfold releases. simpl. lia.
  - intros H. simpl. right. apply Hw, H.
Qed.

(** X2.  [lxcProbe] offers the URI [lxc:///] exactly when the driver is
    built for Linux, the stack is allocated and [clone] does not fail with
    EINVAL; otherwise it returns NULL.  On another system it makes no call
    at all. *)
Theorem lxcProbe_uri (w : world) :
  let m := os P (history w) (Malloc (pagesize w * 4)) in
  let w1 := snd (sys P (Malloc (pagesize w * 4)) w) in
  let c := os P (history w1) (Clone lxcDummyChild container_flags) in
  exists r w',
    lxcProbe P w = (Ret r, w') /\
    (r = Some "lxc:///" \/ r = None) /\
    (r = Some "lxc:///" <->
     linux P = true /\ ret m <> 0 /\ ~ flags_rejected c) /\
    (linux P = false -> w' = w).
Proof.
  intros m w1 c. unfold lxcProbe.
  destruct (linux P).
  2:{ exists None, w. split; [reflexivity|]. split; [right; reflexivity|].
      split; [split; [discriminate | intros [H _]; discriminate]|].
      reflexivity. }
  destruct (lxcCheckContainerSupport_run w)
    as (rc & w' & Hrun & Hrc & Hiff & _).
  rewrite (bind_Ret _ _ _ _ _ Hrun).
  destruct Hrc as [-> | ->]; simpl; eexists _, _;
    (split; [reflexivity|]).
  - split; [left; reflexivity|]. split; [|discriminate].
    split; [|reflexivity]. intros _. split; [reflexivity|].
    split; intros H; assert (Hn : 0 = -1) by (apply Hiff; auto);
      discriminate.
  - split; [right; reflexivity|]. split; [|discriminate].
    split; [discriminate|]. intros (_ & Hm & Hc).
    destruct (proj1 Hiff eq_refl) as [H|H]; contradiction.
Qed.

End ProbeVerdict.

(** ** Driver start and stop *)

Section StartStop.

Variable P : platform.

Lemma lxcShutdown_Some (d : lxc_driver_t) (w w' : world) (rc : Z)
    (g' : option lxc_driver_t) :
  lxcShutdown P (Some d) w = (Ret (rc, g'), w') -> rc = 0 /\ g' = None.
Proof.
  unfold lxcShutdown, lxcFreeDriver. intros H.
  apply bind_inv_Ret in H as (u & w1 & _ & H). revert H.
  repeat mstep. intros [= <- <- _]. auto.
Qed.

(** X3.  Every return of [lxcStartup] is a return of 0 or -1.  A caller
    whose real user id is not 0 gets -1 at once: no call is made and the
    driver pointer is not touched.  A return of 0 means the caller is root
    and the pointer is set.  When root's start-up fails, the pointer is NULL
    or refers to the zeroed allocation: a driver whose configuration was
    loaded is never left behind. *)
Theorem lxcStartup_result (lxc_driver lxc_driver' : option lxc_driver_t)
    (rc : Z) (w w' : world) :
  lxcStartup P lxc_driver w = (Ret (rc, lxc_driver'), w') ->
  (rc = 0 \/ rc = -1) /\
  (uid w <> 0 -> rc = -1 /\ lxc_driver' = lxc_driver /\ w' = w) /\
  (rc = 0 -> uid w = 0 /\ lxc_driver' <> None) /\
  (uid w = 0 -> rc = -1 ->
   lxc_driver' = None \/ lxc_driver' = Some zeroed_driver).
Proof.
  unfold lxcStartup. mstep.
  destruct (Z.eqb_spec (uid w) 0) as [Hu|Hu]; cbn [negb].
  2:{ intros [= <- <- <-]. split; [right; reflexivity|].
      split; [auto|]. split; [discriminate | contradiction]. }
  mstep. destruct (ret _ =? 0).
  { intros [= <- <- _]. split; [right; reflexivity|].
    split; [contradiction|]. split; [discriminate | auto]. }
  intros H. apply bind_inv_Ret in H as (rc0 & w1 & _ & H).
  destruct (negb (rc0 =? 0)).
  { injection H as <- <- _. split; [right; reflexivity|].
    split; [contradiction|]. split; [discriminate | auto]. }
  apply bind_inv_Ret in H as (r1 & w2 & _ & H).
  destruct (fst r1 <? 0).
  { apply bind_inv_Ret in H as ([rc1 g1] & w3 & Hs & H).
    apply lxcShutdown_Some in Hs as [_ ->].
    injection H as <- <- _. split; [right; reflexivity|].
    split; [contradiction|]. split; [discriminate | auto]. }
  apply bind_inv_Ret in H as (r2 & w3 & _ & H).
  destruct (fst r2 <? 0).
  { apply bind_inv_Ret in H as ([rc1 g1] & w4 & Hs & H).
    apply lxcShutdown_Some in Hs as [_ ->].
    injection H as <- <- _. split; [right; reflexivity|].
    split; [contradiction|]. split; [discriminate | auto]. }
  injection H as <- <- _. split; [left; reflexivity|].
  split; [contradiction|]. split; [|discriminate].
  intros _. split; [exact Hu | discriminate].
Qed.

(** X4.  Every return of [lxcShutdown] leaves the driver pointer NULL; it
    returns 0 when there was a driver and -1 when there was none.  After
    it the driver is not active, a second shutdown returns -1 without a
    call, and the gate declines every open, whoever asks. *)
Theorem lxcShutdown_twice (lxc_driver lxc_driver' : option lxc_driver_t)
    (rc : Z) (w w' : world) :
  lxcShutdown P lxc_driver w = (Ret (rc, lxc_driver'), w') ->
  lxc_driver' = None /\
  (rc = 0 <-> lxc_driver <> None) /\
  (rc = -1 <-> lxc_driver = None) /\
  lxcShutdown P lxc_driver' w' = (Ret (-1, None), w') /\
  lxcActive lxc_driver' = 0 /\
  (forall conn uri w0, declined (fst (lxcOpen lxc_driver' conn uri w0)) conn).
Proof.
  intros H.
  assert (Hres : lxc_driver' = None /\
                 (rc = 0 <-> lxc_driver <> None) /\
                 (rc = -1 <-> lxc_driver = None)).
  { destruct lxc_driver as [d|].
    - apply lxcShutdown_Some in H as [-> ->]. split; [reflexivity|].
      split; split; try discriminate; auto.
    - injection H as <- <- _. split; [reflexivity|].
      split; split; try discriminate; auto. contradiction. }
  destruct Hres as (-> & H0 & H1).
  split; [reflexivity|]. split; [exact H0|]. split; [exact H1|].
  split; [reflexivity|]. split; [reflexivity|].
  intros conn uri w0. rewrite lxcOpen_run. unfold gate_open.
  rewrite andb_false_r. reflexivity.
Qed.

End StartStop.

(** ** Listing, whatever the registry holds *)

Lemma lxcListDomains_loop_bounds (l : list lxc_vm_t) :
  forall (ids : list Z) (nids k : Z),
    0 <= k -> nids <= INT_MAX ->
    let res := lxcListDomains_loop l ids nids k in
    length (fst res) = length ids /\
    k <= snd res <= Z.max k nids /\
    snd res <= k + Z.of_nat (length l) /\
    drop (Z.to_nat (snd res)) (fst res) = drop (Z.to_nat (snd res)) ids.
Proof.
  induction l as [|vm next IH]; intros ids nids k Hk Hn; simpl.
  - repeat split; lia.
  - destruct (Z.ltb_spec k nids) as [Hlt|Hge]; [|simpl; repeat split; lia].
    destruct (lxcIsActiveVM vm).
    + unfold int_incr. rewrite int_wrap_small
        by (unfold INT_MIN, INT_MAX in *; lia).
      destruct (IH (<[Z.to_nat k := id (def vm)]> ids) nids (k + 1))
        as (Hl & Hb & Hc & Hd); [lia | lia |].
      rewrite length_insert in Hl.
      split; [exact Hl|]. split; [lia|]. split; [lia|].
      rewrite Hd. apply drop_insert_lt. lia.
    + destruct (IH ids nids k) as (Hl & Hb & Hc & Hd); [lia | lia |].
      split; [exact Hl|]. split; [lia|]. split; [lia | exact Hd].
Qed.

(** X5.  Whatever the registry holds - no invariant is assumed - and
    whatever the sign of [nids], [lxcListDomains] with an array of at
    least [nids] slots returns a count between 0 and [nids] (0 when [nids]
    is not positive) that does not exceed the number of records, and
    leaves every slot of the array from the count on as it was. *)
Theorem lxcListDomains_bounds (driver : lxc_driver_t) (ids : list Z)
    (nids : Z) :
  nids <= INT_MAX ->
  nids <= Z.of_nat (length ids) ->
  let res := lxcListDomains driver ids nids in
  length (fst res) = length ids /\
  0 <= snd res <= Z.max 0 nids /\
  snd res <= Z.of_nat (length (vms driver)) /\
  drop (Z.to_nat (snd res)) (fst res) = drop (Z.to_nat (snd res)) ids /\
  (nids <= 0 -> res = (ids, 0)).
Proof.
  intros Hn Hlen. unfold lxcListDomains.
  destruct (lxcListDomains_loop_bounds (vms driver) ids nids 0)
    as (Hl & Hb & Hc & Hd); [lia | exact Hn |].
  cbv zeta. split; [exact Hl|]. split; [exact Hb|]. split; [lia|].
  split; [exact Hd|].
  intros H0. destruct (vms driver) as [|vm next]; simpl; [reflexivity|].
  destruct (Z.ltb_spec 0 nids); [lia | reflexivity].
Qed.

(** ** Listing the defined domains *)

Section DefinedNames.

Variable P : platform.

Lemma free_names_run (n : nat) :
  forall w, exists w' delta,
    free_names P n w = (Ret tt, w') /\
    history w' = history w ++ delta /\
    releases delta = n /\ allocations delta = 0%nat /\
    errors w' = errors w.
Proof.
  induction n as [|n IH]; intros w; simpl.
  - exists w, []. rewrite app_nil_r. auto.
  - mstep.
    destruct (IH (snd (sys P Free w))) as (w' & d & Hr & Hh & Hf & Ha & He).
    exists w', ((Free, os P (history w) Free) :: d).
    split; [exact Hr|]. rewrite Hh, history_sys, <- app_assoc.
    split; [reflexivity|].
    change (?x :: d) with ([x] ++ d).
    rewrite releases_app, allocations_app, Hf, Ha. auto.
Qed.

Lemma strdup_run (s : string) (w : world) :
  let m := os P (history w) (Malloc (Z.of_nat (String.length s) + 1)) in
  strdup P s w
  = (Ret (if ret m =? 0 then None else Some s),
     snd (sys P (Malloc (Z.of_nat (String.length s) + 1)) w)).
Proof.
  intros m. unfold strdup. mstep. fold m. destruct (ret m =? 0); reflexivity.
Qed.

(** The loop on any kernel: it returns, and the blocks it still holds on
    return are the names it counted. *)
Lemma lxcListDefinedDomains_loop_account (l : list lxc_vm_t) :
  forall (names : list (option string)) (nnames k : Z) (w : world),
    0 <= k -> nnames <= INT_MAX ->
    exists rc names' w' delta,
      lxcListDefinedDomains_loop P l names nnames k w
      = (Ret (rc, names'), w') /\
      history w' = history w ++ delta /\
      length names' = length names /\
      (rc = -1 \/ k <= rc <= Z.max k nnames) /\
      (rc = -1 ->
       releases delta = (Z.to_nat k + allocations delta)%nat /\
       errors w' = errors w ++ [(VIR_ERR_NO_MEMORY, "names")]) /\
      (0 <= rc ->
       releases delta = 0%nat /\
       Z.of_nat (allocations delta) = rc - k /\
       errors w' = errors w).
Proof.
  induction l as [|vm next IH]; intros names nnames k w Hk Hn; simpl.
  - exists k, names, w, []. rewrite app_nil_r.
    split; [reflexivity|]. split; [reflexivity|]. split; [reflexivity|].
    split; [right; lia|]. split; [intros; lia|].
    intros _. unfold allocations. simpl. repeat split. lia.
  - destruct (Z.ltb_spec k nnames) as [Hlt|Hge].
    2:{ exists k, names, w, []. rewrite app_nil_r.
        split; [reflexivity|]. split; [reflexivity|]. split; [reflexivity|].
        split; [right; lia|]. split; [intros; lia|].
        intros _. unfold allocations. simpl. repeat split. lia. }
    destruct (lxcIsActiveVM vm); cbn [negb].
    { apply IH; assumption. }
    rewrite (bind_Ret _ _ _ _ _ (strdup_run (name (def vm)) w)).
    set (c := Malloc (Z.of_nat (String.length (name (def vm))) + 1)).
    set (m := os P (history w) c). set (w1 := snd (sys P c w)).
    assert (Hh1 : history w1 = history w ++ [(c, m)]) by reflexivity.
    destruct (Z.eqb_spec (ret m) 0) as [Hm|Hm]; cbv zeta.
    + mstep.
      destruct (free_names_run (Z.to_nat k)
                  (raised VIR_ERR_NO_MEMORY "names" w1))
        as (w2 & d & Hr & Hh & Hf & Ha & He).
      rewrite (bind_Ret _ _ _ _ _ Hr).
      exists (-1), (<[Z.to_nat k := None]> names), w2, ((c, m) :: d).
      split; [reflexivity|].
      split; [rewrite Hh, raised_history, Hh1, <- app_assoc; reflexivity|].
      split; [apply length_insert|]. split; [left; reflexivity|].
      split; [|intros; lia]. intros _.
      change ((c, m) :: d) with ([(c, m)] ++ d).
      rewrite releases_app, allocations_app, Hf, Ha, He.
      unfold allocations, allocated. simpl. rewrite Hm. simpl.
      split; [lia | reflexivity].
    + unfold int_incr. rewrite int_wrap_small
        by (unfold INT_MIN, INT_MAX in *; lia).
      destruct (IH (<[Z.to_nat k := Some (name (def vm))]> names) nnames
                  (k + 1) w1)
        as (rc & names' & w2 & d & Hr & Hh & Hl & Hb & Hfail & Hok);
        [lia | exact Hn |].
      exists rc, names', w2, ((c, m) :: d).
      split; [exact Hr|].
      split; [rewrite Hh, Hh1, <- app_assoc; reflexivity|].
      split; [rewrite Hl; apply length_insert|].
      split; [destruct Hb; [left; assumption | right; lia]|].
      assert (Hone : allocations [(c, m)] = 1%nat).
      { unfold allocations, allocated. simpl.
        destruct (Z.eqb_spec (ret m) 0); [contradiction | reflexivity]. }
      change ((c, m) :: d) with ([(c, m)] ++ d).
      rewrite releases_app, allocations_app, Hone.
      split.
      * intros E. destruct (Hfail E) as [Hf He]. rewrite Hf.
        split; [unfold releases; simpl; lia | exact He].
      * intros E. destruct (Hok E) as (Hf & Ha & He). rewrite Hf.
        split; [reflexivity|]. split; [lia | exact He].
Qed.

(** On a kernel whose [malloc] never fails the loop copies the names of the
    inactive records into the slots from [k] on. *)
Lemma lxcListDefinedDomains_loop_spec (l : list lxc_vm_t) :
  (forall h n, ret (os P h (Malloc n)) <> 0) ->
  forall (names : list (option string)) (nnames k : Z) (w : world),
    0 <= k <= nnames -> nnames <= INT_MAX ->
    nnames <= Z.of_nat (length names) ->
    let written := take (Z.to_nat (nnames - k)) (inactive_names l) in
    exists w',
      lxcListDefinedDomains_loop P l names nnames k w
      = (Ret (k + Z.of_nat (length written),
              take (Z.to_nat k) names ++ map Some written
                ++ drop (Z.to_nat k + length written) names), w').
Proof.
  intros Hmalloc.
  induction l as [|vm next IH]; intros names nnames k w Hk Hmax Hlen; simpl.
  - unfold inactive_names. simpl. rewrite take_nil. simpl.
    rewrite Nat.add_0_r, take_drop, Z.add_0_r. eexists. reflexivity.
  - destruct (Z.ltb_spec k nnames) as [Hlt|Hge].
    + unfold inactive_names. simpl.
      destruct (lxcIsActiveVM vm) eqn:Hact; cbn [negb].
      * fold (inactive_names next). apply IH; assumption.
      * rewrite (bind_Ret _ _ _ _ _ (strdup_run (name (def vm)) w)).
        match goal with |- context [ret ?m =? 0] =>
          destruct (Z.eqb_spec (ret m) 0) as [E|_];
            [exfalso; eapply Hmalloc, E|] end.
        cbv zeta.
        unfold int_incr. rewrite int_wrap_small
          by (unfold INT_MIN, INT_MAX in *; lia).
        match goal with
        | |- context [lxcListDefinedDomains_loop P next ?n _ _ ?w1] =>
            destruct (IH n nnames (k + 1) w1) as (w' & Hr);
              [lia | lia | rewrite length_insert; lia |]
        end.
        exists w'. rewrite Hr.
        fold (inactive_names next).
        replace (Z.to_nat (nnames - k)) with (S (Z.to_nat (nnames - (k + 1))))
          by lia.
        simpl.
        replace (Z.to_nat (k + 1)) with (S (Z.to_nat k)) by lia.
        rewrite (take_S_r _ _ (Some (name (def vm))))
          by (apply list_lookup_insert_eq; lia).
        rewrite take_insert_ge by lia.
        rewrite drop_insert_lt by lia.
        rewrite <- app_assoc. simpl.
        rewrite Nat.add_succ_r. f_equal. f_equal. f_equal.
        unfold inactive_names. lia.
    + replace (nnames - k) with 0 by lia. simpl.
      rewrite Nat.add_0_r, take_drop, Z.add_0_r. eexists. reflexivity.
Qed.

(** X6.  On a kernel whose [malloc] never fails, [lxcListDefinedDomains]
    with an array of at least [nnames] slots copies the names of the
    inactive records, in list order, into the first slots until [nnames]
    are filled; it returns the number of names written, which is the
    smaller of [nnames] and the number of inactive records, and leaves the
    other slots alone. *)
Theorem lxcListDefinedDomains_names (driver : lxc_driver_t)
    (names : list (option string)) (nnames : Z) (w : world) :
  (forall h n, ret (os P h (Malloc n)) <> 0) ->
  0 <= nnames <= INT_MAX ->
  nnames <= Z.of_nat (length names) ->
  let defined := inactive_names (vms driver) in
  exists rc names' w',
    lxcListDefinedDomains P driver names nnames w = (Ret (rc, names'), w') /\
    take (Z.to_nat rc) names'
    = map Some (take (Z.to_nat nnames) defined) /\
    drop (Z.to_nat rc) names' = drop (Z.to_nat rc) names /\
    rc = Z.min nnames (Z.of_nat (length defined)).
Proof.
  intros Hmalloc Hn Hlen defined. unfold lxcListDefinedDomains.
  destruct (lxcListDefinedDomains_loop_spec (vms driver) Hmalloc names nnames
              0 w) as (w' & Hr); [lia | lia | exact Hlen |].
  rewrite Z.sub_0_r in Hr. fold defined in Hr.
  set (written := take (Z.to_nat nnames) defined) in *.
  eexists _, _, w'. split; [exact Hr|].
  rewrite !Z.add_0_l, !Nat2Z.id. simpl.
  rewrite <- (length_map Some written).
  split; [|split].
  - rewrite take_app_length. reflexivity.
  - rewrite drop_app_length. reflexivity.
  - rewrite length_map. unfold written. rewrite length_take. lia.
Qed.

(** X7.  On any kernel [lxcListDefinedDomains] with an array of at least
    [nnames] slots returns, with -1 or a count between 0 and [nnames].
    When a copy cannot be allocated it raises VIR_ERR_NO_MEMORY and frees
    as many blocks as it had allocated: no name is leaked.  When it
    returns a count, it has freed nothing and holds one allocated block
    for each name counted. *)
Theorem lxcListDefinedDomains_no_leak (driver : lxc_driver_t)
    (names : list (option string)) (nnames : Z) (w : world) :
  nnames <= INT_MAX ->
  nnames <= Z.of_nat (length names) ->
  exists rc names' w',
    lxcListDefinedDomains P driver names nnames w = (Ret (rc, names'), w') /\
    length names' = length names /\
    (rc = -1 \/ 0 <= rc <= Z.max 0 nnames) /\
    (rc = -1 ->
     releases (since w w') = allocations (since w w') /\
     errors w' = errors w ++ [(VIR_ERR_NO_MEMORY, "names")]) /\
    (0 <= rc ->
     releases (since w w') = 0%nat /\
     Z.of_nat (allocations (since w w')) = rc /\
     errors w' = errors w).
Proof.
  intros Hn Hlen. unfold lxcListDefinedDomains.
  destruct (lxcListDefinedDomains_loop_account (vms driver) names nnames 0 w)
    as (rc & names' & w' & d & Hr & Hh & Hl & Hb & Hfail & Hok);
    [lia | exact Hn |].
  exists rc, names', w'. rewrite (since_app _ _ _ Hh).
  split; [exact Hr|]. split; [exact Hl|]. split; [exact Hb|].
  split.
  - intros E. destruct (Hfail E) as [Hf He]. split; [exact Hf | exact He].
  - intros E. destruct (Hok E) as (Hf & Ha & He).
    split; [exact Hf|]. split; [lia | exact He].
Qed.

End DefinedNames.

(** ** The pty tunnel *)

Lemma app_one_neq {A} (l : list A) (x : A) : l ++ [x] <> l.
Proof.
  intros H. rewrite <- (app_nil_r l) in H at 2.
  apply app_inv_head in H. discriminate.
Qed.

Lemma In_filter_ne (fd x : Z) (l : list Z) :
  In x (List.filter (fun y => negb (y =? fd)) l) -> In x l /\ x <> fd.
Proof.
  intros H. apply List.filter_In in H as [H Hne]. split; [exact H|].
  intros ->. rewrite Z.eqb_refl in Hne. discriminate.
Qed.

Lemma mret_inv {A} (a b : A) (w w' : world) :
  mret a w = (Ret b, w') -> a = b /\ w = w'.
Proof. intros [= -> ->]. auto. Qed.

(** Reading the calls of a run off its final state. *)
Lemma since_refl (w : world) : since w w = [].
Proof. apply since_same. reflexivity. Qed.

Lemma since_raised (code : virErrorNumber) (msg : string) (w w1 : world) :
  since w (raised code msg w1) = since w w1.
Proof. reflexivity. Qed.

Lemma since_extends (w w1 : world) :
  extends w w1 -> history w1 = history w ++ since w w1.
Proof. intros [d Hd]. rewrite (since_app _ _ _ Hd). exact Hd. Qed.

Lemma since_sys (P : platform) (c : syscall) (w w1 : world) :
  extends w w1 ->
  since w (snd (sys P c w1)) = since w w1 ++ [(c, os P (history w1) c)].
Proof.
  intros H. apply since_app. rewrite history_sys, app_assoc.
  rewrite <- (since_extends _ _ H). reflexivity.
Qed.

Lemma extends_sys (P : platform) (c : syscall) (w w1 : world) :
  extends w w1 -> extends w (snd (sys P c w1)).
Proof.
  intros H. eapply extends_trans; [exact H|]. apply hist_mono_sys.
Qed.

Lemma extends_raised (code : virErrorNumber) (msg : string) (w w1 : world) :
  extends w w1 -> extends w (raised code msg w1).
Proof. intros H. exact H. Qed.

Ltac ext :=
  repeat first [ apply extends_refl | apply extends_sys
               | apply extends_raised ].

Ltac trace :=
  repeat first [ rewrite since_raised | rewrite since_sys by ext
               | rewrite since_refl ];
  cbn [app].

Section Tunnel.

Variable P : platform.

(** What [lxcSetupTtyTunnel] may do to the definition: nothing, or replace
    the tty path. *)
Lemma lxcSetupTtyTunnel_def (d d' : lxc_vm_def_t) (rc fd : Z)
    (w w' : world) :
  lxcSetupTtyTunnel P d w = (Ret (rc, d', fd), w') ->
  d' = d \/ exists s, d' = set_tty s d.
Proof.
  unfold lxcSetupTtyTunnel, setup_complete, lxcPutTtyInRawMode.
  destruct (0 <? Z.of_nat (String.length (tty d))).
  2:{ repeat mstep. intros [= _ <- _ _]. auto. }
  mstep. cbv zeta. destruct (ret _ <? 0).
  { repeat mstep. destruct (_ && _); repeat mstep; intros [= _ <- _ _]; auto. }
  mstep. destruct (ret _ <? 0).
  { repeat mstep. destruct (_ && _); repeat mstep; intros [= _ <- _ _]; auto. }
  mstep. destruct (ret _ <? 0).
  { repeat mstep. destruct (_ && _); repeat mstep; intros [= _ <- _ _]; auto. }
  mstep. destruct (ret _ =? 0).
  { repeat mstep. destruct (_ && _); repeat mstep; intros [= _ <- _ _]; auto. }
  assert (Hd : forall s,
            (if STRNEQ s (tty d) then set_tty s d else d) = d \/
            exists s',
              (if STRNEQ s (tty d) then set_tty s d else d) = set_tty s' d).
  { intros s. destruct (STRNEQ s (tty d)); eauto. }
  intros H. apply bind_inv_Ret in H as (raw & w1 & _ & H).
  destruct (raw <? 0); apply bind_inv_Ret in H as (rc' & w2 & _ & H);
    injection H as _ <- _ _; apply Hd.
Qed.

(** X8.  When [lxcSetupTtyTunnel] returns a negative code it has raised an
    error and left the definition alone, and the master it opened is closed
    again: no descriptor is open that was not open before - unless [open]
    returned descriptor 0, which the test [*ttyDev > 0] at the label
    [setup_complete] does not close. *)
Theorem lxcSetupTtyTunnel_failure_closes (d d' : lxc_vm_def_t) (rc fd : Z)
    (w w' : world) :
  lxcSetupTtyTunnel P d w = (Ret (rc, d', fd), w') ->
  rc < 0 ->
  d' = d /\
  (exists msg, errors w' = errors w ++ [(VIR_ERR_INTERNAL_ERROR, msg)]) /\
  (forall x, In x (open_fds w') -> In x (open_fds w) \/ (x = 0 /\ fd = 0)).
Proof.
  unfold lxcSetupTtyTunnel, setup_complete.
  destruct (0 <? Z.of_nat (String.length (tty d))).
  2:{ repeat mstep. intros [= <- _ _ _]. lia. }
  mstep. cbv zeta.
  set (o := os P (history w) (Open (tty d)
              (Z.lor O_RDWR (Z.lor O_NOCTTY O_NONBLOCK)))).
  assert (Hclose : forall x l,
    In x (List.filter (fun y => negb (y =? ret o)) (ret o :: l)) -> In x l).
  { intros x l H. apply In_filter_ne in H as [[H|H] Hne]; congruence. }
  destruct (Z.ltb_spec (ret o) 0) as [Ho|Ho].
  { repeat mstep. change (negb (0 =? -1)) with true. cbn [andb].
    destruct (Z.ltb_spec 0 (ret o)); [lia|]. repeat mstep.
    intros [= <- <- <- <-] _. split; [reflexivity|].
    split; [eexists; reflexivity|].
    intros x. cbn [open_fds raised lxcError snd sys fds_after]. fold o.
    destruct (Z.leb_spec 0 (ret o)); [lia | auto]. }
  assert (Hfinish : forall (rc0 : Z) (w0 : world),
    rc0 < 0 ->
    open_fds w0 = ret o :: open_fds w ->
    (exists msg, errors w0 = errors w ++ [(VIR_ERR_INTERNAL_ERROR, msg)]) ->
    forall res w1,
      bind (if negb (0 =? rc0) && (0 <? ret o)
            then bind (sys P (Close (ret o))) (fun _ => mret tt)
            else mret tt)
        (fun _ => mret rc0) w0 = (Ret res, w1) ->
      (exists msg, errors w1 = errors w ++ [(VIR_ERR_INTERNAL_ERROR, msg)]) /\
      (forall x, In x (open_fds w1) ->
                 In x (open_fds w) \/ (x = 0 /\ ret o = 0))).
  { intros rc0 w0 Hrc0 Hfds Herr res w1.
    destruct (Z.eqb_spec 0 rc0); [lia|]. cbn [negb andb].
    destruct (Z.ltb_spec 0 (ret o)) as [Hpos|Hzero]; repeat mstep.
    - intros [= _ <-]. split; [exact Herr|].
      intros x. cbn [open_fds snd sys fds_after]. rewrite Hfds.
      intros H. left. apply (Hclose x (open_fds w)), H.
    - intros [= _ <-]. split; [exact Herr|].
      intros x. rewrite Hfds. intros [H|H]; [right; lia | left; exact H]. }
  assert (Hopen : open_fds (snd (sys P (Open (tty d)
              (Z.lor O_RDWR (Z.lor O_NOCTTY O_NONBLOCK))) w))
           = ret o :: open_fds w).
  { cbn [open_fds snd sys fds_after]. fold o.
    destruct (Z.leb_spec 0 (ret o)); [reflexivity | lia]. }
  mstep.
  match goal with |- context [ret ?r <? 0] =>
    destruct (Z.ltb_spec (ret r) 0) as [Hg|Hg] end.
  { mstep. intros H Hrc. apply bind_inv_Ret in H as (rc1 & w1 & H1 & H).
    injection H as <- <- <- <-. split; [reflexivity|].
    eapply Hfinish in H1; [exact H1 | exact Hg | exact Hopen |].
    eexists. reflexivity. }
  mstep.
  match goal with |- context [ret ?r <? 0] =>
    destruct (Z.ltb_spec (ret r) 0) as [Hu|Hu] end.
  { mstep. intros H Hrc. apply bind_inv_Ret in H as (rc1 & w1 & H1 & H).
    injection H as <- <- <- <-. split; [reflexivity|].
    eapply Hfinish in H1; [exact H1 | exact Hu | exact Hopen |].
    eexists. reflexivity. }
  mstep. destruct (ret _ =? 0).
  { mstep. intros H Hrc. apply bind_inv_Ret in H as (rc1 & w1 & H1 & H).
    injection H as <- <- <- <-. exfalso.
    apply bind_inv_Ret in H1 as (? & ? & _ & H1). injection H1 as <- _.
    subst o. cbn [history snd sys] in *. lia. }
  intros H Hrc. apply bind_inv_Ret in H as (raw & w1 & _ & H).
  destruct (raw <? 0); apply bind_inv_Ret in H as (rc1 & w2 & H1 & H);
    injection H as <- <- <- <-; exfalso;
    apply bind_inv_Ret in H1 as (? & ? & _ & H1); injection H1 as <- _;
    subst o; cbn [history snd sys] in *; lia.
Qed.

Lemma length_pos_nonempty (s : string) :
  s <> "" -> (0 <? Z.of_nat (String.length s)) = true.
Proof.
  destruct s; [contradiction|]. intros _. apply Z.ltb_lt. simpl. lia.
Qed.

Lemma set_tty_same (d : lxc_vm_def_t) : set_tty (tty d) d = d.
Proof. destruct d. reflexivity. Qed.

(** X9.  A NULL from [ptsname] is reported but not returned.  When the
    definition names a tty, [open] and [grantpt] succeed, [unlockpt]
    returns 0 and [ptsname] returns NULL, [lxcSetupTtyTunnel] raises
    "ptsname() failed" and still returns 0 - [rc] holds what [unlockpt]
    returned - with the definition unchanged and the master left open: no
    [close] is called. *)
Theorem lxcSetupTtyTunnel_ptsname_null (d : lxc_vm_def_t) (w : world) :
  tty d <> "" ->
  (forall h p f, 0 <= ret (os P h (Open p f))) ->
  (forall h fd, 0 <= ret (os P h (Grantpt fd))) ->
  (forall h fd, ret (os P h (Unlockpt fd)) = 0) ->
  (forall h fd, ret (os P h (Ptsname fd)) = 0) ->
  exists fd w',
    lxcSetupTtyTunnel P d w = (Ret (0, d, fd), w') /\
    errors w' = errors w ++ [(VIR_ERR_INTERNAL_ERROR, "ptsname() failed")] /\
    In fd (open_fds w') /\
    Forall (fun c => is_close c = false) (map fst (since w w')).
Proof.
  intros Htty Hopen Hgrant Hunlock Hpts.
  unfold lxcSetupTtyTunnel, setup_complete.
  rewrite (length_pos_nonempty _ Htty). mstep. cbv zeta.
  set (o := os P (history w) (Open (tty d)
              (Z.lor O_RDWR (Z.lor O_NOCTTY O_NONBLOCK)))).
  assert (Ho : 0 <= ret o) by apply Hopen.
  destruct (Z.ltb_spec (ret o) 0); [lia|].
  mstep.
  match goal with |- context [ret (os P ?h (Grantpt ?f)) <? 0] =>
    destruct (Z.ltb_spec (ret (os P h (Grantpt f))) 0);
      [specialize (Hgrant h f); lia|] end.
  mstep. rewrite !Hunlock. change (0 <? 0) with false. cbv iota.
  mstep. rewrite Hpts. change (0 =? 0) with true. cbv iota.
  repeat mstep. cbn [negb andb].
  eexists _, _. split; [reflexivity|]. split; [reflexivity|]. split.
  - cbn [open_fds raised lxcError snd sys fds_after]. fold o.
    destruct (Z.leb_spec 0 (ret o)); [left; reflexivity | lia].
  - trace. cbn [map fst].
    repeat (apply Forall_cons_2; [reflexivity|]). apply Forall_nil_2.
Qed.

(** X10.  A tunnel setup that returns without having raised an error, for
    a definition that names a tty, has returned 0; the master [open] gave
    is open, it was put into raw mode ([tcsetattr] was called on it), and
    the definition's tty is now the slave name [ptsname] reported for that
    master, every other field as before. *)
Theorem lxcSetupTtyTunnel_clean (d d' : lxc_vm_def_t) (rc fd : Z)
    (w w' : world) :
  lxcSetupTtyTunnel P d w = (Ret (rc, d', fd), w') ->
  errors w' = errors w ->
  tty d <> "" ->
  rc = 0 /\ 0 <= fd /\ open_fds w' = fd :: open_fds w /\
  (exists r,
     In (Ptsname fd, r) (since w w') /\ ret r <> 0 /\
     d' = set_tty (out_str r) d) /\
  In (Tcsetattr fd) (map fst (since w w')).
Proof.
  intros H He Htty. revert H He.
  unfold lxcSetupTtyTunnel, setup_complete, lxcPutTtyInRawMode.
  rewrite (length_pos_nonempty _ Htty). mstep. cbv zeta.
  set (o := os P (history w) (Open (tty d)
              (Z.lor O_RDWR (Z.lor O_NOCTTY O_NONBLOCK)))).
  assert (Hbad : forall (w0 : world) msg Q,
            errors w0 = errors w ++ [(VIR_ERR_INTERNAL_ERROR, msg)] ->
            errors w0 = errors w -> Q).
  { intros w0 msg Q H1 H2. rewrite H1 in H2.
    exfalso. eapply app_one_neq, H2. }
  destruct (Z.ltb_spec (ret o) 0) as [Ho|Ho].
  { repeat mstep. destruct (_ && _); repeat mstep;
      intros [= _ _ _ <-] He; refine (Hbad _ _ _ _ He); reflexivity. }
  mstep. destruct (ret _ <? 0).
  { repeat mstep. destruct (_ && _); repeat mstep;
      intros [= _ _ _ <-] He; refine (Hbad _ _ _ _ He); reflexivity. }
  mstep. destruct (ret _ <? 0).
  { repeat mstep. destruct (_ && _); repeat mstep;
      intros [= _ _ _ <-] He; refine (Hbad _ _ _ _ He); reflexivity. }
  mstep.
  match goal with |- context [ret ?p =? 0] =>
    set (r := p); destruct (Z.eqb_spec (ret r) 0) as [Hp|Hp] end.
  { repeat mstep. destruct (_ && _); repeat mstep;
      intros [= _ _ _ <-] He; refine (Hbad _ _ _ _ He); reflexivity. }
  repeat mstep. destruct (ret _ <? 0).
  { repeat mstep. change (-1 <? 0) with true. cbv iota.
    repeat mstep. destruct (_ && _); repeat mstep;
      intros [= _ _ _ <-] He; refine (Hbad _ _ _ _ He); reflexivity. }
  repeat mstep. destruct (ret _ <? 0).
  { repeat mstep. change (-1 <? 0) with true. cbv iota.
    repeat mstep. destruct (_ && _); repeat mstep;
      intros [= _ _ _ <-] He; refine (Hbad _ _ _ _ He); reflexivity. }
  repeat mstep. change (0 <? 0) with false. cbv iota. repeat mstep.
  cbn [negb andb Z.eqb]. repeat mstep.
  intros H _. apply mret_inv in H as [H <-]. injection H as <- <- <-.
  split; [reflexivity|]. split; [exact Ho|]. split.
  { cbn [open_fds snd sys fds_after]. fold o.
    destruct (Z.leb_spec 0 (ret o)); [reflexivity | lia]. }
  trace. split.
  - exists r. split; [simpl; tauto|]. split; [exact Hp|].
    destruct (STRNEQ (out_str r) (tty d)) eqn:E; [reflexivity|].
    apply STRNEQ_false in E. rewrite E. symmetry. apply set_tty_same.
  - simpl. tauto.
Qed.

(** X11.  Every return of [lxcSetupContainerTty] is a return of 0 or -1.
    On -1 it has raised an error, the caller's name pointer is as it was,
    and the master is closed again: no descriptor is open that was not open
    before.  On 0 no error was raised, the master [posix_openpt] gave is
    open, and the name is the one [ptsname_r] reported for it. *)
Theorem lxcSetupContainerTty_result (ttyName ttyName' : option string)
    (rc fd : Z) (w w' : world) :
  lxcSetupContainerTty P ttyName w = (Ret (rc, fd, ttyName'), w') ->
  (rc = 0 \/ rc = -1) /\
  (rc = -1 ->
   ttyName' = ttyName /\ no_new_fds w w' /\
   exists msg, errors w' = errors w ++ [(VIR_ERR_INTERNAL_ERROR, msg)]) /\
  (rc = 0 ->
   errors w' = errors w /\ 0 <= fd /\ open_fds w' = fd :: open_fds w /\
   exists r,
     In (PtsnameR fd, r) (since w w') /\ ttyName' = Some (out_str r)).
Proof.
  unfold lxcSetupContainerTty, container_tty_cleanup. mstep. cbv zeta.
  set (o := os P (history w) (PosixOpenpt (Z.lor O_RDWR O_NOCTTY))).
  change (negb (0 =? -1)) with true. change (negb (0 =? 0)) with false.
  cbv iota.
  assert (Hsub : forall x l,
    In x (List.filter (fun y => negb (y =? ret o)) (ret o :: l)) -> In x l).
  { intros x l H. apply In_filter_ne in H as [[H|H] Hne]; congruence. }
  destruct (Z.ltb_spec (ret o) 0) as [Ho|Ho].
  { repeat mstep. destruct (negb (-1 =? ret o)); repeat mstep;
      intros [= <- <- <- <-]; (split; [right; reflexivity|]);
      (split; [intros _|discriminate]);
      (split; [reflexivity|]); (split; [|eexists; reflexivity]);
      intros x; cbn [open_fds raised lxcError snd sys fds_after]; fold o;
      destruct (Z.leb_spec 0 (ret o)); try lia.
    - intros Hx. apply In_filter_ne in Hx as [Hx _]. exact Hx.
    - auto. }
  assert (Hne : negb (-1 =? ret o) = true).
  { destruct (Z.eqb_spec (-1) (ret o)); [lia | reflexivity]. }
  assert (Hfds : open_fds (snd (sys P (PosixOpenpt (Z.lor O_RDWR O_NOCTTY)) w))
                 = ret o :: open_fds w).
  { cbn [open_fds snd sys fds_after]. fold o.
    destruct (Z.leb_spec 0 (ret o)); [reflexivity | lia]. }
  mstep. destruct (ret _ <? 0).
  { repeat mstep. rewrite Hne. repeat mstep.
    intros [= <- <- <- <-]. split; [right; reflexivity|].
    split; [intros _|discriminate].
    split; [reflexivity|]. split; [|eexists; reflexivity].
    intros x. cbn [open_fds raised lxcError snd sys fds_after] in *.
    rewrite Hfds. apply Hsub. }
  mstep.
  match goal with |- context [0 =? ret ?p] =>
    set (r := p); destruct (negb (0 =? ret r)) end.
  { repeat mstep. rewrite Hne. repeat mstep.
    intros [= <- <- <- <-]. split; [right; reflexivity|].
    split; [intros _|discriminate].
    split; [reflexivity|]. split; [|eexists; reflexivity].
    intros x. cbn [open_fds raised lxcError snd sys fds_after] in *.
    rewrite Hfds. apply Hsub. }
  mstep. destruct (ret _ =? 0); [discriminate|].
  repeat mstep.
  intros H. apply mret_inv in H as [H <-]. injection H as <- <- <-.
  split; [left; reflexivity|].
  split; [discriminate|]. intros _.
  split; [reflexivity|]. split; [exact Ho|]. split.
  { cbn [open_fds snd sys fds_after] in *. exact Hfds. }
  exists r. split; [|reflexivity].
  trace. simpl. tauto.
Qed.

End Tunnel.

(** ** The forwarder *)

Lemma bytes_read_app (fd : Z) (h1 h2 : list event) :
  bytes_read fd (h1 ++ h2) = bytes_read fd h1 ++ bytes_read fd h2.
Proof. apply flat_map_app. Qed.

Lemma bytes_written_app (fd : Z) (h1 h2 : list event) :
  bytes_written fd (h1 ++ h2) = bytes_written fd h1 ++ bytes_written fd h2.
Proof. apply flat_map_app. Qed.

Lemma relays_nil (fd1 fd2 : Z) : relays fd1 fd2 [].
Proof. split; reflexivity. Qed.

Lemma relays_app (fd1 fd2 : Z) (h1 h2 : list event) :
  relays fd1 fd2 h1 -> relays fd1 fd2 h2 -> relays fd1 fd2 (h1 ++ h2).
Proof.
  intros [A1 B1] [A2 B2]. unfold relays.
  rewrite !bytes_read_app, !bytes_written_app, A1, A2, B1, B2. auto.
Qed.

Lemma relays_sym (fd1 fd2 : Z) (h : list event) :
  relays fd1 fd2 h -> relays fd2 fd1 h.
Proof. intros [A B]. split; assumption. Qed.

Lemma relays_poll (fd1 fd2 : Z) (fds : list Z) (r : reply) :
  relays fd1 fd2 [(Poll fds, r)].
Proof. split; reflexivity. Qed.

Lemma relays_failed_read (fd1 fd2 fd : Z) (r : reply) :
  negb (1 =? ret r) = true -> relays fd1 fd2 [(Saferead fd, r)].
Proof.
  intros H. apply negb_true_iff in H. rewrite Z.eqb_sym in H.
  unfold relays, bytes_read, bytes_written.
  cbn [flat_map read_byte written_byte fst snd app].
  rewrite H, !andb_false_r. auto.
Qed.

Lemma relays_read_write (fd1 fd2 : Z) (r wr : reply) :
  fd1 <> fd2 ->
  negb (1 =? ret r) = false ->
  relays fd1 fd2 [(Saferead fd1, r); (Safewrite fd2 (hd 0 (out_ints r)), wr)].
Proof.
  intros Hne H. apply negb_false_iff in H. rewrite Z.eqb_sym in H.
  unfold relays, bytes_read, bytes_written.
  cbn [flat_map read_byte written_byte fst snd app].
  rewrite H, !Z.eqb_refl.
  destruct (Z.eqb_spec fd1 fd2); [contradiction|].
  destruct (Z.eqb_spec fd2 fd1); [congruence|]. auto.
Qed.

Section Forwarder.

Variable P : platform.

(** One round of the [for] loop always finishes; it has raised an error
    exactly when it leaves through [cleanup]. *)
Lemma forward_ready_errors (fds revents : list Z) (idxs : list nat) :
  forall w, exists b w',
    forward_ready P fds revents idxs w = (Ret b, w') /\
    if b then exists msg,
               errors w' = errors w ++ [(VIR_ERR_INTERNAL_ERROR, msg)]
    else errors w' = errors w.
Proof.
  induction idxs as [|i rest IH]; intros w; simpl.
  - exists false, w. auto.
  - destruct (nth i revents 0 =? 0); [apply IH|].
    destruct (negb (Z.land (nth i revents 0) POLLIN =? 0)); [|apply IH].
    mstep.
    match goal with |- context [if negb ?b then _ else _] => destruct b end;
      cbn [negb].
    2:{ mstep. eexists true, _. split; [reflexivity|].
        eexists. reflexivity. }
    destruct (1 <? Z.of_nat (length fds)).
    + mstep.
      match goal with |- context [if negb ?b then _ else _] => destruct b end;
        cbn [negb].
      2:{ mstep. eexists true, _. split; [reflexivity|].
          eexists. reflexivity. }
      match goal with |- context [forward_ready P fds revents rest ?w1] =>
        destruct (IH w1) as (b & w' & Hr & He) end.
      exists b, w'. split; [exact Hr | exact He].
    + match goal with |- context [forward_ready P fds revents rest ?w1] =>
        destruct (IH w1) as (b & w' & Hr & He) end.
      exists b, w'. split; [exact Hr | exact He].
Qed.

(** The loop returns only after an error, and never with 0. *)
Lemma forward_loop_result (fds : list Z) (fuel : nat) :
  forall w,
    fst (forward_loop P fuel fds w) <> Fault /\
    forall rc w',
      forward_loop P fuel fds w = (Ret rc, w') ->
      rc <> 0 /\
      exists msg, errors w' = errors w ++ [(VIR_ERR_INTERNAL_ERROR, msg)].
Proof.
  induction fuel as [|fuel IH]; intros w.
  - split; [discriminate|]. intros rc w' [=].
  - cbn [forward_loop]. do 2 mstep. cbv zeta.
    set (r := os P (history w) (Poll fds)).
    set (w1 := snd (sys P (Poll fds) w)).
    assert (He1 : errors w1 = errors w) by reflexivity.
    destruct (Z.leb_spec (ret r) 0) as [Hle|Hgt].
    + destruct (Z.eqb_spec 0 (ret r)) as [E|E]; cbn [orb].
      { rewrite <- He1. apply IH. }
      destruct ((errno w1 =? EINTR) || (errno w1 =? EAGAIN)).
      { rewrite <- He1. apply IH. }
      mstep. split; [discriminate|].
      intros rc w' [= <- <-]. split; [lia|]. eexists. reflexivity.
    + destruct (forward_ready_errors fds (out_ints r) (seq 0 (length fds)) w1)
        as (b & w2 & Hr & He).
      rewrite (bind_Ret _ _ _ _ _ Hr). destruct b.
      * split; [discriminate|]. intros rc w' [= <- <-].
        split; [lia|]. rewrite <- He1. exact He.
      * rewrite <- He1, <- He. apply IH.
Qed.

(** X12.  The forwarder returns only on an error, and never returns 0.
    With no descriptor to forward it returns -1 at once, without a call.
    With a descriptor, every return follows exactly one raised error: a
    [poll] that failed for a reason other than EINTR and EAGAIN, a read or
    a write that did not transfer its byte.  It never faults. *)
Theorem lxcTtyForward_returns_on_error (fuel : nat) (fd1 fd2 : Z)
    (w : world) :
  let run := lxcTtyForward P fuel fd1 fd2 w in
  fst run <> Fault /\
  (fd1 < 0 /\ fd2 < 0 -> run = (Ret (-1), w)) /\
  forall rc w',
    run = (Ret rc, w') ->
    rc <> 0 /\
    (0 <= fd1 \/ 0 <= fd2 ->
     exists msg, errors w' = errors w ++ [(VIR_ERR_INTERNAL_ERROR, msg)]).
Proof.
  cbv zeta. unfold lxcTtyForward.
  assert (Hcases :
    (fd1 < 0 /\ fd2 < 0 /\ pollfds fd1 fd2 = []) \/
    ((0 <= fd1 \/ 0 <= fd2) /\ exists x l, pollfds fd1 fd2 = x :: l)).
  { unfold pollfds.
    destruct (Z.leb_spec 0 fd1); destruct (Z.leb_spec 0 fd2); simpl; eauto 8. }
  destruct Hcases as [(H1 & H2 & ->)|(H12 & x & l & ->)].
  - split; [discriminate|]. split; [reflexivity|].
    intros rc w' [= <- <-]. split; [lia|]. intros [H|H]; lia.
  - change (0 =? Z.of_nat (length (x :: l))) with false. cbv iota.
    destruct (forward_loop_result (x :: l) fuel w) as [Hnf Hret].
    split; [exact Hnf|]. split; [intros [? ?]; lia|].
    intros rc w' Hrun. destruct (Hret rc w' Hrun) as [Hrc He].
    split; [exact Hrc | intros _; exact He].
Qed.

(** One round over two different descriptors: every byte read from one is
    handed to [safewrite] for the other. *)
Lemma forward_ready_relays (fd1 fd2 : Z) (revents : list Z)
    (idxs : list nat) :
  fd1 <> fd2 ->
  Forall (fun i => (i < 2)%nat) idxs ->
  forall w, exists b w' delta,
    forward_ready P [fd1; fd2] revents idxs w = (Ret b, w') /\
    history w' = history w ++ delta /\
    relays fd1 fd2 delta.
Proof.
  intros Hne. induction 1 as [|i rest Hi _ IH]; intros w.
  - exists false, w, []. rewrite app_nil_r.
    split; [reflexivity|]. split; [reflexivity | apply relays_nil].
  - cbn [forward_ready]. cbv zeta.
    destruct (nth i revents 0 =? 0); [apply IH|].
    destruct (negb (Z.land (nth i revents 0) POLLIN =? 0)); [|apply IH].
    assert (Hfd : exists a b,
              nth i [fd1; fd2] 0 = a /\ nth (Nat.lxor i 1) [fd1; fd2] 0 = b /\
              a <> b /\
              forall h, relays a b h -> relays fd1 fd2 h).
    { destruct i as [|[|i]]; [| |lia].
      - exists fd1, fd2. split; [reflexivity|]. split; [reflexivity|]. auto.
      - exists fd2, fd1. split; [reflexivity|]. split; [reflexivity|].
        split; [auto|]. intros h. apply relays_sym. }
    destruct Hfd as (a & b & -> & -> & Hab & Hrel).
    mstep.
    set (rd := os P (history w) (Saferead a)).
    set (w1 := snd (sys P (Saferead a) w)).
    assert (Hh1 : history w1 = history w ++ [(Saferead a, rd)])
      by reflexivity.
    destruct (negb (1 =? ret rd)) eqn:Hrd.
    { mstep. eexists true, _, _. split; [reflexivity|].
      split; [exact Hh1|]. apply Hrel, relays_failed_read, Hrd. }
    change (1 <? Z.of_nat (length [fd1; fd2])) with true. cbv iota.
    mstep.
    set (wr := os P (history w1) (Safewrite b (hd 0 (out_ints rd)))).
    set (w2 := snd (sys P (Safewrite b (hd 0 (out_ints rd))) w1)).
    assert (Hh2 : history w2
                  = history w ++ [(Saferead a, rd);
                                  (Safewrite b (hd 0 (out_ints rd)), wr)]).
    { unfold w2. rewrite history_sys, Hh1, <- app_assoc. reflexivity. }
    pose proof (Hrel _ (relays_read_write a b rd wr Hab Hrd)) as Hrw.
    destruct (negb (1 =? ret wr)).
    { mstep. eexists true, _, _. split; [reflexivity|].
      split; [exact Hh2 | exact Hrw]. }
    destruct (IH w2) as (stop & w3 & d & Hr & Hh & Hd).
    exists stop, w3, ([(Saferead a, rd);
                       (Safewrite b (hd 0 (out_ints rd)), wr)] ++ d).
    split; [exact Hr|]. rewrite Hh, Hh2, <- app_assoc.
    split; [reflexivity|]. apply relays_app; assumption.
Qed.

Lemma forward_loop_relays (fd1 fd2 : Z) (fuel : nat) :
  fd1 <> fd2 ->
  forall w, exists delta,
    history (snd (forward_loop P fuel [fd1; fd2] w)) = history w ++ delta /\
    relays fd1 fd2 delta.
Proof.
  intros Hne. induction fuel as [|fuel IH]; intros w.
  - exists []. simpl. rewrite app_nil_r. split; [reflexivity|].
    apply relays_nil.
  - cbn [forward_loop]. do 2 mstep. cbv zeta.
    set (r := os P (history w) (Poll [fd1; fd2])).
    set (w1 := snd (sys P (Poll [fd1; fd2]) w)).
    assert (Hw1 : history w1 = history w ++ [(Poll [fd1; fd2], r)])
      by reflexivity.
    pose proof (relays_poll fd1 fd2 [fd1; fd2] r) as Hp.
    destruct (ret r <=? 0).
    + destruct ((0 =? ret r) || (errno w1 =? EINTR) || (errno w1 =? EAGAIN)).
      * destruct (IH w1) as (d & Hd & Hf).
        exists ([(Poll [fd1; fd2], r)] ++ d).
        rewrite Hd, Hw1, <- app_assoc. split; [reflexivity|].
        apply relays_app; assumption.
      * mstep. exists [(Poll [fd1; fd2], r)]. split; [exact Hw1 | exact Hp].
    + destruct (forward_ready_relays fd1 fd2 (out_ints r) [0; 1]%nat Hne)
        with (w := w1) as (b & w2 & d2 & Hr & Hh2 & Hf2).
      { repeat (apply Forall_cons_2; [lia|]). apply Forall_nil_2. }
      change (seq 0 (length [fd1; fd2])) with [0; 1]%nat.
      rewrite (bind_Ret _ _ _ _ _ Hr).
      destruct b.
      * exists ([(Poll [fd1; fd2], r)] ++ d2). unfold mret. cbn [snd].
        rewrite Hh2, Hw1, <- app_assoc. split; [reflexivity|].
        apply relays_app; assumption.
      * destruct (IH w2) as (d & Hd & Hf).
        exists ([(Poll [fd1; fd2], r)] ++ d2 ++ d).
        rewrite Hd, Hh2, Hw1, <- !app_assoc. split; [reflexivity|].
        apply relays_app; [exact Hp|]. apply relays_app; assumption.
Qed.

(** X13.  The forwarder between two different descriptors relays: however
    long it runs and whatever the kernel answers, the bytes it hands to
    [safewrite] for one descriptor are the bytes it read from the other,
    in the order they were read, and it writes nothing else. *)
Theorem lxcTtyForward_relays (fuel : nat) (fd1 fd2 : Z) (w : world) :
  0 <= fd1 -> 0 <= fd2 -> fd1 <> fd2 ->
  let h := since w (snd (lxcTtyForward P fuel fd1 fd2 w)) in
  bytes_written fd2 h = bytes_read fd1 h /\
  bytes_written fd1 h = bytes_read fd2 h.
Proof.
  intros H1 H2 Hne. cbv zeta. unfold lxcTtyForward, pollfds.
  destruct (Z.leb_spec 0 fd1); [|lia].
  destruct (Z.leb_spec 0 fd2); [|lia]. cbn [app].
  change (0 =? Z.of_nat (length [fd1; fd2])) with false. cbv iota.
  destruct (forward_loop_relays fd1 fd2 fuel Hne w) as (d & Hd & Hrel).
  rewrite (since_app _ _ _ Hd). exact Hrel.
Qed.

End Forwarder.

(** Two rounds of the forwarder between descriptors 4 and 5 on the friendly
    kernel: the byte read from 4 in each round went to 5. *)
Lemma lxcTtyForward_relays_witness :
  let h := since root_process
             (snd (lxcTtyForward (platform_of friendly_kernel) 2 4 5
                     root_process)) in
  bytes_read 4 h = [65; 65] /\ bytes_written 5 h = bytes_read 4 h.
Proof.
  intros h. split; [reflexivity|].
  apply (lxcTtyForward_relays (platform_of friendly_kernel) 2 4 5
           root_process); lia.
Defined.

(** ** Starting a container *)

Lemma not_In_filter_ne (fd : Z) (l : list Z) :
  ~ In fd (List.filter (fun y => negb (y =? fd)) l).
Proof. intros H. apply In_filter_ne in H as [_ H]. contradiction. Qed.

Lemma int_decr_incr (x : Z) :
  INT_MIN <= x <= INT_MAX -> int_decr (int_incr x) = x.
Proof.
  unfold INT_MIN, INT_MAX, int_decr, int_incr, int_wrap. intros H.
  replace ((x + 1 + 2 ^ 31) mod 2 ^ 32 - 2 ^ 31 - 1 + 2 ^ 31)
    with ((x + 1 + 2 ^ 31) mod 2 ^ 32 - 1) by lia.
  rewrite Zminus_mod_idemp_l.
  replace (x + 1 + 2 ^ 31 - 1) with (x + 2 ^ 31) by lia.
  rewrite Z.mod_small by lia. lia.
Qed.

Lemma int_incr_decr (x : Z) :
  INT_MIN <= x <= INT_MAX -> int_incr (int_decr x) = x.
Proof.
  unfold INT_MIN, INT_MAX, int_decr, int_incr, int_wrap. intros H.
  replace ((x - 1 + 2 ^ 31) mod 2 ^ 32 - 2 ^ 31 + 1 + 2 ^ 31)
    with ((x - 1 + 2 ^ 31) mod 2 ^ 32 + 1) by lia.
  rewrite Zplus_mod_idemp_l.
  replace (x - 1 + 2 ^ 31 + 1) with (x + 2 ^ 31) by lia.
  rewrite Z.mod_small by lia. lia.
Qed.

Section StartContainer.

Variable P : platform.

(** X14.  [lxcStartContainer] always returns, with 0 or -1; it returns 0
    exactly when the stack is allocated and [clone] returns a pid.  When
    the stack cannot be allocated the record is untouched and [clone] is
    not called; otherwise [def->id] holds what [clone] returned, also when
    that is negative.  The configuration is saved exactly on success, an
    error is raised exactly on failure, no descriptor is opened or closed,
    and the stack is never freed. *)
Theorem lxcStartContainer_result (vm : lxc_vm_t) (w : world) :
  let m := os P (history w) (Malloc (pagesize w * 4)) in
  let w1 := snd (sys P (Malloc (pagesize w * 4)) w) in
  let c := os P (history w1) (Clone lxcChild container_flags) in
  exists rc vm' w',
    lxcStartContainer P vm w = (Ret (rc, vm'), w') /\
    (rc = 0 \/ rc = -1) /\
    (rc = 0 <-> ret m <> 0 /\ 0 <= ret c) /\
    (ret m = 0 ->
     vm' = vm /\ map fst (since w w') = [Malloc (pagesize w * 4)]) /\
    (ret m <> 0 -> vm' = set_def (set_id (ret c) (def vm)) vm) /\
    (In (SaveConfig (name (def vm))) (map fst (since w w')) <-> rc = 0) /\
    (errors w' = errors w <-> rc = 0) /\
    open_fds w' = open_fds w /\
    releases (since w w') = 0%nat.
Proof.
  intros m w1 c. subst w1. unfold lxcStartContainer. do 2 mstep. fold m.
  destruct (Z.eqb_spec (ret m) 0) as [Hm|Hm].
  { mstep. eexists _, _, _. split; [reflexivity|].
    split; [right; reflexivity|].
    split; [split; [discriminate | intros [? _]; contradiction]|].
    split; [intros _; split; [reflexivity | trace; reflexivity]|].
    split; [contradiction|].
    split; [trace; simpl; split; [intros [H|[]]; discriminate
                                 | discriminate]|].
    split; [split; [intros H; exfalso; eapply app_one_neq, H
                   | discriminate]|].
    split; [reflexivity|]. trace. reflexivity. }
  mstep. fold c. cbv zeta. cbn [id def set_def set_id].
  destruct (Z.ltb_spec (ret c) 0) as [Hc|Hc].
  - mstep. eexists _, _, _. split; [reflexivity|].
    split; [right; reflexivity|].
    split; [split; [discriminate | intros [_ ?]; lia]|].
    split; [contradiction|].
    split; [reflexivity|].
    split; [trace; simpl;
            split; [intros [H|[H|[]]]; discriminate | discriminate]|].
    split; [split; [intros H; exfalso; eapply app_one_neq, H
                   | discriminate]|].
    split; [reflexivity|]. trace. reflexivity.
  - mstep. eexists _, _, _. split; [reflexivity|].
    split; [left; reflexivity|].
    split; [split; auto|].
    split; [contradiction|].
    split; [reflexivity|].
    split; [trace; simpl; split; [reflexivity | tauto]|].
    split; [split; reflexivity|].
    split; [reflexivity|]. trace. reflexivity.
Qed.

(** [lxcStartContainer] leaves the open descriptors alone and changes at
    most [def->id]. *)
Lemma lxcStartContainer_keeps (vm vm' : lxc_vm_t) (rc : Z) (w w' : world) :
  lxcStartContainer P vm w = (Ret (rc, vm'), w') ->
  open_fds w' = open_fds w /\
  (vm' = vm \/ exists i, vm' = set_def (set_id i (def vm)) vm).
Proof.
  unfold lxcStartContainer. do 2 mstep.
  destruct (ret _ =? 0).
  - mstep. intros H. apply mret_inv in H as [H <-]. injection H as _ <-.
    split; [reflexivity | left; reflexivity].
  - mstep. cbv zeta. destruct (_ <? 0).
    + mstep. intros H. apply mret_inv in H as [H <-]. injection H as _ <-.
      split; [reflexivity | right; eexists; reflexivity].
    + mstep. intros H. apply mret_inv in H as [H <-]. injection H as _ <-.
      split; [reflexivity | right; eexists; reflexivity].
Qed.

(** A start that succeeded left the record active and moved the counters
    by one. *)
Lemma lxcVmStart_success (fuel : nat) (driver driver1 : lxc_driver_t)
    (vm vm' : lxc_vm_t) (w w1 : world) :
  lxcVmStart P fuel driver vm w = (Ret (0, vm', driver1), w1) ->
  lxcIsActiveVM vm' = true /\
  driver1 = set_counters (int_incr (nactivevms driver))
              (int_decr (ninactivevms driver)) driver.
Proof.
  unfold lxcVmStart. intros H.
  apply bind_inv_Ret in H as (t & w2 & _ & H).
  destruct (fst (fst t) <? 0); [discriminate|].
  apply bind_inv_Ret in H as (c & w3 & _ & H).
  destruct (fst (fst c) <? 0); [discriminate|].
  rewrite bind_sys in H. cbv beta zeta in H.
  destruct (pid (set_pid _ _) <? 0).
  { rewrite bind_lxcError in H. discriminate. }
  apply bind_inv_Ret in H as (? & w4 & _ & H).
  do 2 rewrite bind_sys in H. cbv beta in H.
  apply bind_inv_Ret in H as ([rc' vm4] & w5 & Hs & H).
  apply lxcStartContainer_record in Hs as (_ & _ & _ & _ & _ & Hid).
  cbn [fst snd] in H. unfold mret in H.
  destruct (Z.eqb_spec rc' 0) as [E|E].
  - injection H as _ <- <- _. split; [|reflexivity].
    unfold lxcIsActiveVM. cbn [def set_state]. specialize (Hid E).
    destruct (Z.eqb_spec (id (def vm4)) (-1)); [lia | reflexivity].
  - injection H as H _ _ _. contradiction.
Qed.

(** X15.  Every return of [lxcVmStart] is a return of 0 or -1.  On 0 the
    record is in state RUNNING and active, [def->id] and [pid] are not
    negative, the name is unchanged, the active counter went up and the
    inactive counter down by one, and both pty descriptors are closed in
    the calling process.  On -1 the record's state and the driver are as
    they were. *)
Theorem lxcVmStart_result (fuel : nat) (driver driver' : lxc_driver_t)
    (vm vm' : lxc_vm_t) (rc : Z) (w w' : world) :
  lxcVmStart P fuel driver vm w = (Ret (rc, vm', driver'), w') ->
  (rc = 0 \/ rc = -1) /\
  (rc = 0 ->
   state vm' = VIR_DOMAIN_RUNNING /\ lxcIsActiveVM vm' = true /\
   0 <= id (def vm') /\ 0 <= pid vm' /\
   name (def vm') = name (def vm) /\
   driver' = set_counters (int_incr (nactivevms driver))
               (int_decr (ninactivevms driver)) driver /\
   ~ In (parentTty vm') (open_fds w') /\
   ~ In (containerTtyFd vm') (open_fds w')) /\
  (rc = -1 -> state vm' = state vm /\ driver' = driver).
Proof.
  intros Hrun.
  assert (Hfail : rc <> 0 -> state vm' = state vm /\ driver' = driver).
  { apply (lxcVmStart_failure_keeps_state P fuel _ _ _ _ _ _ _ Hrun). }
  revert Hrun. unfold lxcVmStart. intros H.
  apply bind_inv_Ret in H as ([[rc1 d1] fd1] & w1 & Ht & H).
  cbn [fst snd] in H.
  destruct (rc1 <? 0).
  { injection H as <- _ _ _. split; [right; reflexivity|].
    split; [discriminate|]. intros _. apply Hfail. discriminate. }
  apply bind_inv_Ret in H as ([[rc2 fd2] n2] & w2 & _ & H).
  cbn [fst snd] in H.
  destruct (rc2 <? 0).
  { injection H as <- _ _ _. split; [right; reflexivity|].
    split; [discriminate|]. intros _. apply Hfail. discriminate. }
  rewrite bind_sys in H. cbv beta zeta in H.
  set (f := os P (history w2) Fork) in *.
  set (vm3 := set_pid (ret f) (set_containerTty n2 (set_containerTtyFd fd2
                (set_parentTty fd1 (set_def d1 vm))))) in *.
  destruct (Z.ltb_spec (pid vm3) 0) as [Hpid|Hpid].
  { rewrite bind_lxcError in H. injection H as <- _ _ _.
    split; [right; reflexivity|].
    split; [discriminate|]. intros _. apply Hfail. discriminate. }
  apply bind_inv_Ret in H as (u & w3 & _ & H).
  do 2 rewrite bind_sys in H. cbv beta in H.
  apply bind_inv_Ret in H as ([rc' vm4] & w5 & Hs & H).
  pose proof (lxcStartContainer_record P _ _ _ _ _ Hs)
    as (Hst & Hp4 & Hpt & Hct & Hrc' & Hid).
  pose proof (lxcStartContainer_keeps _ _ _ _ _ Hs) as (Hfds & Hdef).
  cbn [fst snd] in H.
  destruct (Z.eqb_spec rc' 0) as [E|E].
  2:{ apply mret_inv in H as [H _]. injection H as <- _ _.
      split; [destruct Hrc'; [contradiction | right; assumption]|].
      split; [contradiction|]. intros _. apply Hfail. exact E. }
  apply mret_inv in H as [H <-]. injection H as <- <- <-.
  split; [left; exact E|]. split; [|intros; lia]. intros _.
  split; [reflexivity|].
  assert (Hidpos : 0 <= id (def vm4)) by (apply Hid, E).
  split.
  { unfold lxcIsActiveVM. cbn [def set_state].
    destruct (Z.eqb_spec (id (def vm4)) (-1)); [lia | reflexivity]. }
  split; [exact Hidpos|].
  split; [cbn [pid set_state]; rewrite Hp4; exact Hpid|].
  split.
  { cbn [def set_state].
    assert (Hn3 : name (def vm3) = name (def vm)).
    { cbn [def vm3 set_pid set_containerTty set_containerTtyFd
           set_parentTty set_def].
      destruct (lxcSetupTtyTunnel_def P _ _ _ _ _ _ Ht) as [->|[s ->]];
        reflexivity. }
    destruct Hdef as [->|[i ->]]; exact Hn3. }
  split; [reflexivity|].
  cbn [parentTty containerTtyFd set_state]. rewrite Hpt, Hct, Hfds.
  cbn [open_fds snd sys fds_after]. split.
  - intros Hin. apply In_filter_ne in Hin as [Hin _].
    eapply not_In_filter_ne, Hin.
  - apply not_In_filter_ne.
Qed.

End StartContainer.

(** The domain "c1" with the tty "/dev/ptmx" started on the friendly
    kernel: the start returns 0 and the record is RUNNING. *)
Lemma lxcVmStart_result_witness :
  exists vm' driver' w',
    lxcVmStart (platform_of friendly_kernel) 0
      (start_driver "c1" "/dev/ptmx") (defined_vm "c1" "/dev/ptmx")
      root_process = (Ret (0, vm', driver'), w') /\
    state vm' = VIR_DOMAIN_RUNNING /\ id (def vm') = 200.
Proof.
  eexists _, _, _. split; [vm_compute; reflexivity|].
  split; [|reflexivity].
  refine (proj1 (proj1 (proj2
    (lxcVmStart_result (platform_of friendly_kernel) 0
       (start_driver "c1" "/dev/ptmx") _ (defined_vm "c1" "/dev/ptmx") _ 0
       root_process _ _)) eq_refl)).
  vm_compute. reflexivity.
Defined.

(** ** Destroy, call by call *)

Section DestroyTrace.

Variable P : platform.

Lemma waitpid_retry_trace (p : Z) (fuel : nat) :
  forall w, exists d,
    history (snd (waitpid_retry P fuel p w)) = history w ++ d /\
    Forall (is_wait_for p) d.
Proof.
  induction fuel as [|fuel IH]; intros w.
  - exists []. simpl. rewrite app_nil_r. auto.
  - cbn [waitpid_retry]. do 2 mstep.
    set (r := os P (history w) (Waitpid p)).
    set (w1 := snd (sys P (Waitpid p) w)).
    assert (Hh : history w1 = history w ++ [(Waitpid p, r)]) by reflexivity.
    destruct ((ret r =? -1) && (errno w1 =? EINTR)).
    + destruct (IH w1) as (d & Hd & Hf). exists ((Waitpid p, r) :: d).
      rewrite Hd, Hh, <- app_assoc. split; [reflexivity|].
      apply Forall_cons_2; [reflexivity | exact Hf].
    + exists [(Waitpid p, r)]. split; [exact Hh|].
      apply Forall_cons_2; [reflexivity | apply Forall_nil_2].
Qed.

Lemma destroy_kill_tty_trace (fuel pos : nat) (vm : lxc_vm_t)
    (driver : lxc_driver_t) (w : world) :
  exists r d,
    history (snd (destroy_kill_tty P fuel pos vm driver w))
    = history w ++ (Kill (pid vm) SIGKILL, r) :: d /\
    Forall (is_wait_for (pid vm)) d.
Proof.
  unfold destroy_kill_tty. do 4 mstep.
  set (r := os P (history w) (Kill (pid vm) SIGKILL)).
  set (w1 := snd (sys P (Kill (pid vm) SIGKILL) w)).
  assert (Hh : history w1 = history w ++ [(Kill (pid vm) SIGKILL, r)])
    by reflexivity.
  exists r.
  destruct ((ret r <? 0) && negb (errno w1 =? ESRCH)).
  - mstep. exists []. split; [exact Hh | apply Forall_nil_2].
  - destruct (waitpid_retry_trace (pid vm) fuel w1) as (d & Hd & Hf).
    exists d. split; [|exact Hf].
    transitivity (history (snd (waitpid_retry P fuel (pid vm) w1)));
      [|rewrite Hd, Hh, <- app_assoc; reflexivity].
    destruct (waitpid_retry P fuel (pid vm) w1) as [[v| |] w2] eqn:E.
    + rewrite (bind_Ret _ _ _ _ _ E). mstep.
      destruct (negb (fst v =? pid vm)); reflexivity.
    + rewrite (bind_Fault _ _ _ _ E). reflexivity.
    + rewrite (bind_OutOfFuel _ _ _ _ E). reflexivity.
Qed.

(** The calls of [lxcDomainDestroy] whatever its outcome - also while it
    is still waiting: SIGKILL to [def->id], waits for that pid, and then at
    most SIGKILL to the forwarder and waits for its pid. *)
Lemma lxcDomainDestroy_trace (fuel : nat) (driver : lxc_driver_t)
    (dom : virDomain) (pos : nat) (vm : lxc_vm_t) (w : world) :
  lxcFindVMByID driver (dom_id dom) = Some (pos, vm) ->
  exists waits1 rest,
    since w (snd (lxcDomainDestroy P fuel driver dom w))
    = (Kill (id (def vm)) SIGKILL,
       os P (history w) (Kill (id (def vm)) SIGKILL)) :: waits1 ++ rest /\
    Forall (is_wait_for (id (def vm))) waits1 /\
    (rest = [] \/
     exists r2 waits2,
       rest = (Kill (pid vm) SIGKILL, r2) :: waits2 /\
       Forall (is_wait_for (pid vm)) waits2).
Proof.
  intros Hfind. unfold lxcDomainDestroy. rewrite Hfind. do 2 mstep.
  set (r := os P (history w) (Kill (id (def vm)) SIGKILL)).
  set (w1 := snd (sys P (Kill (id (def vm)) SIGKILL) w)).
  assert (Hh : history w1 = history w ++ [(Kill (id (def vm)) SIGKILL, r)])
    by reflexivity.
  destruct ((ret r <? 0) && negb (errno w1 =? ESRCH)).
  { mstep. exists [], []. split; [apply since_app; exact Hh|].
    split; [apply Forall_nil_2 | left; reflexivity]. }
  cbv zeta. change (id (def (set_state VIR_DOMAIN_SHUTDOWN vm)))
    with (id (def vm)).
  destruct (waitpid_retry_trace (id (def vm)) fuel w1) as (d1 & Hd1 & Hf1).
  exists d1.
  destruct (waitpid_retry P fuel (id (def vm)) w1) as [[v| |] w2] eqn:E;
    cbn [snd] in Hd1.
  - rewrite (bind_Ret _ _ _ _ _ E).
    assert (Hstep : exists w3,
      bind (if negb (fst v =? id (def vm))
            then
              bind (lxcError VIR_ERR_INTERNAL_ERROR
                      "waitpid failed to wait for container %d: %d %s")
                (fun _ => mret (-1))
            else mret (WEXITSTATUS (snd v)))
        (fun _ => destroy_kill_tty P fuel pos
                    (set_state VIR_DOMAIN_SHUTDOWN vm) driver) w2
      = destroy_kill_tty P fuel pos (set_state VIR_DOMAIN_SHUTDOWN vm)
          driver w3 /\
      history w3 = history w2).
    { destruct (negb (fst v =? _)); eexists; split; reflexivity. }
    destruct Hstep as (w3 & -> & Hh3).
    destruct (destroy_kill_tty_trace fuel pos
                (set_state VIR_DOMAIN_SHUTDOWN vm) driver w3)
      as (r2 & d2 & Hd2 & Hf2).
    exists ((Kill (pid vm) SIGKILL, r2) :: d2).
    split; [|split; [exact Hf1 | right; eauto]].
    apply since_app. rewrite Hd2, Hh3, Hd1, Hh, <- !app_assoc. reflexivity.
  - rewrite (bind_Fault _ _ _ _ E). exists [].
    split; [|split; [exact Hf1 | left; reflexivity]].
    apply since_app. cbn [snd]. rewrite Hd1, Hh, app_nil_r, <- app_assoc.
    reflexivity.
  - rewrite (bind_OutOfFuel _ _ _ _ E). exists [].
    split; [|split; [exact Hf1 | left; reflexivity]].
    apply since_app. cbn [snd]. rewrite Hd1, Hh, app_nil_r, <- app_assoc.
    reflexivity.
Qed.


(** A wait loop that returned ran to its end. *)
Lemma waitpid_retry_completed (p : Z) (fuel : nat) :
  forall w v w',
    waitpid_retry P fuel p w = (Ret v, w') ->
    exists d, history w' = history w ++ d /\ completed_wait p d.
Proof.
  induction fuel as [|fuel IH]; intros w v w'.
  - discriminate.
  - rewrite waitpid_retry_S.
    set (r := os P (history w) (Waitpid p)).
    destruct (interrupted (Waitpid p, r)) eqn:Hi.
    + intros H. apply IH in H as (d & Hd & ints & last & -> & Hf & Hl & Hn).
      exists (((Waitpid p, r) :: ints) ++ [last]). split.
      * rewrite Hd, history_sys. fold r. rewrite <- !app_assoc. reflexivity.
      * exists ((Waitpid p, r) :: ints), last. split; [reflexivity|].
        split; [|auto]. apply Forall_cons_2; [split; [reflexivity|exact Hi]|].
        exact Hf.
    + intros [= _ <-]. exists [(Waitpid p, r)]. split; [reflexivity|].
      exists [], (Waitpid p, r). split; [reflexivity|].
      split; [apply Forall_nil_2|]. split; [reflexivity | exact Hi].
Qed.

(** From the label [kill_tty] on, a [destroy] that returned has signalled
    the forwarder, and has waited for it to the end exactly when the signal
    was delivered or the forwarder was already gone. *)
Lemma destroy_kill_tty_completed (fuel pos : nat) (vm : lxc_vm_t)
    (driver : lxc_driver_t) (w w' : world) (res : Z * lxc_driver_t) :
  destroy_kill_tty P fuel pos vm driver w = (Ret res, w') ->
  let r2 := os P (history w) (Kill (pid vm) SIGKILL) in
  exists waits2,
    history w' = history w ++ (Kill (pid vm) SIGKILL, r2) :: waits2 /\
    (delivered_or_gone r2 -> completed_wait (pid vm) waits2) /\
    (~ delivered_or_gone r2 -> waits2 = []).
Proof.
  intros H r2. revert H. unfold destroy_kill_tty. do 4 mstep.
  rewrite errno_sys. fold r2.
  pose proof (delivered_or_gone_dec r2 (errno w)) as Hdec.
  destruct ((ret r2 <? 0) && negb (errno_after r2 (errno w) =? ESRCH)).
  - mstep. intros H. apply mret_inv in H as [_ <-].
    exists []. split; [reflexivity|]. split; [|reflexivity].
    intros Hd. exfalso. apply Hdec; [reflexivity | exact Hd].
  - intros H. apply bind_inv_Ret in H as (v & w2 & Hw & H).
    apply waitpid_retry_completed in Hw as (d & Hd & Hc).
    assert (Hh : history w' = history w2).
    { revert H. mstep. destruct (negb (fst v =? pid vm)).
      - mstep. intros H. apply mret_inv in H as [_ <-]. reflexivity.
      - mstep. intros H. apply mret_inv in H as [_ <-]. reflexivity. }
    exists d. split.
    + rewrite Hh, Hd, history_sys. fold r2. rewrite <- app_assoc.
      reflexivity.
    + split; [intros _; exact Hc|].
      intros Hn. apply Hdec in Hn. discriminate.
Qed.

(** X16.  The calls of [lxcDomainDestroy] on a running domain.  Whatever
    the outcome - also while the function is still waiting - they are, in
    order: SIGKILL to the container's init ([def->id]), waits for that pid,
    and then at most SIGKILL to the forwarder ([pid]) and waits for that
    pid; no other process is signalled or waited for and nothing else is
    called.  A [destroy] that returned has made exactly these calls: when
    the first kill failed for a reason other than "no such process", that
    kill and nothing more; otherwise the kill, the wait loop for [def->id]
    run to its end (interrupted waits, then one that was not), SIGKILL to
    the forwarder, and - exactly when that signal was delivered or the
    forwarder was already gone - the wait loop for the forwarder run to
    its end. *)
Theorem lxcDomainDestroy_calls (fuel : nat) (driver : lxc_driver_t)
    (dom : virDomain) (pos : nat) (vm : lxc_vm_t) (w : world) :
  lxcFindVMByID driver (dom_id dom) = Some (pos, vm) ->
  let r1 := os P (history w) (Kill (id (def vm)) SIGKILL) in
  let run := lxcDomainDestroy P fuel driver dom w in
  (exists waits1 rest,
     since w (snd run) = (Kill (id (def vm)) SIGKILL, r1) :: waits1 ++ rest /\
     Forall (is_wait_for (id (def vm))) waits1 /\
     (rest = [] \/
      exists r2 waits2,
        rest = (Kill (pid vm) SIGKILL, r2) :: waits2 /\
        Forall (is_wait_for (pid vm)) waits2)) /\
  (forall res,
     fst run = Ret res ->
     (~ delivered_or_gone r1 ->
      since w (snd run) = [(Kill (id (def vm)) SIGKILL, r1)]) /\
     (delivered_or_gone r1 ->
      exists waits1 r2 waits2,
        since w (snd run)
        = (Kill (id (def vm)) SIGKILL, r1)
            :: waits1 ++ (Kill (pid vm) SIGKILL, r2) :: waits2 /\
        completed_wait (id (def vm)) waits1 /\
        (delivered_or_gone r2 -> completed_wait (pid vm) waits2) /\
        (~ delivered_or_gone r2 -> waits2 = []))).
Proof.
  intros Hfind r1 run. split.
  { apply (lxcDomainDestroy_trace fuel driver dom pos vm w Hfind). }
  intros res Hres. unfold run in *.
  destruct (lxcDomainDestroy P fuel driver dom w) as [o w'] eqn:Hrun.
  cbn [fst snd] in *. subst o. revert Hrun.
  unfold lxcDomainDestroy. rewrite Hfind. do 2 mstep.
  rewrite errno_sys. fold r1.
  pose proof (delivered_or_gone_dec r1 (errno w)) as Hdec.
  destruct ((ret r1 <? 0) && negb (errno_after r1 (errno w) =? ESRCH)).
  - mstep. intros H. apply mret_inv in H as [_ <-]. split.
    + intros _. trace. reflexivity.
    + intros Hd. exfalso. apply Hdec; [reflexivity | exact Hd].
  - cbv zeta.
    change (id (def (set_state VIR_DOMAIN_SHUTDOWN vm))) with (id (def vm)).
    intros H. apply bind_inv_Ret in H as (wc & w2 & Hw & H).
    apply waitpid_retry_completed in Hw as (d1 & Hd1 & Hc1).
    apply bind_inv_Ret in H as (rc0 & w3 & Hmid & H).
    assert (Hh3 : history w3 = history w2).
    { revert Hmid. destruct (negb (fst wc =? id (def vm))).
      - repeat mstep. intros Hm. apply mret_inv in Hm as [_ <-].
        reflexivity.
      - intros Hm. apply mret_inv in Hm as [_ <-]. reflexivity. }
    apply destroy_kill_tty_completed in H as (waits2 & Hh & Hok & Hno).
    change (pid (set_state VIR_DOMAIN_SHUTDOWN vm)) with (pid vm) in *.
    split; [intros Hn; apply Hdec in Hn; discriminate|].
    intros _. eexists d1, _, waits2.
    split; [|split; [exact Hc1 | split; [exact Hok | exact Hno]]].
    apply since_app. rewrite Hh, Hh3, Hd1, history_sys. fold r1.
    rewrite <- !app_assoc. reflexivity.
Qed.

End DestroyTrace.

(** Destroying the first running domain of the example registry on the
    friendly kernel: SIGKILL to pid 41, one wait for it, SIGKILL to the
    forwarder 40, one wait for it. *)
Lemma lxcDomainDestroy_calls_witness :
  let P := platform_of friendly_kernel in
  let run :=
    lxcDomainDestroy P 1 example_driver (handle_of (running_vm "c1" 41 40))
      root_process in
  map fst (since root_process (snd run))
  = [Kill 41 SIGKILL; Waitpid 41; Kill 40 SIGKILL; Waitpid 40] /\
  exists waits1 r2 waits2,
    since root_process (snd run)
    = (Kill 41 SIGKILL, ok 0) :: waits1 ++ (Kill 40 SIGKILL, r2) :: waits2 /\
    completed_wait 41 waits1 /\
    (delivered_or_gone r2 -> completed_wait 40 waits2).
Proof.
  intros P run. split; [reflexivity|].
  assert (Hret : exists res, fst run = Ret res)
    by (eexists; vm_compute; reflexivity).
  destruct Hret as (res & Hres).
  destruct (proj2 (lxcDomainDestroy_calls P 1 example_driver
                     (handle_of (running_vm "c1" 41 40)) 0
                     (running_vm "c1" 41 40) root_process eq_refl)
              res Hres) as [_ H].
  destruct H as (waits1 & r2 & waits2 & Hs & Hc1 & Hok & _).
  - left. simpl. lia.
  - exists waits1, r2, waits2. split; [exact Hs|]. split; [exact Hc1|].
    exact Hok.
Defined.

(** ** How the operations compose *)

Lemma find_by_id_set_state (l : list lxc_vm_t) (i : Z) (s : virDomainState) :
  forall (p0 pos : nat) (vm : lxc_vm_t),
    find_by_id l i p0 = Some (pos, vm) ->
    find_by_id (<[(pos - p0)%nat := set_state s vm]> l) i p0
    = Some (pos, set_state s vm).
Proof.
  induction l as [|v next IH]; intros p0 pos vm; simpl.
  - discriminate.
  - destruct (lxcIsActiveVM v && (id (def v) =? i)) eqn:E.
    + intros [= <- <-]. rewrite Nat.sub_diag. simpl.
      change (lxcIsActiveVM (set_state s v)) with (lxcIsActiveVM v).
      rewrite E. reflexivity.
    + intros H. pose proof (find_by_id_Some _ _ _ _ _ H) as (Hle & _).
      replace (pos - p0)%nat with (S (pos - S p0)) by lia. simpl.
      rewrite E. apply IH, H.
Qed.

Lemma map_def_insert (l : list lxc_vm_t) :
  forall (pos : nat) (vm vm' : lxc_vm_t),
    l !! pos = Some vm -> def vm' = def vm ->
    map def (<[pos := vm']> l) = map def l.
Proof.
  induction l as [|v l IH]; intros pos vm vm' H Hd.
  - discriminate.
  - destruct pos as [|pos]; simpl in *.
    + injection H as ->. rewrite Hd. reflexivity.
    + f_equal. eapply IH; eassumption.
Qed.

(** The listing loops read the definitions of the records only. *)
Lemma lxcListDomains_loop_def (l : list lxc_vm_t) :
  forall l' ids nids k,
    map def l = map def l' ->
    lxcListDomains_loop l ids nids k = lxcListDomains_loop l' ids nids k.
Proof.
  induction l as [|v l IH]; intros [|v' l'] ids nids k H;
    try discriminate; [reflexivity|].
  injection H as Hv Hl. simpl. unfold lxcIsActiveVM. rewrite Hv.
  destruct (k <? nids); [|reflexivity].
  destruct (negb (id (def v') =? -1)); apply IH, Hl.
Qed.

Lemma lxcListDefinedDomains_loop_def (P : platform) (l : list lxc_vm_t) :
  forall l' names nnames k w,
    map def l = map def l' ->
    lxcListDefinedDomains_loop P l names nnames k w
    = lxcListDefinedDomains_loop P l' names nnames k w.
Proof.
  induction l as [|v l IH]; intros [|v' l'] names nnames k w H;
    try discriminate; [reflexivity|].
  injection H as Hv Hl. simpl. unfold lxcIsActiveVM. rewrite Hv.
  destruct (k <? nnames); [|reflexivity].
  destruct (negb (id (def v') =? -1)); cbn [negb]; [apply IH, Hl|].
  unfold bind. destruct (strdup P (name (def v')) w) as [[[c|]| |] w1];
    try reflexivity.
  apply IH, Hl.
Qed.

Lemma find_by_id_def (l : list lxc_vm_t) :
  forall l' i p0,
    map def l = map def l' ->
    option_map fst (find_by_id l i p0) = option_map fst (find_by_id l' i p0).
Proof.
  induction l as [|v l IH]; intros [|v' l'] i p0 H;
    try discriminate; [reflexivity|].
  injection H as Hv Hl. simpl. unfold lxcIsActiveVM. rewrite Hv.
  destruct (negb (id (def v') =? -1) && (id (def v') =? i));
    [reflexivity | apply IH, Hl].
Qed.

Lemma filter_ne_notin (i : Z) (l : list Z) :
  ~ In i l -> List.filter (fun x => negb (x =? i)) l = l.
Proof.
  induction l as [|x l IH]; intros H; simpl; [reflexivity|].
  destruct (Z.eqb_spec x i) as [->|Hne]; simpl.
  - exfalso. apply H. left. reflexivity.
  - f_equal. apply IH. intros Hin. apply H. right. exact Hin.
Qed.

(** Making one active record inactive removes its id from the ids of the
    active records, and nothing else. *)
Lemma active_ids_deactivate (l : list lxc_vm_t) :
  forall (pos : nat) (vm vm3 : lxc_vm_t),
    l !! pos = Some vm -> lxcIsActiveVM vm = true ->
    lxcIsActiveVM vm3 = false ->
    List.NoDup (active_ids l) ->
    active_ids (<[pos := vm3]> l)
    = List.filter (fun x => negb (x =? id (def vm))) (active_ids l).
Proof.
  unfold active_ids.
  induction l as [|v l IH]; intros pos vm vm3 Hl Ha H3 Hnd.
  - discriminate.
  - destruct pos as [|pos]; simpl in *.
    + injection Hl as ->. rewrite H3, Ha in *. simpl.
      rewrite Z.eqb_refl. simpl. symmetry. apply filter_ne_notin.
      inversion Hnd; assumption.
    + destruct (lxcIsActiveVM v) eqn:Hv; simpl.
      * inversion Hnd as [|x xs Hx Hxs]; subst.
        destruct (Z.eqb_spec (id (def v)) (id (def vm))) as [E|E]; simpl.
        -- exfalso. apply Hx. rewrite E.
           apply (elem_of_active_ids l pos vm Hl Ha).
        -- f_equal. apply IH; assumption.
      * apply IH; assumption.
Qed.

Section Composition.

Variable P : platform.

Lemma lxcDomainShutdown_success (driver driver1 : lxc_driver_t)
    (dom : virDomain) (w w1 : world) :
  lxcDomainShutdown P driver dom w = (Ret (0, driver1), w1) ->
  exists pos vm,
    lxcFindVMByID driver (dom_id dom) = Some (pos, vm) /\
    driver1 = store_vm pos (set_state VIR_DOMAIN_SHUTDOWN vm) driver.
Proof.
  unfold lxcDomainShutdown.
  destruct (lxcFindVMByID driver (dom_id dom)) as [[pos vm]|].
  2:{ mstep. intros [=]. }
  do 2 mstep. destruct (_ && _).
  { mstep. intros [=]. }
  intros [= <- _]. eauto.
Qed.

Lemma lxcDomainShutdown_defs (driver driver' : lxc_driver_t)
    (dom : virDomain) (rc : Z) (w w' : world) :
  lxcDomainShutdown P driver dom w = (Ret (rc, driver'), w') ->
  map def (vms driver') = map def (vms driver) /\
  nactivevms driver' = nactivevms driver /\
  ninactivevms driver' = ninactivevms driver.
Proof.
  unfold lxcDomainShutdown.
  destruct (lxcFindVMByID driver (dom_id dom)) as [[pos vm]|] eqn:Hfind.
  2:{ mstep. intros [= _ <- _]. auto. }
  do 2 mstep. destruct (_ && _).
  { mstep. intros [= _ <- _]. auto. }
  intros [= _ <- _]. split; [|auto].
  apply lxcFindVMByID_Some in Hfind as (Hl & _).
  unfold store_vm. simpl. eapply map_def_insert; [exact Hl | reflexivity].
Qed.

(** X17.  A shutdown followed by a destroy through the same handle: the
    destroy finds the record the shutdown marked, and when it succeeds it
    leaves the driver exactly as a successful destroy without the shutdown
    leaves it. *)
Theorem shutdown_then_destroy (fuel : nat)
    (driver driver1 driver2 : lxc_driver_t) (dom : virDomain)
    (w w1 w2 : world) :
  lxcDomainShutdown P driver dom w = (Ret (0, driver1), w1) ->
  lxcDomainDestroy P fuel driver1 dom w1 = (Ret (0, driver2), w2) ->
  (exists pos vm,
     lxcFindVMByID driver (dom_id dom) = Some (pos, vm) /\
     lxcFindVMByID driver1 (dom_id dom)
     = Some (pos, set_state VIR_DOMAIN_SHUTDOWN vm) /\
     driver2 = destroy_reconcile pos (set_state VIR_DOMAIN_SHUTDOWN vm)
                 driver) /\
  forall fuel' w0 driver2' w2',
    lxcDomainDestroy P fuel' driver dom w0 = (Ret (0, driver2'), w2') ->
    driver2' = driver2.
Proof.
  intros Hs Hd.
  apply lxcDomainShutdown_success in Hs as (pos & vm & Hfind & ->).
  assert (Hfind1 : lxcFindVMByID
                     (store_vm pos (set_state VIR_DOMAIN_SHUTDOWN vm) driver)
                     (dom_id dom)
                   = Some (pos, set_state VIR_DOMAIN_SHUTDOWN vm)).
  { unfold lxcFindVMByID in *. cbn [vms store_vm set_vms].
    pose proof (find_by_id_set_state _ _ VIR_DOMAIN_SHUTDOWN _ _ _ Hfind)
      as H.
    rewrite Nat.sub_0_r in H. exact H. }
  apply lxcDomainDestroy_success in Hd as (pos' & vm' & Hfind' & ->).
  rewrite Hfind1 in Hfind'. injection Hfind' as <- <-.
  assert (Heq : destroy_reconcile pos
                  (set_state VIR_DOMAIN_SHUTDOWN
                     (set_state VIR_DOMAIN_SHUTDOWN vm))
                  (store_vm pos (set_state VIR_DOMAIN_SHUTDOWN vm) driver)
                = destroy_reconcile pos (set_state VIR_DOMAIN_SHUTDOWN vm)
                    driver).
  { unfold destroy_reconcile, store_vm, set_counters, set_vms. simpl.
    rewrite list_insert_insert_eq. reflexivity. }
  rewrite Heq. split; [eauto|].
  intros fuel' w0 driver2' w2' H.
  apply lxcDomainDestroy_success in H as (pos' & vm' & Hfind' & ->).
  rewrite Hfind in Hfind'. injection Hfind' as <- <-. reflexivity.
Qed.

(** X18.  A start followed by a destroy of the started record gives both
    counters their old values back, whatever they were. *)
Theorem start_destroy_counters (fuel fuel' : nat) (pos : nat)
    (driver driver1 driver2 : lxc_driver_t) (vm vm' : lxc_vm_t)
    (dom : virDomain) (w w1 w2 : world) :
  INT_MIN <= nactivevms driver <= INT_MAX ->
  INT_MIN <= ninactivevms driver <= INT_MAX ->
  lxcVmStart P fuel driver vm w = (Ret (0, vm', driver1), w1) ->
  lxcDomainDestroy P fuel' (store_vm pos vm' driver1) dom w1
  = (Ret (0, driver2), w2) ->
  nactivevms driver2 = nactivevms driver /\
  ninactivevms driver2 = ninactivevms driver /\
  nactivevms driver1 = int_incr (nactivevms driver) /\
  ninactivevms driver1 = int_decr (ninactivevms driver).
Proof.
  intros Ha Hi Hstart Hdestroy.
  destruct (lxcVmStart_success P _ _ _ _ _ _ _ Hstart) as (_ & ->).
  apply lxcDomainDestroy_success in Hdestroy as (p & v & _ & ->).
  unfold destroy_reconcile. cbn [nactivevms ninactivevms set_counters store_vm
                                 set_vms].
  rewrite int_decr_incr, int_incr_decr by assumption. auto.
Qed.

(** X19.  [lxcDomainShutdown] only asks: whatever it returns, the driver it
    leaves lists the same running ids and the same defined names as
    before, reports the same two counts, and finds a record at the same
    place under every id. *)
Theorem lxcDomainShutdown_keeps_listing (driver driver' : lxc_driver_t)
    (dom : virDomain) (rc : Z) (w w' : world) :
  lxcDomainShutdown P driver dom w = (Ret (rc, driver'), w') ->
  (forall ids nids,
     lxcListDomains driver' ids nids = lxcListDomains driver ids nids) /\
  (forall names nnames w0,
     lxcListDefinedDomains P driver' names nnames w0
     = lxcListDefinedDomains P driver names nnames w0) /\
  lxcNumDomains driver' = lxcNumDomains driver /\
  lxcNumDefinedDomains driver' = lxcNumDefinedDomains driver /\
  (forall i,
     option_map fst (lxcFindVMByID driver' i)
     = option_map fst (lxcFindVMByID driver i)).
Proof.
  intros H. apply lxcDomainShutdown_defs in H as (Hdef & Ha & Hi).
  split; [|split; [|split; [exact Ha|split; [exact Hi|]]]].
  - intros ids nids. apply lxcListDomains_loop_def, Hdef.
  - intros names nnames w0. apply lxcListDefinedDomains_loop_def, Hdef.
  - intros i. apply find_by_id_def, Hdef.
Qed.

(** X20.  On a registry whose active records have pairwise different ids,
    a destroy that succeeded has removed the handle's id from the running
    ids and nothing else: the lookup by that id finds nothing, the ids of
    the other running domains are listed as before and in the same order,
    they are still pairwise different, and a shutdown or a second destroy
    through the handle returns -1 with the driver as it is. *)
Theorem lxcDomainDestroy_then_gone (fuel : nat)
    (driver driver1 : lxc_driver_t) (dom : virDomain) (w w1 : world) :
  List.NoDup (active_ids (vms driver)) ->
  lxcDomainDestroy P fuel driver dom w = (Ret (0, driver1), w1) ->
  let others :=
    List.filter (fun x => negb (x =? dom_id dom)) (active_ids (vms driver)) in
  lxcFindVMByID driver1 (dom_id dom) = None /\
  active_ids (vms driver1) = others /\
  List.NoDup (active_ids (vms driver1)) /\
  (forall ids nids,
     0 <= nids <= INT_MAX -> nids <= Z.of_nat (length ids) ->
     let res := lxcListDomains driver1 ids nids in
     take (Z.to_nat (snd res)) (fst res) = take (Z.to_nat nids) others) /\
  (forall w0, fst (lxcDomainShutdown P driver1 dom w0) = Ret (-1, driver1)) /\
  (forall fuel' w0,
     fst (lxcDomainDestroy P fuel' driver1 dom w0) = Ret (-1, driver1)).
Proof.
  intros Hnd H others.
  apply lxcDomainDestroy_success in H as (pos & vm & Hfind & ->).
  pose proof (lxcFindVMByID_Some _ _ _ _ Hfind) as (Hl & Hid & Hact).
  assert (Hnone : lxcFindVMByID
                    (destroy_reconcile pos (set_state VIR_DOMAIN_SHUTDOWN vm)
                       driver) (dom_id dom) = None).
  { eapply lxcFindVMByID_after_destroy; eassumption. }
  assert (Hids : active_ids
                   (vms (destroy_reconcile pos
                           (set_state VIR_DOMAIN_SHUTDOWN vm) driver))
                 = others).
  { unfold destroy_reconcile. cbn [vms set_counters store_vm set_vms].
    unfold others. rewrite <- Hid.
    apply active_ids_deactivate; [exact Hl | exact Hact | reflexivity
                                 | exact Hnd]. }
  split; [exact Hnone|]. split; [exact Hids|].
  split; [rewrite Hids; apply List.NoDup_filter, Hnd|].
  split; [|split].
  - intros ids nids Hn Hlen. cbv zeta. unfold lxcListDomains.
    rewrite lxcListDomains_loop_spec by lia. rewrite Hids.
    cbn [fst snd]. rewrite Z.sub_0_r, Z.add_0_l, Nat2Z.id.
    change (Z.to_nat 0) with 0%nat. rewrite take_0. cbn [app].
    rewrite take_app_length. reflexivity.
  - intros w0. rewrite lxcDomainShutdown_no_target by exact Hnone.
    reflexivity.
  - intros fuel' w0. rewrite lxcDomainDestroy_no_target by exact Hnone.
    reflexivity.
Qed.

End Composition.

(** ** The counters and the partitions *)

(** X21.  On a driver whose active counter matches the number of active
    records, [lxcActive] returns 1 exactly when some record is active, and
    0 otherwise; with no driver it returns 0. *)
Theorem lxcActive_iff_running (driver : lxc_driver_t) :
  counters_reconciled driver ->
  (lxcActive (Some driver) = 1 <->
   exists vm, In vm (vms driver) /\ lxcIsActiveVM vm = true) /\
  (lxcActive (Some driver) = 0 \/ lxcActive (Some driver) = 1) /\
  lxcActive None = 0.
Proof.
  intros [Ha _]. unfold lxcActive. rewrite Ha.
  destruct (List.filter lxcIsActiveVM (vms driver)) as [|x l] eqn:E.
  - simpl. split; [|auto]. split; [discriminate|].
    intros (vm & Hin & Hact).
    assert (H : In vm (List.filter lxcIsActiveVM (vms driver)))
      by (apply List.filter_In; auto).
    rewrite E in H. destruct H.
  - assert (Hx : In x (List.filter lxcIsActiveVM (vms driver)))
      by (rewrite E; left; reflexivity).
    apply List.filter_In in Hx.
    destruct (Z.eqb_spec (Z.of_nat (length (x :: l))) 0) as [H0|_];
      [simpl in H0; lia|].
    split; [|auto]. split; [intros _; exists x; exact Hx | reflexivity].
Qed.

Section StartInvariant.

Variable P : platform.

(** X22.  Starting an inactive record keeps the counters right: when the
    counters match the sizes of the two partitions, the record at [pos] is
    inactive and the start succeeds, the counters match the partitions
    again once the started record is back in its place. *)
Theorem lxcVmStart_counters_reconciled (fuel pos : nat)
    (driver driver1 : lxc_driver_t) (vm vm' : lxc_vm_t) (w w1 : world) :
  vms driver !! pos = Some vm ->
  lxcIsActiveVM vm = false ->
  Z.of_nat (length (vms driver)) <= INT_MAX ->
  counters_reconciled driver ->
  lxcVmStart P fuel driver vm w = (Ret (0, vm', driver1), w1) ->
  counters_reconciled (store_vm pos vm' driver1).
Proof.
  intros Hl Hina Hlen [Ha Hi] Hstart.
  destruct (lxcVmStart_success P _ _ _ _ _ _ _ Hstart) as (Hact & ->).
  pose proof (filter_length_insert lxcIsActiveVM _ _ _ vm' Hl) as Hfa.
  pose proof (filter_length_insert (fun v => negb (lxcIsActiveVM v))
                _ _ _ vm' Hl) as Hfi.
  cbv beta in Hfi. rewrite Hina, Hact in Hfa, Hfi. simpl in Hfa, Hfi.
  pose proof (List.filter_length lxcIsActiveVM (vms driver)) as Hsum.
  unfold counters_reconciled, store_vm. simpl.
  rewrite Ha, Hi. unfold int_decr, int_incr.
  rewrite !int_wrap_small by (unfold INT_MIN, INT_MAX in *; lia).
  split; lia.
Qed.

End StartInvariant.

(** ** The properties on the example platforms *)

(** Root starts the driver on the friendly kernel: start-up returns 0 and
    the pointer is set. *)
Lemma lxcStartup_result_witness :
  exists lxc_driver' w',
    lxcStartup (platform_of friendly_kernel) None root_process
    = (Ret (0, lxc_driver'), w') /\
    lxc_driver' <> None.
Proof.
  eexists _, _. split; [vm_compute; reflexivity|].
  refine (proj2 (proj1 (proj2 (proj2
    (lxcStartup_result (platform_of friendly_kernel) None _ 0 root_process
       _ _))) eq_refl)).
  vm_compute. reflexivity.
Defined.

(** Shutting the zeroed driver down, and then once more. *)
Lemma lxcShutdown_twice_witness :
  exists w',
    lxcShutdown (platform_of friendly_kernel) (Some zeroed_driver) root_process
    = (Ret (0, None), w') /\
    lxcShutdown (platform_of friendly_kernel) None w' = (Ret (-1, None), w').
Proof.
  eexists. split; [vm_compute; reflexivity|].
  refine (proj1 (proj2 (proj2 (proj2
    (lxcShutdown_twice (platform_of friendly_kernel) (Some zeroed_driver)
       None 0 root_process _ _))))).
  vm_compute. reflexivity.
Defined.

(** The example registry listed into an array of five slots: the count
    stays within [nids] and the array keeps its length. *)
Lemma lxcListDomains_bounds_witness :
  let res := lxcListDomains example_driver [0; 0; 0; 0; 0] 5 in
  length (fst res) = 5%nat /\ 0 <= snd res <= 5.
Proof.
  intros res.
  destruct (lxcListDomains_bounds example_driver [0; 0; 0; 0; 0] 5)
    as (Hl & Hb & _).
  - unfold INT_MAX. lia.
  - simpl. lia.
  - split; [exact Hl | exact Hb].
Defined.

(** The example registry has one defined domain, "c2". *)
Lemma lxcListDefinedDomains_names_witness :
  exists names' w',
    lxcListDefinedDomains (platform_of friendly_kernel) example_driver
      [None; None] 2 root_process = (Ret (1, names'), w') /\
    take 1 names' = [Some "c2"].
Proof.
  destruct (lxcListDefinedDomains_names (platform_of friendly_kernel)
              example_driver [None; None] 2 root_process)
    as (rc & names' & w' & Hr & Ht & _ & Hrc).
  - intros h n. simpl. lia.
  - unfold INT_MAX. lia.
  - simpl. lia.
  - simpl in Hrc. subst rc. exists names', w'. split; [exact Hr | exact Ht].
Defined.

(** The same listing on a kernel without memory: -1, and nothing held. *)
Lemma lxcListDefinedDomains_no_leak_witness :
  let P := platform_of (answering is_malloc (ok 0) friendly_kernel) in
  exists names' w',
    lxcListDefinedDomains P example_driver [None; None] 2 root_process
    = (Ret (-1, names'), w') /\
    releases (since root_process w') = allocations (since root_process w').
Proof.
  intros P.
  destruct (lxcListDefinedDomains_no_leak P example_driver [None; None] 2
              root_process)
    as (rc & names' & w' & Hr & _ & _ & Hfail & _).
  - unfold INT_MAX. lia.
  - simpl. lia.
  - assert (Hrc : rc = -1).
    { assert (H : fst (lxcListDefinedDomains P example_driver [None; None] 2
                         root_process)
                  = Ret (-1, [None; None])) by reflexivity.
      rewrite Hr in H. simpl in H. congruence. }
    subst rc. exists names', w'. split; [exact Hr | apply Hfail; reflexivity].
Defined.

(** The tunnel setup when [grantpt] fails: the definition is untouched. *)
Lemma lxcSetupTtyTunnel_failure_closes_witness :
  let P := platform_of (answering is_grantpt (failing EPERM) friendly_kernel) in
  let d := def (defined_vm "c1" "/dev/ptmx") in
  exists d' w',
    lxcSetupTtyTunnel P d root_process = (Ret (-1, d', 4), w') /\
    d' = d /\ open_fds w' = [].
Proof.
  intros P d. eexists _, _. split; [vm_compute; reflexivity|].
  split; [|reflexivity].
  refine (proj1 (lxcSetupTtyTunnel_failure_closes P d _ (-1) 4 root_process
                   _ _ _)).
  - vm_compute. reflexivity.
  - lia.
Defined.

(** The tunnel setup when [ptsname] returns NULL: 0, and descriptor 4 is
    left open. *)
Lemma lxcSetupTtyTunnel_ptsname_null_witness :
  let P := platform_of (answering is_ptsname (ok 0) friendly_kernel) in
  let d := def (defined_vm "c1" "/dev/ptmx") in
  exists fd w',
    lxcSetupTtyTunnel P d root_process = (Ret (0, d, fd), w') /\
    In fd (open_fds w').
Proof.
  intros P d.
  destruct (lxcSetupTtyTunnel_ptsname_null P d root_process)
    as (fd & w' & Hr & _ & Hin & _).
  - discriminate.
  - intros h p f. simpl. lia.
  - intros h fd. simpl. lia.
  - intros h fd. reflexivity.
  - intros h fd. reflexivity.
  - exists fd, w'. split; [exact Hr | exact Hin].
Defined.

(** The tunnel setup on the friendly kernel: the definition's tty becomes
    "/dev/pts/3". *)
Lemma lxcSetupTtyTunnel_clean_witness :
  let P := platform_of friendly_kernel in
  let d := def (defined_vm "c1" "/dev/ptmx") in
  exists d' w',
    lxcSetupTtyTunnel P d root_process = (Ret (0, d', 4), w') /\
    open_fds w' = [4].
Proof.
  intros P d. eexists _, _. split; [vm_compute; reflexivity|].
  refine (proj1 (proj2 (proj2
    (lxcSetupTtyTunnel_clean P d _ 0 4 root_process _ _ _ _)))).
  - vm_compute. reflexivity.
  - reflexivity.
  - discriminate.
Defined.

(** The container-side setup on the friendly kernel. *)
Lemma lxcSetupContainerTty_result_witness :
  let P := platform_of friendly_kernel in
  exists n w',
    lxcSetupContainerTty P None root_process = (Ret (0, 5, n), w') /\
    open_fds w' = [5].
Proof.
  intros P. eexists _, _. split; [vm_compute; reflexivity|].
  refine (proj1 (proj2 (proj2 (proj2 (proj2
    (lxcSetupContainerTty_result P None _ 0 5 root_process _ _)) eq_refl)))).
  vm_compute. reflexivity.
Defined.

(** Shutdown, then destroy, of the first running domain of the example
    registry. *)
Lemma shutdown_then_destroy_witness :
  let P := platform_of friendly_kernel in
  let dom := handle_of (running_vm "c1" 41 40) in
  exists d1 w1 d2 w2,
    lxcDomainShutdown P example_driver dom root_process = (Ret (0, d1), w1) /\
    lxcDomainDestroy P 1 d1 dom w1 = (Ret (0, d2), w2) /\
    forall fuel' w0 d2' w2',
      lxcDomainDestroy P fuel' example_driver dom w0 = (Ret (0, d2'), w2') ->
      d2' = d2.
Proof.
  intros P dom. eexists _, _, _, _.
  split; [vm_compute; reflexivity|]. split; [vm_compute; reflexivity|].
  refine (proj2 (shutdown_then_destroy P 1 example_driver _ _ dom
                   root_process _ _ _ _)).
  - vm_compute. reflexivity.
  - vm_compute. reflexivity.
Defined.

(** Start, then destroy, of the domain "c1": the counters are 0 and 1
    again. *)
Lemma start_destroy_counters_witness :
  let P := platform_of friendly_kernel in
  let driver := start_driver "c1" "" in
  exists vm' d1 w1 d2 w2,
    lxcVmStart P 0 driver (defined_vm "c1" "") root_process
    = (Ret (0, vm', d1), w1) /\
    lxcDomainDestroy P 1 (store_vm 0 vm' d1) (started_handle "c1") w1
    = (Ret (0, d2), w2) /\
    nactivevms d2 = 0 /\ ninactivevms d2 = 1.
Proof.
  intros P driver. eexists _, _, _, _, _.
  split; [vm_compute; reflexivity|]. split; [vm_compute; reflexivity|].
  refine ((fun H => conj (proj1 H) (proj1 (proj2 H)))
            (start_destroy_counters P 0 1 0 driver _ _ (defined_vm "c1" "") _
               (started_handle "c1") root_process _ _ _ _ _ _)).
  - unfold INT_MIN, INT_MAX. simpl. lia.
  - unfold INT_MIN, INT_MAX. simpl. lia.
  - vm_compute. reflexivity.
  - vm_compute. reflexivity.
Defined.

(** Shutdown of the first running domain of the example registry: two
    domains are still counted as running. *)
Lemma lxcDomainShutdown_keeps_listing_witness :
  let P := platform_of friendly_kernel in
  exists d' w',
    lxcDomainShutdown P example_driver (handle_of (running_vm "c1" 41 40))
      root_process = (Ret (0, d'), w') /\
    lxcNumDomains d' = 2 /\
    lxcListDomains d' [0; 0] 2 = ([41; 43], 2).
Proof.
  intros P. eexists _, _. split; [vm_compute; reflexivity|].
  refine ((fun H => conj (proj1 (proj2 (proj2 H))) (proj1 H _ _))
            (lxcDomainShutdown_keeps_listing P example_driver _
               (handle_of (running_vm "c1" 41 40)) 0 root_process _ _)).
  vm_compute. reflexivity.
Defined.

(** Destroy of the first running domain of the example registry: only 43
    is still running. *)
Lemma lxcDomainDestroy_then_gone_witness :
  let P := platform_of friendly_kernel in
  exists d1 w1,
    lxcDomainDestroy P 1 example_driver (handle_of (running_vm "c1" 41 40))
      root_process = (Ret (0, d1), w1) /\
    active_ids (vms d1) = [43] /\
    lxcFindVMByID d1 41 = None.
Proof.
  intros P. eexists _, _. split; [vm_compute; reflexivity|].
  refine ((fun H => conj (proj1 (proj2 H)) (proj1 H))
            (lxcDomainDestroy_then_gone P 1 example_driver _
               (handle_of (running_vm "c1" 41 40)) root_process _ _ _)).
  - unfold active_ids. simpl.
    apply List.NoDup_cons; [simpl; intros [H|[]]; discriminate|].
    apply List.NoDup_cons; [simpl; tauto | apply List.NoDup_nil].
  - vm_compute. reflexivity.
Defined.

(** The example registry's counters match its partitions, and it is
    active. *)
Lemma lxcActive_iff_running_witness :
  counters_reconciled example_driver /\ lxcActive (Some example_driver) = 1.
Proof.
  assert (H : counters_reconciled example_driver) by (split; reflexivity).
  split; [exact H|].
  apply (proj1 (lxcActive_iff_running example_driver H)).
  exists (running_vm "c1" 41 40). split; [left; reflexivity | reflexivity].
Defined.

(** Starting the one defined domain of a registry: counters 1 and 0. *)
Lemma lxcVmStart_counters_reconciled_witness :
  let P := platform_of friendly_kernel in
  let driver := start_driver "c1" "" in
  exists vm' d1 w1,
    lxcVmStart P 0 driver (defined_vm "c1" "") root_process
    = (Ret (0, vm', d1), w1) /\
    counters_reconciled (store_vm 0 vm' d1).
Proof.
  intros P driver. eexists _, _, _. split; [vm_compute; reflexivity|].
  refine (lxcVmStart_counters_reconciled P 0 0 driver _ (defined_vm "c1" "")
            _ root_process _ _ _ _ _ _).
  - reflexivity.
  - reflexivity.
  - unfold INT_MAX. simpl. lia.
  - split; reflexivity.
  - vm_compute. reflexivity.
Defined.
